(** * yolov8_ros: the 2D-to-3D detection projector ([detect_3d_node.py])

    Two shallow embeddings of [Detect3DNode], and the properties its
    specification states about it.

    The first embedding follows the algebra of the code.  A Python/NumPy
    floating point value is modelled by [float]: NaN, the two infinities,
    or a finite value carried exactly as a rational.  The special values
    follow the IEEE rules the code relies on ([np.isnan], [np.isinf],
    [np.ma.masked_invalid], division by zero); rounding, overflow to
    infinity and the sign of zero are not modelled.  What the detector
    supplies (pixel coordinates, box sizes, confidence scores) and the
    configured threshold are finite and modelled as rationals; depth
    samples, camera intrinsics and everything computed from them are
    [float]s.  Python integers are [Z].  It carries the statements that do
    not hinge on rounding: where the crop is taken, which pixel anchors a
    box, the values of the specification's scenarios, the algebra of the
    rotation.

    The second embedding, the module [Fp], computes with IEEE 754 binary64
    numbers and raises the exceptions of Python and NumPy: [int()] of a
    value that is not finite, the conversion to [np.int16] beyond the
    range of a C [long], an index outside the image, the decoder of the
    depth message.  It carries the statements about the values the node
    returns and about when it returns at all.

    Effects.  A function that can raise returns a [result]; the error
    stream of the logger is returned next to the result of the function
    that writes to it.  The transform buffer and the image decoder are
    collaborators of the node: the lookup is a field of the node; the
    decoded depth image is an argument in the first embedding and the
    decoder a field of the node in the second. *)

From Stdlib Require Import String QArith Qabs Qround Lqa Lia ZArith Bool List.
From Stdlib Require Floats.
Import ListNotations.
Open Scope Q_scope.

(* ================================================================== *)
(** * Floating point values *)
(* ================================================================== *)

Inductive float : Type :=
| NaN
| Inf (negative : bool)
| Fin (q : Q).

Definition Qltb (p q : Q) : bool := negb (Qle_bool q p).

Definition of_Z (z : Z) : float := Fin (inject_Z z).

Definition fopp (a : float) : float :=
  match a with
  | NaN => NaN
  | Inf s => Inf (negb s)
  | Fin q => Fin (- q)
  end.

Definition fadd (a b : float) : float :=
  match a, b with
  | NaN, _ | _, NaN => NaN
  | Inf s, Inf s' => if Bool.eqb s s' then Inf s else NaN
  | Inf s, Fin _ => Inf s
  | Fin _, Inf s => Inf s
  | Fin p, Fin q => Fin (p + q)
  end.

Definition fsub (a b : float) : float := fadd a (fopp b).

Definition fmul (a b : float) : float :=
  match a, b with
  | NaN, _ | _, NaN => NaN
  | Inf s, Inf s' => Inf (xorb s s')
  | Inf s, Fin q | Fin q, Inf s =>
      if Qeq_bool q 0 then NaN else Inf (xorb s (Qltb q 0))
  | Fin p, Fin q => Fin (p * q)
  end.

(** NumPy division: a finite value over zero is an infinity (or NaN for
    0/0) with a warning, never an exception. *)
Definition fdiv (a b : float) : float :=
  match a, b with
  | NaN, _ | _, NaN => NaN
  | Inf _, Inf _ => NaN
  | Inf s, Fin q => Inf (xorb s (Qltb q 0))
  | Fin _, Inf _ => Fin 0
  | Fin p, Fin q =>
      if Qeq_bool q 0
      then (if Qeq_bool p 0 then NaN else Inf (Qltb p 0))
      else Fin (p / q)
  end.

Definition fabs (a : float) : float :=
  match a with
  | NaN => NaN
  | Inf _ => Inf false
  | Fin q => Fin (Qabs q)
  end.

(** Comparisons are false as soon as one side is NaN. *)
Definition feqb (a b : float) : bool :=
  match a, b with
  | Inf s, Inf s' => Bool.eqb s s'
  | Fin p, Fin q => Qeq_bool p q
  | _, _ => false
  end.

Definition fleb (a b : float) : bool :=
  match a, b with
  | NaN, _ | _, NaN => false
  | Inf true, _ => true
  | _, Inf false => true
  | Inf false, _ => false
  | _, Inf true => false
  | Fin p, Fin q => Qle_bool p q
  end.

Definition fltb (a b : float) : bool :=
  match a, b with
  | NaN, _ | _, NaN => false
  | _, _ => negb (fleb b a)
  end.

Definition isnan (a : float) : bool :=
  match a with NaN => true | _ => false end.

Definition isinf (a : float) : bool :=
  match a with Inf _ => true | _ => false end.

Definition isfinite (a : float) : bool :=
  match a with Fin _ => true | _ => false end.

(** Truth value of a float, as [np.any] sees it: everything but zero. *)
Definition truthy (a : float) : bool := negb (feqb a (Fin 0)).

(** Two floats denote the same value. *)
Definition same (a b : float) : Prop :=
  match a, b with
  | NaN, NaN => True
  | Inf s, Inf s' => s = s'
  | Fin p, Fin q => p == q
  | _, _ => False
  end.

(* ================================================================== *)
(** * Python and NumPy primitives *)
(* ================================================================== *)

(** [int(x)] of a finite float: truncation toward zero. *)
Definition py_int (q : Q) : Z := Z.quot (Qnum q) (Zpos (Qden q)).

(** Exceptions that can reach a caller. *)
Inductive exn : Type :=
| IndexError
| TransformException (msg : string).

Inductive result (A : Type) : Type :=
| Ok (a : A)
| Raise (e : exn).
Arguments Ok {A} a.
Arguments Raise {A} e.

Definition bind {A B : Type} (m : result A) (f : A -> result B) : result B :=
  match m with
  | Ok a => f a
  | Raise e => Raise e
  end.

Notation "x <- m ;; k" := (bind m (fun x => k))
  (at level 61, m at next level, right associativity).

Fixpoint mapM {A B : Type} (f : A -> result B) (l : list A) : result (list B) :=
  match l with
  | [] => Ok []
  | a :: l' => b <- f a ;; bs <- mapM f l' ;; Ok (b :: bs)
  end.

(** A bound of a slice [a[lo:hi]] over a sequence of length [n]: a
    negative bound counts from the end, and both are clamped to [0..n]. *)
Definition slice_bound (n i : Z) : Z :=
  if (i <? 0)%Z then Z.max (i + n) 0 else Z.min i n.

(** The indices selected by [a[lo:hi]], in order. *)
Definition slice_indices (n lo hi : Z) : list Z :=
  let s := slice_bound n lo in
  let e := slice_bound n hi in
  map (fun k => (s + Z.of_nat k)%Z) (seq 0 (Z.to_nat (e - s))).

(** The plain half-open range [lo, hi). *)
Definition zrange (lo hi : Z) : list Z :=
  map (fun k => (lo + Z.of_nat k)%Z) (seq 0 (Z.to_nat (hi - lo))).

(** A two-dimensional [np.ndarray] of shape [(shape0, shape1)]; [item r c]
    is read only for [0 <= r < shape0] and [0 <= c < shape1]. *)
Record ndarray : Type := {
  shape0 : nat;
  shape1 : nat;
  item : Z -> Z -> float
}.

(** An integer index into an axis of length [n]: negative indices count
    from the end, anything outside [-n, n) raises. *)
Definition np_index (n : nat) (i : Z) : result Z :=
  if ((- Z.of_nat n <=? i) && (i <? Z.of_nat n))%Z%bool
  then Ok (if (i <? 0)%Z then (i + Z.of_nat n)%Z else i)
  else Raise IndexError.

(** [a[r, c]] (and [a[r][c]]). *)
Definition getitem (a : ndarray) (r c : Z) : result float :=
  r' <- np_index (shape0 a) r ;;
  c' <- np_index (shape1 a) c ;;
  Ok (item a r' c').

(** [a[v_lo:v_hi, u_lo:u_hi]], as a list of rows. *)
Definition getslice (a : ndarray) (v_lo v_hi u_lo u_hi : Z) : list (list float) :=
  map (fun v => map (fun u => item a v u)
                    (slice_indices (Z.of_nat (shape1 a)) u_lo u_hi))
      (slice_indices (Z.of_nat (shape0 a)) v_lo v_hi).

(** Elementwise [a / d]. *)
Definition np_div (a : list (list float)) (d : float) : list (list float) :=
  map (map (fun s => fdiv s d)) a.

(** [np.any(a)] on a plain array. *)
Definition np_any (a : list (list float)) : bool := existsb truthy (concat a).

(** [np.clip(a, lo, hi)] on one element: [minimum(maximum(a, lo), hi)]. *)
Definition clip (a lo hi : Z) : Z := Z.min (Z.max a lo) hi.

(** Storing a Python float into an [np.int16] array: the value is
    converted to an integer (truncation) and narrowed to 16 bits, wrapping
    around.  Pixel coordinates are far below the range of a C [long], so
    the intermediate conversion to [long] is not modelled. *)
Definition wrap16 (z : Z) : Z := ((z + 32768) mod 65536 - 32768)%Z.
Definition int16 (q : Q) : Z := wrap16 (py_int q).

(** ** Masked arrays ([np.ma])

    An entry of a masked array is [None] when masked and [Some v]
    otherwise.  Every [np.ma] operation used by the node carries the mask
    along elementwise and every reduction skips masked entries, so the
    payload stored under a masked entry never reaches a result.  The
    arrays are flattened in row-major order: the node only applies
    elementwise operations, boolean indexing and whole-array reductions to
    them. *)

(** [np.ma.masked_invalid]: NaN and the infinities are masked. *)
Definition masked_invalid (a : list float) : list (option Q) :=
  map (fun s => match s with Fin q => Some q | _ => None end) a.

Definition ma_isfinite (a : list (option Q)) : list (option bool) :=
  map (option_map (fun _ : Q => true)) a.

Definition ma_ne0 (a : list (option Q)) : list (option bool) :=
  map (option_map (fun q => negb (Qeq_bool q 0))) a.

Definition ma_gt0 (a : list (option Q)) : list (option bool) :=
  map (option_map (fun q => Qltb 0 q)) a.

(** [np.any] of a masked boolean array: masked entries count as false
    (an all-masked array gives the falsy constant [masked]). *)
Definition ma_any (m : list (option bool)) : bool :=
  existsb (fun o => match o with Some true => true | _ => false end) m.

(** Boolean indexing [a[m]], [m] having the mask of [a].  Where [m] is
    masked the element, if it is selected at all, stays masked; the model
    keeps it, masked. *)
Fixpoint ma_getitem (a : list (option Q)) (m : list (option bool)) : list (option Q) :=
  match a, m with
  | x :: a', Some true :: m' => x :: ma_getitem a' m'
  | _ :: a', Some false :: m' => ma_getitem a' m'
  | _ :: a', None :: m' => None :: ma_getitem a' m'
  | _, _ => []
  end.

(** The unmasked entries. *)
Fixpoint compressed (a : list (option Q)) : list Q :=
  match a with
  | [] => []
  | Some q :: a' => q :: compressed a'
  | None :: a' => compressed a'
  end.

Definition Qsum (l : list Q) : Q := fold_right Qplus 0 l.

(** The mean of a non-empty list. *)
Definition Qmean (l : list Q) : Q := Qsum l / inject_Z (Z.of_nat (length l)).

(** [np.mean] of a masked array: the mean of the unmasked entries, the
    constant [masked] ([None]) when there is none. *)
Definition ma_mean (a : list (option Q)) : option Q :=
  match compressed a with
  | [] => None
  | l => Some (Qmean l)
  end.

Definition Qmin (p q : Q) : Q := if Qle_bool p q then p else q.
Definition Qmax (p q : Q) : Q := if Qle_bool p q then q else p.

Definition Qminimum (l : list Q) : option Q :=
  match l with
  | [] => None
  | q :: l' => Some (fold_left Qmin l' q)
  end.

Definition Qmaximum (l : list Q) : option Q :=
  match l with
  | [] => None
  | q :: l' => Some (fold_left Qmax l' q)
  end.

(** [np.min] and [np.max] of a masked array. *)
Definition ma_min (a : list (option Q)) : option Q := Qminimum (compressed a).
Definition ma_max (a : list (option Q)) : option Q := Qmaximum (compressed a).

(** [a - s] for a masked scalar [s]. *)
Definition ma_sub (a : list (option Q)) (s : option Q) : list (option Q) :=
  map (fun o => match o, s with
                | Some q, Some c => Some (q - c)
                | _, _ => None
                end) a.

Definition ma_abs (a : list (option Q)) : list (option Q) :=
  map (option_map Qabs) a.

Definition ma_le (a : list (option Q)) (t : Q) : list (option bool) :=
  map (option_map (fun q => Qle_bool q t)) a.

(** A masked scalar used as a float; [masked] only arises on paths the
    node has already left. *)
Definition ma_float (s : option Q) : float :=
  match s with
  | Some q => Fin q
  | None => NaN
  end.

(* ================================================================== *)
(** * Messages *)
(* ================================================================== *)

(** The message types ([yolov8_msgs], [geometry_msgs], [sensor_msgs]) are
    declared outside this file's source; only the fields the node reads
    or writes are kept.  A [Pose] is reduced to its position. *)

Module Point2D.
Record t : Type := { x : Q; y : Q }.
Definition default : t := {| x := 0; y := 0 |}.
End Point2D.

Module KeyPoint2D.
Record t : Type := { id : Z; point : Point2D.t; score : Q }.
Definition default : t := {| id := 0; point := Point2D.default; score := 0 |}.
End KeyPoint2D.

Module BoundingBox2D.
Record t : Type := { center : Point2D.t; size : Point2D.t }.
End BoundingBox2D.

Module Vector3.
Record t : Type := { x : float; y : float; z : float }.
Definition zero : t := {| x := Fin 0; y := Fin 0; z := Fin 0 |}.
End Vector3.

Module BoundingBox3D.
Record t : Type := { center : Vector3.t; size : Vector3.t; frame_id : string }.
Definition default : t :=
    {| center := Vector3.zero; size := Vector3.zero; frame_id := EmptyString |}.
End BoundingBox3D.

Module KeyPoint3D.
Record t : Type := { point : Vector3.t; id : Z; score : Q }.
End KeyPoint3D.

Module KeyPoint3DArray.
Record t : Type := { data : list KeyPoint3D.t; frame_id : string }.
Definition default : t := {| data := []; frame_id := EmptyString |}.
End KeyPoint3DArray.

Module Detection.
Record t : Type := {
    class_id : Z;
    class_name : string;
    score : Q;
    bbox : BoundingBox2D.t;
    bbox3d : BoundingBox3D.t;
    keypoints : list KeyPoint2D.t;
    keypoints3d : KeyPoint3DArray.t
  }.
Definition set_bbox3d (d : t) (b : BoundingBox3D.t) : t :=
    {| class_id := class_id d; class_name := class_name d; score := score d;
       bbox := bbox d; bbox3d := b; keypoints := keypoints d;
       keypoints3d := keypoints3d d |}.
Definition set_keypoints3d (d : t) (k : KeyPoint3DArray.t) : t :=
    {| class_id := class_id d; class_name := class_name d; score := score d;
       bbox := bbox d; bbox3d := bbox3d d; keypoints := keypoints d;
       keypoints3d := k |}.
End Detection.

Module CameraInfo.
  (** [k] is the row-major 3x3 intrinsic matrix, a [float64[9]]. *)
Record t : Type := { frame_id : string; height : nat; width : nat; k : nat -> float }.
End CameraInfo.

Module TransformStamped.
  (** [rotation] is the quaternion, read as [(w, x, y, z)]. *)
Record t : Type := {
    translation : Vector3.t;
    rotation_w : float;
    rotation_xyz : Vector3.t
  }.
End TransformStamped.

(** A 3-vector and a quaternion [(w, x, y, z)] held in NumPy arrays. *)
Definition vec3 : Type := (float * float * float)%type.
Definition quat : Type := (float * float * float * float)%type.

(* ================================================================== *)
(** * The node *)
(* ================================================================== *)

(** The parameters read in [on_configure], and the transform buffer. *)
Record Detect3DNode : Type := {
  target_frame : string;
  maximum_detection_threshold : Q;
  depth_image_units_divisor : Z;
  (** [tf_buffer.lookup_transform(target, source, Time())] *)
  lookup_transform : string -> string -> result TransformStamped.t
}.

(** ** [qv_mult] *)

(** [np.cross] of two 3-vectors. *)
Definition cross (a b : vec3) : vec3 :=
  let '(a0, a1, a2) := a in
  let '(b0, b1, b2) := b in
  (fsub (fmul a1 b2) (fmul a2 b1),
   fsub (fmul a2 b0) (fmul a0 b2),
   fsub (fmul a0 b1) (fmul a1 b0)).

Definition vadd (a b : vec3) : vec3 :=
  let '(a0, a1, a2) := a in
  let '(b0, b1, b2) := b in
  (fadd a0 b0, fadd a1 b1, fadd a2 b2).

Definition vsub (a b : vec3) : vec3 :=
  let '(a0, a1, a2) := a in
  let '(b0, b1, b2) := b in
  (fsub a0 b0, fsub a1 b1, fsub a2 b2).

(** [a * s] and [s * a] for a scalar [s]. *)
Definition vscale (s : float) (a : vec3) : vec3 :=
  let '(a0, a1, a2) := a in (fmul s a0, fmul s a1, fmul s a2).

Definition qv_mult (q : quat) (v : vec3) : vec3 :=
  let '(q0, q1, q2, q3) := q in
  let qvec := (q1, q2, q3) in
  let uv := cross qvec v in
  let uuv := cross qvec uv in
  vadd v (vscale (Fin 2) (vadd (vscale q0 uv) uuv)).

(** ** [get_transform] *)

(** Returns [(translation, rotation)], or [None] after logging when the
    lookup raises a [TransformException]; the second component is what
    was written to the logger's error stream. *)
Definition get_transform (self : Detect3DNode) (frame_id : string)
  : result (option (vec3 * quat)) * list string :=
  match lookup_transform self (target_frame self) frame_id with
  | Ok transform =>
      let t := TransformStamped.translation transform in
      let r := TransformStamped.rotation_xyz transform in
      let translation := (Vector3.x t, Vector3.y t, Vector3.z t) in
      let rotation := (TransformStamped.rotation_w transform,
                       Vector3.x r, Vector3.y r, Vector3.z r) in
      (Ok (Some (translation, rotation)), [])
  | Raise (TransformException ex) =>
      (Ok None, [("Could not transform: " ++ ex)%string])
  | Raise e => (Raise e, [])
  end.

(** ** [transform_3d_box] and [transform_3d_keypoints] *)

Definition transform_3d_box (bbox : BoundingBox3D.t) (translation : vec3)
    (rotation : quat) : BoundingBox3D.t :=
  let c := BoundingBox3D.center bbox in
  let s := BoundingBox3D.size bbox in
  let '(p0, p1, p2) :=
    vadd (qv_mult rotation (Vector3.x c, Vector3.y c, Vector3.z c)) translation in
  let '(s0, s1, s2) :=
    qv_mult rotation (Vector3.x s, Vector3.y s, Vector3.z s) in
  {| BoundingBox3D.center := {| Vector3.x := p0; Vector3.y := p1; Vector3.z := p2 |};
     BoundingBox3D.size :=
       {| Vector3.x := fabs s0; Vector3.y := fabs s1; Vector3.z := fabs s2 |};
     BoundingBox3D.frame_id := BoundingBox3D.frame_id bbox |}.

Definition transform_3d_keypoints (keypoints : KeyPoint3DArray.t)
    (translation : vec3) (rotation : quat) : KeyPoint3DArray.t :=
  {| KeyPoint3DArray.data :=
       map (fun point =>
              let p := KeyPoint3D.point point in
              let '(p0, p1, p2) :=
                vadd (qv_mult rotation (Vector3.x p, Vector3.y p, Vector3.z p))
                     translation in
              {| KeyPoint3D.point :=
                   {| Vector3.x := p0; Vector3.y := p1; Vector3.z := p2 |};
                 KeyPoint3D.id := KeyPoint3D.id point;
                 KeyPoint3D.score := KeyPoint3D.score point |})
           (KeyPoint3DArray.data keypoints);
     KeyPoint3DArray.frame_id := KeyPoint3DArray.frame_id keypoints |}.

(** ** [convert_bb_to_3d] *)

(** The state of the loop over [detection.keypoints.data]. *)
Record anchors : Type := {
  up_detected : bool;
  down_detected : bool;
  kp5 : KeyPoint2D.t;
  kp6 : KeyPoint2D.t;
  kp11 : KeyPoint2D.t;
  kp12 : KeyPoint2D.t
}.

Definition anchors_init : anchors :=
  {| up_detected := false; down_detected := false;
     kp5 := KeyPoint2D.default; kp6 := KeyPoint2D.default;
     kp11 := KeyPoint2D.default; kp12 := KeyPoint2D.default |}.

Definition scan_keypoint (a : anchors) (kp : KeyPoint2D.t) : anchors :=
  if (KeyPoint2D.id kp =? 5)%Z then
    {| up_detected := true; down_detected := down_detected a;
       kp5 := kp; kp6 := kp6 a; kp11 := kp11 a; kp12 := kp12 a |}
  else if (KeyPoint2D.id kp =? 6)%Z then
    {| up_detected := true; down_detected := down_detected a;
       kp5 := kp5 a; kp6 := kp; kp11 := kp11 a; kp12 := kp12 a |}
  else if (KeyPoint2D.id kp =? 11)%Z then
    {| up_detected := up_detected a; down_detected := true;
       kp5 := kp5 a; kp6 := kp6 a; kp11 := kp; kp12 := kp12 a |}
  else if (KeyPoint2D.id kp =? 12)%Z then
    {| up_detected := up_detected a; down_detected := true;
       kp5 := kp5 a; kp6 := kp6 a; kp11 := kp11 a; kp12 := kp |}
  else a.

Definition scan_keypoints (data : list KeyPoint2D.t) : anchors :=
  fold_left scan_keypoint data anchors_init.

(** [a if a.score > b.score else b] *)
Definition better (a b : KeyPoint2D.t) : KeyPoint2D.t :=
  if Qltb (KeyPoint2D.score b) (KeyPoint2D.score a) then a else b.

Definition midpoint (up down : KeyPoint2D.t) : Q * Q :=
  ((Point2D.x (KeyPoint2D.point up) + Point2D.x (KeyPoint2D.point down)) / 2,
   (Point2D.y (KeyPoint2D.point up) + Point2D.y (KeyPoint2D.point down)) / 2).

Definition pixel (kp : KeyPoint2D.t) : Q * Q :=
  (Point2D.x (KeyPoint2D.point kp), Point2D.y (KeyPoint2D.point kp)).

(** The four conditionals that follow the keypoint loop, applied to the
    box centre [(center_x, center_y)]; the result is the pair before the
    final [int(...)]. *)
Definition resolve_anchor (a : anchors) (center : Q * Q) : Q * Q :=
  let c1 :=
    if up_detected a && down_detected a
    then midpoint (better (kp5 a) (kp6 a)) (better (kp11 a) (kp12 a))
    else center in
  let c2 :=
    if up_detected a && negb (down_detected a)
    then pixel (better (kp5 a) (kp6 a))
    else c1 in
  let c3 :=
    if down_detected a && negb (up_detected a)
    then pixel (better (kp11 a) (kp12 a))
    else c2 in
  if up_detected a && down_detected a
  then midpoint (better (kp5 a) (kp6 a)) (better (kp11 a) (kp12 a))
  else c3.

(** The clipped crop bounds [(u_min, u_max)] along an axis of length [n]
    for a box of centre [c] and size [s]. *)
Definition crop_bounds (n : nat) (c s : Z) : Z * Z :=
  (Z.max (c - s / 2) 0, Z.min (c + s / 2) (Z.of_nat n - 1))%Z.

(** [roi]: the crop of the depth image by the 2D box, in meters. *)
Definition depth_roi (self : Detect3DNode) (depth_image : ndarray)
    (detection : Detection.t) : list (list float) :=
  let bbox := Detection.bbox detection in
  let center_x := py_int (Point2D.x (BoundingBox2D.center bbox)) in
  let center_y := py_int (Point2D.y (BoundingBox2D.center bbox)) in
  let size_x := py_int (Point2D.x (BoundingBox2D.size bbox)) in
  let size_y := py_int (Point2D.y (BoundingBox2D.size bbox)) in
  let '(u_min, u_max) := crop_bounds (shape1 depth_image) center_x size_x in
  let '(v_min, v_max) := crop_bounds (shape0 depth_image) center_y size_y in
  np_div (getslice depth_image v_min v_max u_min u_max)
         (of_Z (depth_image_units_divisor self)).

(** The pixel [(center_x, center_y)] at which the centre depth is read. *)
Definition anchor_pixel (detection : Detection.t) : Z * Z :=
  let bbox := Detection.bbox detection in
  let center_x := py_int (Point2D.x (BoundingBox2D.center bbox)) in
  let center_y := py_int (Point2D.y (BoundingBox2D.center bbox)) in
  let c := resolve_anchor (scan_keypoints (Detection.keypoints detection))
                          (inject_Z center_x, inject_Z center_y) in
  (py_int (fst c), py_int (snd c)).

Definition convert_bb_to_3d (self : Detect3DNode) (depth_image : ndarray)
    (depth_info : CameraInfo.t) (detection : Detection.t)
  : result (option BoundingBox3D.t) :=
  let bbox := Detection.bbox detection in
  let size_x := py_int (Point2D.x (BoundingBox2D.size bbox)) in
  let size_y := py_int (Point2D.y (BoundingBox2D.size bbox)) in
  let divisor := of_Z (depth_image_units_divisor self) in
  let roi := depth_roi self depth_image detection in
  if negb (np_any roi) then Ok None else
  let '(center_x, center_y) := anchor_pixel detection in
  if ((center_x <? 0) || (Z.of_nat (shape1 depth_image) <=? center_x) ||
      (center_y <? 0) || (Z.of_nat (shape0 depth_image) <=? center_y))%Z%bool
  then Ok None else
  raw <- getitem depth_image center_y center_x ;;
  let bb_center_z_coord := fdiv raw divisor in
  if isnan bb_center_z_coord || feqb bb_center_z_coord (Fin 0) ||
     isinf bb_center_z_coord
  then Ok None else
  let roi := masked_invalid (concat roi) in
  if ma_any (ma_isfinite roi) && ma_any (ma_ne0 roi) then
    let average_z_coord := ma_mean (ma_getitem roi (ma_gt0 roi)) in
    let z_diff := ma_abs (ma_sub roi average_z_coord) in
    let mask_z := ma_le z_diff (maximum_detection_threshold self) in
    if negb (ma_any mask_z) then Ok None else
    let roi_threshold := ma_getitem roi mask_z in
    let z_min := ma_min roi_threshold in
    let z_max := ma_max roi_threshold in
    let k := CameraInfo.k depth_info in
    let px := k 2%nat in
    let py := k 5%nat in
    let fx := k 0%nat in
    let fy := k 4%nat in
    let average := ma_float average_z_coord in
    let x := fdiv (fmul average (fsub (of_Z center_x) px)) fx in
    let y := fdiv (fmul average (fsub (of_Z center_y) py)) fy in
    let w := fmul average (fdiv (of_Z size_x) fx) in
    let h := fmul average (fdiv (of_Z size_y) fy) in
    Ok (Some
      {| BoundingBox3D.center :=
           {| Vector3.x := x; Vector3.y := y; Vector3.z := average |};
         BoundingBox3D.size :=
           {| Vector3.x := w; Vector3.y := h;
              Vector3.z := fsub (ma_float z_max) (ma_float z_min) |};
         BoundingBox3D.frame_id := EmptyString |})
  else Ok None.

(** ** [convert_keypoints_to_3d] *)

Definition has_nan (p : vec3) : bool :=
  let '(p0, p1, p2) := p in isnan p0 || isnan p1 || isnan p2.

Definition KeyPoint3D_of (p : vec3) (d : KeyPoint2D.t) : KeyPoint3D.t :=
  let '(p0, p1, p2) := p in
  {| KeyPoint3D.point := {| Vector3.x := p0; Vector3.y := p1; Vector3.z := p2 |};
     KeyPoint3D.id := KeyPoint2D.id d;
     KeyPoint3D.score := KeyPoint2D.score d |}.

(** The body of the loop that fills [msg_array.data]. *)
Definition append_keypoint (msg_array : list KeyPoint3D.t)
    (pd : vec3 * KeyPoint2D.t) : list KeyPoint3D.t :=
  let '(p, d) := pd in
  if negb (has_nan p) then msg_array ++ [KeyPoint3D_of p d] else msg_array.

Definition convert_keypoints_to_3d (self : Detect3DNode) (depth_image : ndarray)
    (depth_info : CameraInfo.t) (detection : Detection.t)
  : result KeyPoint3DArray.t :=
  let data := Detection.keypoints detection in
  let keypoints_2d :=
    map (fun p => (int16 (Point2D.x (KeyPoint2D.point p)),
                   int16 (Point2D.y (KeyPoint2D.point p)))) data in
  match keypoints_2d with
  | [] => Raise IndexError   (* [keypoints_2d[:, 1]] on an array of shape (0,) *)
  | _ =>
    let u := map (fun r => clip (snd r) 0 (Z.of_nat (CameraInfo.height depth_info) - 1))
                 keypoints_2d in
    let v := map (fun r => clip (fst r) 0 (Z.of_nat (CameraInfo.width depth_info) - 1))
                 keypoints_2d in
    z <- mapM (fun uv => getitem depth_image (fst uv) (snd uv)) (combine u v) ;;
    let k := CameraInfo.k depth_info in
    let px := k 2%nat in
    let py := k 5%nat in
    let fx := k 0%nat in
    let fy := k 4%nat in
    let x := map (fun zv => fdiv (fmul (fst zv) (fsub (of_Z (snd zv)) px)) fx)
                 (combine z v) in
    let y := map (fun zu => fdiv (fmul (fst zu) (fsub (of_Z (snd zu)) py)) fy)
                 (combine z u) in
    let divisor := of_Z (depth_image_units_divisor self) in
    let points_3d :=
      map (fun xyz => let '(xi, yi, zi) := xyz in
                      (fdiv xi divisor, fdiv yi divisor, fdiv zi divisor))
          (combine (combine x y) z) in
    Ok {| KeyPoint3DArray.data :=
            fold_left append_keypoint (combine points_3d data) [];
          KeyPoint3DArray.frame_id := EmptyString |}
  end.

(** ** [process_detections] *)

Definition set_frame_id_box (b : BoundingBox3D.t) (f : string) : BoundingBox3D.t :=
  {| BoundingBox3D.center := BoundingBox3D.center b;
     BoundingBox3D.size := BoundingBox3D.size b;
     BoundingBox3D.frame_id := f |}.

Definition set_frame_id_keypoints (k : KeyPoint3DArray.t) (f : string)
  : KeyPoint3DArray.t :=
  {| KeyPoint3DArray.data := KeyPoint3DArray.data k;
     KeyPoint3DArray.frame_id := f |}.

(** The [for detection in detections_msg.detections] loop, with the list
    [new_detections] built so far. *)
Fixpoint process_loop (self : Detect3DNode) (depth_image : ndarray)
    (depth_info : CameraInfo.t) (transform : vec3 * quat)
    (detections new_detections : list Detection.t) : result (list Detection.t) :=
  match detections with
  | [] => Ok new_detections
  | detection :: rest =>
      bbox3d <- convert_bb_to_3d self depth_image depth_info detection ;;
      match bbox3d with
      | Some bbox3d =>
          let bbox3d := transform_3d_box bbox3d (fst transform) (snd transform) in
          let bbox3d := set_frame_id_box bbox3d (target_frame self) in
          let detection := Detection.set_bbox3d detection bbox3d in
          match Detection.keypoints detection with
          | [] => process_loop self depth_image depth_info transform rest
                    (new_detections ++ [detection])
          | _ =>
              keypoints3d <- convert_keypoints_to_3d self depth_image depth_info
                               detection ;;
              let keypoints3d :=
                transform_3d_keypoints keypoints3d (fst transform) (snd transform) in
              let keypoints3d :=
                set_frame_id_keypoints keypoints3d (target_frame self) in
              process_loop self depth_image depth_info transform rest
                (new_detections ++ [Detection.set_keypoints3d detection keypoints3d])
          end
      | None =>
          process_loop self depth_image depth_info transform rest new_detections
      end
  end.

(** [depth_image] is the decoded depth message
    ([cv_bridge.imgmsg_to_cv2(depth_msg)]).  The second component of the
    result is what the call wrote to the error log. *)
Definition process_detections (self : Detect3DNode) (depth_image : ndarray)
    (depth_info : CameraInfo.t) (detections : list Detection.t)
  : result (list Detection.t) * list string :=
  match detections with
  | [] => (Ok [], [])
  | _ =>
      let '(transform, log) := get_transform self (CameraInfo.frame_id depth_info) in
      match transform with
      | Raise e => (Raise e, log)
      | Ok None => (Ok [], log)
      | Ok (Some transform) =>
          (process_loop self depth_image depth_info transform detections [], log)
      end
  end.

(* ================================================================== *)
(** * The specification's vocabulary *)
(* ================================================================== *)

(** The definitions of this section follow the wording of the
    specification; the theorems below compare them with the node. *)

Definition finite_values (l : list float) : list Q :=
  flat_map (fun s => match s with Fin q => [q] | _ => [] end) l.

(** The strictly-positive, finite depths of a region. *)
Definition positive_finite (roi : list float) : list Q :=
  finite_values (filter (fun s => isfinite s && fltb (Fin 0) s) roi).

(** The robust mean: the mean of the strictly-positive, finite depths. *)
Definition robust_mean (roi : list float) : Q := Qmean (positive_finite roi).

(** The consensus samples: those whose absolute difference from [m] is at
    most the tolerance [t]. *)
Definition consensus (t m : Q) (roi : list float) : list Q :=
  finite_values (filter (fun s => fleb (fabs (fsub s (Fin m))) (Fin t)) roi).

(** The region contains no nonzero value. *)
Definition no_nonzero (roi : list float) : bool :=
  forallb (fun s => feqb s (Fin 0)) roi.

(** The anchor pixel lies outside the image. *)
Definition anchor_outside (depth_image : ndarray) (detection : Detection.t) : bool :=
  let '(cx, cy) := anchor_pixel detection in
  negb ((0 <=? cx) && (cx <? Z.of_nat (shape1 depth_image)) &&
        (0 <=? cy) && (cy <? Z.of_nat (shape0 depth_image)))%Z.

(** The depth at the anchor pixel, in meters. *)
Definition anchor_depth (self : Detect3DNode) (depth_image : ndarray)
    (detection : Detection.t) : float :=
  let '(cx, cy) := anchor_pixel detection in
  fdiv (item depth_image cy cx) (of_Z (depth_image_units_divisor self)).

(** The anchor depth is undefined, zero or infinite. *)
Definition unusable (d : float) : bool :=
  match d with
  | Fin q => Qeq_bool q 0
  | _ => true
  end.

(** The rectangle of the image over rows [v_min, v_max) and columns
    [u_min, u_max), as a list of rows. *)
Definition rectangle (a : ndarray) (v_min v_max u_min u_max : Z) : list (list float) :=
  map (fun v => map (fun u => item a v u) (zrange u_min u_max)) (zrange v_min v_max).

(** The keypoints of a detection that carry one of the ids [ids]. *)
Definition with_ids (ids : list Z) (data : list KeyPoint2D.t) : list KeyPoint2D.t :=
  filter (fun kp => existsb (Z.eqb (KeyPoint2D.id kp)) ids) data.

(** [c] is a highest-confidence keypoint among [l]. *)
Definition best_of (l : list KeyPoint2D.t) (c : KeyPoint2D.t) : Prop :=
  In c l /\ forall kp, In kp l -> KeyPoint2D.score kp <= KeyPoint2D.score c.

(** The anchor the specification prescribes (before truncation to a
    pixel), as a relation: [up] and [down] are the candidates among the
    shoulders (5, 6) and the hips (11, 12). *)
Definition spec_anchor (detection : Detection.t) (c : Q * Q) : Prop :=
  let data := Detection.keypoints detection in
  let ups := with_ids [5; 6]%Z data in
  let downs := with_ids [11; 12]%Z data in
  let bbox := Detection.bbox detection in
  match ups, downs with
  | [], [] =>
      c = (inject_Z (py_int (Point2D.x (BoundingBox2D.center bbox))),
           inject_Z (py_int (Point2D.y (BoundingBox2D.center bbox))))
  | _ :: _, [] => exists up, best_of ups up /\ c = pixel up
  | [], _ :: _ => exists down, best_of downs down /\ c = pixel down
  | _ :: _, _ :: _ =>
      exists up down, best_of ups up /\ best_of downs down /\ c = midpoint up down
  end.

(** The row and the column at which a keypoint's depth is sampled. *)
Definition sample_row (depth_info : CameraInfo.t) (d : KeyPoint2D.t) : Z :=
  clip (int16 (Point2D.y (KeyPoint2D.point d))) 0
       (Z.of_nat (CameraInfo.height depth_info) - 1).

Definition sample_col (depth_info : CameraInfo.t) (d : KeyPoint2D.t) : Z :=
  clip (int16 (Point2D.x (KeyPoint2D.point d))) 0
       (Z.of_nat (CameraInfo.width depth_info) - 1).

(** The raw depth sampled for a keypoint. *)
Definition sampled_depth (depth_image : ndarray) (depth_info : CameraInfo.t)
    (d : KeyPoint2D.t) : float :=
  item depth_image (sample_row depth_info d) (sample_col depth_info d).

(** The projection of one keypoint: clamp, sample, project through the
    pinhole model, convert to meters. *)
Definition keypoint_position (self : Detect3DNode) (depth_image : ndarray)
    (depth_info : CameraInfo.t) (d : KeyPoint2D.t) : vec3 :=
  let k := CameraInfo.k depth_info in
  let divisor := of_Z (depth_image_units_divisor self) in
  let u := sample_row depth_info d in
  let v := sample_col depth_info d in
  let z := sampled_depth depth_image depth_info d in
  (fdiv (fdiv (fmul z (fsub (of_Z v) (k 2%nat))) (k 0%nat)) divisor,
   fdiv (fdiv (fmul z (fsub (of_Z u) (k 5%nat))) (k 4%nat)) divisor,
   fdiv z divisor).

(** The keypoints that survive, projected, in input order. *)
Definition surviving_keypoints (self : Detect3DNode) (depth_image : ndarray)
    (depth_info : CameraInfo.t) (data : list KeyPoint2D.t) : list KeyPoint3D.t :=
  map (fun d => KeyPoint3D_of (keypoint_position self depth_image depth_info d) d)
      (filter (fun d => negb (has_nan (keypoint_position self depth_image depth_info d)))
              data).

(** The camera info describes the depth image. *)
Definition coherent (depth_image : ndarray) (depth_info : CameraInfo.t) : Prop :=
  CameraInfo.height depth_info = shape0 depth_image /\
  CameraInfo.width depth_info = shape1 depth_image.

(** [convert_bb_to_3d] yields a box for the detection. *)
Definition yields_box (self : Detect3DNode) (depth_image : ndarray)
    (depth_info : CameraInfo.t) (detection : Detection.t) : bool :=
  match convert_bb_to_3d self depth_image depth_info detection with
  | Ok (Some _) => true
  | _ => false
  end.

(** The detection augmented with its 3D box (and its 3D keypoints when it
    has keypoints), both moved to the target frame. *)
Definition augmented (self : Detect3DNode) (depth_image : ndarray)
    (depth_info : CameraInfo.t) (transform : vec3 * quat)
    (detection : Detection.t) : Detection.t :=
  match convert_bb_to_3d self depth_image depth_info detection with
  | Ok (Some box) =>
      let d := Detection.set_bbox3d detection
                 (set_frame_id_box
                    (transform_3d_box box (fst transform) (snd transform))
                    (target_frame self)) in
      match Detection.keypoints detection with
      | [] => d
      | data =>
          Detection.set_keypoints3d d
            (set_frame_id_keypoints
               (transform_3d_keypoints
                  {| KeyPoint3DArray.data :=
                       surviving_keypoints self depth_image depth_info data;
                     KeyPoint3DArray.frame_id := EmptyString |}
                  (fst transform) (snd transform))
               (target_frame self))
      end
  | _ => detection
  end.

(** Rational vectors and quaternions, and their embedding. *)
Definition qvec3 : Type := (Q * Q * Q)%type.
Definition qquat : Type := (Q * Q * Q * Q)%type.

Definition fin3 (v : qvec3) : vec3 :=
  let '(a, b, c) := v in (Fin a, Fin b, Fin c).

Definition fin4 (q : qquat) : quat :=
  let '(w, a, b, c) := q in (Fin w, Fin a, Fin b, Fin c).

Definition same3 (a b : vec3) : Prop :=
  let '(a0, a1, a2) := a in
  let '(b0, b1, b2) := b in
  same a0 b0 /\ same a1 b1 /\ same a2 b2.

Definition qcross (a b : qvec3) : qvec3 :=
  let '(a0, a1, a2) := a in
  let '(b0, b1, b2) := b in
  (a1 * b2 - a2 * b1, a2 * b0 - a0 * b2, a0 * b1 - a1 * b0).

(** [rotate(q, v) = v + 2 (q0 (qvec x v) + qvec x (qvec x v))] *)
Definition rotate (q : qquat) (v : qvec3) : qvec3 :=
  let '(q0, q1, q2, q3) := q in
  let '(v0, v1, v2) := v in
  let '(a0, a1, a2) := qcross (q1, q2, q3) v in
  let '(b0, b1, b2) := qcross (q1, q2, q3) (a0, a1, a2) in
  (v0 + 2 * (q0 * a0 + b0), v1 + 2 * (q0 * a1 + b1), v2 + 2 * (q0 * a2 + b2)).


(** The inverse of a unit quaternion. *)
Definition conjugate (q : qquat) : qquat :=
  let '(q0, q1, q2, q3) := q in (q0, - q1, - q2, - q3).



Definition qsame3 (a b : qvec3) : Prop :=
  let '(a0, a1, a2) := a in
  let '(b0, b1, b2) := b in
  a0 == b0 /\ a1 == b1 /\ a2 == b2.


Definition nilb {A : Type} (l : list A) : bool :=
  match l with [] => true | _ => false end.

(** The five reasons for which a detection gets no box. *)
Definition rejected (self : Detect3DNode) (depth_image : ndarray)
    (detection : Detection.t) : bool :=
  let roi := concat (depth_roi self depth_image detection) in
  no_nonzero roi
  || anchor_outside depth_image detection
  || unusable (anchor_depth self depth_image detection)
  || nilb (positive_finite roi)
  || nilb (consensus (maximum_detection_threshold self) (robust_mean roi) roi).

(** The box of a detection that is not rejected: the robust mean as depth,
    the pinhole projection of the anchor pixel and of the pixel size, and
    the spread of the consensus samples. *)
Definition expected_box (self : Detect3DNode) (depth_image : ndarray)
    (depth_info : CameraInfo.t) (detection : Detection.t) : BoundingBox3D.t :=
  let roi := concat (depth_roi self depth_image detection) in
  let m := Fin (robust_mean roi) in
  let c := consensus (maximum_detection_threshold self) (robust_mean roi) roi in
  let '(cx, cy) := anchor_pixel detection in
  let size := BoundingBox2D.size (Detection.bbox detection) in
  let k := CameraInfo.k depth_info in
  {| BoundingBox3D.center :=
       {| Vector3.x := fdiv (fmul m (fsub (of_Z cx) (k 2%nat))) (k 0%nat);
          Vector3.y := fdiv (fmul m (fsub (of_Z cy) (k 5%nat))) (k 4%nat);
          Vector3.z := m |};
     BoundingBox3D.size :=
       {| Vector3.x := fmul m (fdiv (of_Z (py_int (Point2D.x size))) (k 0%nat));
          Vector3.y := fmul m (fdiv (of_Z (py_int (Point2D.y size))) (k 4%nat));
          Vector3.z := fsub (ma_float (Qmaximum c)) (ma_float (Qminimum c)) |};
     BoundingBox3D.frame_id := EmptyString |}.

(** What the keypoint loop leaves in one of its four slots: the keypoint
    of the list that carries the id, or the default keypoint when the id
    does not occur. *)
Definition slot_holds (i : Z) (data : list KeyPoint2D.t) (kp : KeyPoint2D.t) : Prop :=
  (In kp data /\ KeyPoint2D.id kp = i) \/
  ((forall k, In k data -> KeyPoint2D.id k <> i) /\ kp = KeyPoint2D.default).

(** Confidences of the shoulder and hip keypoints are strictly positive,
    and no two of these keypoints share an id. *)
Definition well_scored (data : list KeyPoint2D.t) : Prop :=
  (forall kp, In kp data -> In (KeyPoint2D.id kp) [5; 6; 11; 12]%Z ->
              0 < KeyPoint2D.score kp) /\
  (forall k1 k2, In k1 data -> In k2 data ->
                 In (KeyPoint2D.id k1) [5; 6; 11; 12]%Z ->
                 KeyPoint2D.id k1 = KeyPoint2D.id k2 -> k1 = k2).

(** The pair [(translation, rotation)] that [get_transform] builds from a
    looked-up transform. *)
Definition transform_of (tf : TransformStamped.t) : vec3 * quat :=
  let t := TransformStamped.translation tf in
  let r := TransformStamped.rotation_xyz tf in
  ((Vector3.x t, Vector3.y t, Vector3.z t),
   (TransformStamped.rotation_w tf, Vector3.x r, Vector3.y r, Vector3.z r)).

(** ** Vocabulary of the rigid transform *)

(** The quaternion [-q]. *)
Definition qneg (q : qquat) : qquat :=
  let '(q0, q1, q2, q3) := q in (- q0, - q1, - q2, - q3).






(** ** Vocabulary of the further properties *)

(** The detection with its keypoints replaced. *)
Definition set_keypoints (d : Detection.t) (kps : list KeyPoint2D.t) : Detection.t :=
  {| Detection.class_id := Detection.class_id d;
     Detection.class_name := Detection.class_name d;
     Detection.score := Detection.score d;
     Detection.bbox := Detection.bbox d;
     Detection.bbox3d := Detection.bbox3d d;
     Detection.keypoints := kps;
     Detection.keypoints3d := Detection.keypoints3d d |}.


(* ================================================================== *)
(** * The node in binary64 arithmetic, with Python's exceptions *)
(* ================================================================== *)

(** The module [Fp] embeds the node a second time, with the numbers the
    code computes with: [np.float64] is the kernel's IEEE 754 binary64
    type, so every operation rounds, overflows and propagates NaN as the
    code's does, and the message fields are such floats.  [int(x)] raises
    on NaN and on the infinities, the conversion to [np.int16] raises
    beyond the range of a C [long], and the decoder of the depth message
    may raise.  The depth image holds 16-bit unsigned samples or doubles,
    so that NumPy computes in binary64.  The order in which [np.sum] adds
    its elements is NumPy's own: the summation is a parameter, and what
    is proved holds for every summation. *)

Module Fp.
Import PrimFloat SpecFloat FloatOps.
#[local] Set Warnings "-inexact-float".

Inductive exn : Type :=
| IndexError
| ValueError
| OverflowError
| TransformException (msg : string)
| CvBridgeError (msg : string).

Inductive result (A : Type) : Type :=
| Ok (a : A)
| Raise (e : exn).
Arguments Ok {A} a.
Arguments Raise {A} e.

Definition bind {A B : Type} (m : result A) (f : A -> result B) : result B :=
  match m with
  | Ok a => f a
  | Raise e => Raise e
  end.

Notation "x <-- m ;; k" := (bind m (fun x => k))
  (at level 61, m at next level, right associativity).

Fixpoint mapM {A B : Type} (f : A -> result B) (l : list A) : result (list B) :=
  match l with
  | [] => Ok []
  | a :: l' => b <-- f a ;; bs <-- mapM f l' ;; Ok (b :: bs)
  end.

(** ** Numbers *)

(** A Python integer used where NumPy expects a double (round to
    nearest, ties to even; exact below 2^53). *)
Definition of_Z (z : Z) : float := SF2Prim (binary_normalize prec emax z 0 false).

Definition isfinite (x : float) : bool := negb (is_nan x || is_infinity x).

(** Truth value of a double, as [np.any] sees it. *)
Definition truthy (x : float) : bool := negb (x =? 0)%float.

(** [int(x)]: truncation toward zero; [ValueError] on NaN,
    [OverflowError] on an infinity. *)
Definition py_int (x : float) : result Z :=
  match Prim2SF x with
  | S754_nan => Raise ValueError
  | S754_infinity _ => Raise OverflowError
  | S754_zero _ => Ok 0%Z
  | S754_finite s m e =>
      let a := if (0 <=? e)%Z then Z.shiftl (Zpos m) e
               else Z.shiftr (Zpos m) (- e) in
      Ok (if s then (- a)%Z else a)
  end.

(** A variable that holds a Python [int] at first and may be assigned a
    [float] later ([center_x], [center_y]). *)
Inductive num : Type :=
| PyInt (z : Z)
| PyFloat (x : float).

Definition int_of (n : num) : result Z :=
  match n with
  | PyInt z => Ok z
  | PyFloat x => py_int x
  end.

(** Storing a Python float into an [np.int16] array: [int(x)], then a C
    [long] ([OverflowError] outside [-2^63, 2^63)), then the low 16 bits
    as a signed number. *)
Definition int16 (x : float) : result Z :=
  z <-- py_int x ;;
  if ((- 9223372036854775808 <=? z) && (z <? 9223372036854775808))%Z%bool
  then Ok (wrap16 z)
  else Raise OverflowError.

(** ** Arrays *)

Record ndarray : Type := {
  shape0 : nat;
  shape1 : nat;
  item : Z -> Z -> float
}.

Definition np_index (n : nat) (i : Z) : result Z :=
  if ((- Z.of_nat n <=? i) && (i <? Z.of_nat n))%Z%bool
  then Ok (if (i <? 0)%Z then (i + Z.of_nat n)%Z else i)
  else Raise IndexError.

Definition getitem (a : ndarray) (r c : Z) : result float :=
  r' <-- np_index (shape0 a) r ;;
  c' <-- np_index (shape1 a) c ;;
  Ok (item a r' c').

Definition getslice (a : ndarray) (v_lo v_hi u_lo u_hi : Z) : list (list float) :=
  map (fun v => map (fun u => item a v u)
                    (slice_indices (Z.of_nat (shape1 a)) u_lo u_hi))
      (slice_indices (Z.of_nat (shape0 a)) v_lo v_hi).

Definition np_div (a : list (list float)) (d : float) : list (list float) :=
  map (map (fun s => s / d)%float) a.

Definition np_any (a : list (list float)) : bool := existsb truthy (concat a).

(** ** Masked arrays

    An entry is its payload and its mask bit ([true]: masked).  The
    arrays are flattened in row-major order. *)

Definition marray (A : Type) : Type := list (A * bool).

(** [np.ma.masked_invalid] *)
Definition masked_invalid (a : list float) : marray float :=
  map (fun x => (x, negb (isfinite x))) a.

(** [np.isfinite(a)], [a != 0], [a > 0], [a <= t]: the comparison of the
    payloads under the mask of [a] (for [!=], a masked entry compares as
    different). *)
Definition ma_isfinite (a : marray float) : marray bool :=
  map (fun e : float * bool => (isfinite (fst e), snd e)) a.

Definition ma_ne0 (a : marray float) : marray bool :=
  map (fun e : float * bool => (if snd e then true else negb (fst e =? 0)%float, snd e)) a.

Definition ma_gt0 (a : marray float) : marray bool :=
  map (fun e : float * bool => ((0 <? fst e)%float, snd e)) a.

Definition ma_le (a : marray float) (t : float) : marray bool :=
  map (fun e : float * bool => ((fst e <=? t)%float, snd e)) a.

(** [np.any] of a masked boolean array: masked entries count as false. *)
Definition ma_any (b : marray bool) : bool :=
  existsb (fun e : bool * bool => fst e && negb (snd e)) b.

(** Boolean indexing [a[b]]: the entries of [a] where the payload of [b]
    is true, each with its mask bit. *)
Fixpoint ma_getitem (a : marray float) (b : marray bool) : marray float :=
  match a, b with
  | e :: a', (true, _) :: b' => e :: ma_getitem a' b'
  | _ :: a', (false, _) :: b' => ma_getitem a' b'
  | _, _ => []
  end.

(** The unmasked payloads, and the array with 0 under the mask. *)
Definition compressed (a : marray float) : list float :=
  map fst (filter (fun e : float * bool => negb (snd e)) a).

Definition filled0 (a : marray float) : list float :=
  map (fun e : float * bool => if snd e then 0%float else fst e) a.

(** [a - s] for a masked scalar ([None]: the constant [masked]), and
    [np.abs(a)]. *)
Definition ma_sub (a : marray float) (s : option float) : marray float :=
  match s with
  | Some c => map (fun e : float * bool => (if snd e then fst e else (fst e - c)%float, snd e)) a
  | None => map (fun e : float * bool => (fst e, true)) a
  end.

Definition ma_abs (a : marray float) : marray float :=
  map (fun e : float * bool => (abs (fst e), snd e)) a.

(** [np.minimum.reduce] and [np.maximum.reduce] of a non-empty list. *)
Definition np_min (l : list float) : option float :=
  match l with
  | [] => None
  | x :: l' => Some (fold_left (fun acc y => if (acc <=? y)%float then acc else y) l' x)
  end.

Definition np_max (l : list float) : option float :=
  match l with
  | [] => None
  | x :: l' => Some (fold_left (fun acc y => if (y <=? acc)%float then acc else y) l' x)
  end.

(** [np.min] and [np.max] of a masked array: over the unmasked entries
    (the mask is filled with the neutral infinity). *)
Definition ma_min (a : marray float) : option float := np_min (compressed a).
Definition ma_max (a : marray float) : option float := np_max (compressed a).

(** A masked scalar used as a double; [masked] only arises on paths the
    node has already left. *)
Definition ma_float (s : option float) : float :=
  match s with
  | Some x => x
  | None => nan
  end.

(** ** Messages *)

Module Point2D.
Record t : Type := { x : float; y : float }.
Definition default : t := {| x := 0; y := 0 |}.
End Point2D.

Module KeyPoint2D.
Record t : Type := { id : Z; point : Point2D.t; score : float }.
Definition default : t := {| id := 0; point := Point2D.default; score := 0 |}.
End KeyPoint2D.

Module BoundingBox2D.
Record t : Type := { center : Point2D.t; size : Point2D.t }.
End BoundingBox2D.

Module Vector3.
Record t : Type := { x : float; y : float; z : float }.
Definition zero : t := {| x := 0; y := 0; z := 0 |}.
End Vector3.

Module BoundingBox3D.
Record t : Type := { center : Vector3.t; size : Vector3.t; frame_id : string }.
Definition default : t :=
  {| center := Vector3.zero; size := Vector3.zero; frame_id := EmptyString |}.
End BoundingBox3D.

Module KeyPoint3D.
Record t : Type := { point : Vector3.t; id : Z; score : float }.
End KeyPoint3D.

Module KeyPoint3DArray.
Record t : Type := { data : list KeyPoint3D.t; frame_id : string }.
Definition default : t := {| data := []; frame_id := EmptyString |}.
End KeyPoint3DArray.

Module Detection.
Record t : Type := {
  class_id : Z;
  class_name : string;
  score : float;
  bbox : BoundingBox2D.t;
  bbox3d : BoundingBox3D.t;
  keypoints : list KeyPoint2D.t;
  keypoints3d : KeyPoint3DArray.t
}.
Definition set_bbox3d (d : t) (b : BoundingBox3D.t) : t :=
  {| class_id := class_id d; class_name := class_name d; score := score d;
     bbox := bbox d; bbox3d := b; keypoints := keypoints d;
     keypoints3d := keypoints3d d |}.
Definition set_keypoints3d (d : t) (k : KeyPoint3DArray.t) : t :=
  {| class_id := class_id d; class_name := class_name d; score := score d;
     bbox := bbox d; bbox3d := bbox3d d; keypoints := keypoints d;
     keypoints3d := k |}.
End Detection.

Module CameraInfo.
Record t : Type := { frame_id : string; height : nat; width : nat; k : nat -> float }.
End CameraInfo.

Module TransformStamped.
Record t : Type := {
  translation : Vector3.t;
  rotation_w : float;
  rotation_xyz : Vector3.t
}.
End TransformStamped.

Module Image.
Record t : Type := { encoding : string; height : nat; width : nat; data : list Z }.
End Image.

Definition vec3 : Type := (float * float * float)%type.
Definition quat : Type := (float * float * float * float)%type.

(** ** The node *)

Record Detect3DNode : Type := {
  target_frame : string;
  maximum_detection_threshold : float;
  depth_image_units_divisor : Z;
  (** [tf_buffer.lookup_transform(target, source, Time())] *)
  lookup_transform : string -> string -> result TransformStamped.t;
  (** [cv_bridge.imgmsg_to_cv2] *)
  imgmsg_to_cv2 : Image.t -> result ndarray
}.

Definition cross (a b : vec3) : vec3 :=
  let '(a0, a1, a2) := a in
  let '(b0, b1, b2) := b in
  (a1 * b2 - a2 * b1, a2 * b0 - a0 * b2, a0 * b1 - a1 * b0)%float.

Definition vadd (a b : vec3) : vec3 :=
  let '(a0, a1, a2) := a in
  let '(b0, b1, b2) := b in
  (a0 + b0, a1 + b1, a2 + b2)%float.

Definition vsub (a b : vec3) : vec3 :=
  let '(a0, a1, a2) := a in
  let '(b0, b1, b2) := b in
  (a0 - b0, a1 - b1, a2 - b2)%float.

Definition qv_mult (q : quat) (v : vec3) : vec3 :=
  let '(q0, q1, q2, q3) := q in
  let qvec := (q1, q2, q3) in
  let '(uv0, uv1, uv2) := cross qvec v in
  let '(uuv0, uuv1, uuv2) := cross qvec (uv0, uv1, uv2) in
  let '(v0, v1, v2) := v in
  (v0 + 2 * (uv0 * q0 + uuv0),
   v1 + 2 * (uv1 * q0 + uuv1),
   v2 + 2 * (uv2 * q0 + uuv2))%float.

Definition get_transform (self : Detect3DNode) (frame_id : string)
  : result (option (vec3 * quat)) * list string :=
  match lookup_transform self (target_frame self) frame_id with
  | Ok transform =>
      let t := TransformStamped.translation transform in
      let r := TransformStamped.rotation_xyz transform in
      let translation := (Vector3.x t, Vector3.y t, Vector3.z t) in
      let rotation := (TransformStamped.rotation_w transform,
                       Vector3.x r, Vector3.y r, Vector3.z r) in
      (Ok (Some (translation, rotation)), [])
  | Raise (TransformException ex) =>
      (Ok None, [("Could not transform: " ++ ex)%string])
  | Raise e => (Raise e, [])
  end.

Definition transform_3d_box (bbox : BoundingBox3D.t) (translation : vec3)
    (rotation : quat) : BoundingBox3D.t :=
  let c := BoundingBox3D.center bbox in
  let s := BoundingBox3D.size bbox in
  let '(p0, p1, p2) :=
    vadd (qv_mult rotation (Vector3.x c, Vector3.y c, Vector3.z c)) translation in
  let '(s0, s1, s2) :=
    qv_mult rotation (Vector3.x s, Vector3.y s, Vector3.z s) in
  {| BoundingBox3D.center := {| Vector3.x := p0; Vector3.y := p1; Vector3.z := p2 |};
     BoundingBox3D.size :=
       {| Vector3.x := abs s0; Vector3.y := abs s1; Vector3.z := abs s2 |};
     BoundingBox3D.frame_id := BoundingBox3D.frame_id bbox |}.

Definition transform_3d_keypoints (keypoints : KeyPoint3DArray.t)
    (translation : vec3) (rotation : quat) : KeyPoint3DArray.t :=
  {| KeyPoint3DArray.data :=
       map (fun point =>
              let p := KeyPoint3D.point point in
              let '(p0, p1, p2) :=
                vadd (qv_mult rotation (Vector3.x p, Vector3.y p, Vector3.z p))
                     translation in
              {| KeyPoint3D.point :=
                   {| Vector3.x := p0; Vector3.y := p1; Vector3.z := p2 |};
                 KeyPoint3D.id := KeyPoint3D.id point;
                 KeyPoint3D.score := KeyPoint3D.score point |})
           (KeyPoint3DArray.data keypoints);
     KeyPoint3DArray.frame_id := KeyPoint3DArray.frame_id keypoints |}.

(** ** [convert_bb_to_3d] *)

Record anchors : Type := {
  up_detected : bool;
  down_detected : bool;
  kp5 : KeyPoint2D.t;
  kp6 : KeyPoint2D.t;
  kp11 : KeyPoint2D.t;
  kp12 : KeyPoint2D.t
}.

Definition anchors_init : anchors :=
  {| up_detected := false; down_detected := false;
     kp5 := KeyPoint2D.default; kp6 := KeyPoint2D.default;
     kp11 := KeyPoint2D.default; kp12 := KeyPoint2D.default |}.

Definition scan_keypoint (a : anchors) (kp : KeyPoint2D.t) : anchors :=
  if (KeyPoint2D.id kp =? 5)%Z then
    {| up_detected := true; down_detected := down_detected a;
       kp5 := kp; kp6 := kp6 a; kp11 := kp11 a; kp12 := kp12 a |}
  else if (KeyPoint2D.id kp =? 6)%Z then
    {| up_detected := true; down_detected := down_detected a;
       kp5 := kp5 a; kp6 := kp; kp11 := kp11 a; kp12 := kp12 a |}
  else if (KeyPoint2D.id kp =? 11)%Z then
    {| up_detected := up_detected a; down_detected := true;
       kp5 := kp5 a; kp6 := kp6 a; kp11 := kp; kp12 := kp12 a |}
  else if (KeyPoint2D.id kp =? 12)%Z then
    {| up_detected := up_detected a; down_detected := true;
       kp5 := kp5 a; kp6 := kp6 a; kp11 := kp11 a; kp12 := kp |}
  else a.

Definition scan_keypoints (data : list KeyPoint2D.t) : anchors :=
  fold_left scan_keypoint data anchors_init.

(** [a if a.score > b.score else b] *)
Definition better (a b : KeyPoint2D.t) : KeyPoint2D.t :=
  if (KeyPoint2D.score b <? KeyPoint2D.score a)%float then a else b.

Definition midpoint (up down : KeyPoint2D.t) : num * num :=
  (PyFloat ((Point2D.x (KeyPoint2D.point up) + Point2D.x (KeyPoint2D.point down)) / 2),
   PyFloat ((Point2D.y (KeyPoint2D.point up) + Point2D.y (KeyPoint2D.point down)) / 2)).

Definition pixel (kp : KeyPoint2D.t) : num * num :=
  (PyFloat (Point2D.x (KeyPoint2D.point kp)), PyFloat (Point2D.y (KeyPoint2D.point kp))).

(** The four conditionals that follow the keypoint loop. *)
Definition resolve_anchor (a : anchors) (center : num * num) : num * num :=
  let c1 :=
    if up_detected a && down_detected a
    then midpoint (better (kp5 a) (kp6 a)) (better (kp11 a) (kp12 a))
    else center in
  let c2 :=
    if up_detected a && negb (down_detected a)
    then pixel (better (kp5 a) (kp6 a))
    else c1 in
  let c3 :=
    if down_detected a && negb (up_detected a)
    then pixel (better (kp11 a) (kp12 a))
    else c2 in
  if up_detected a && down_detected a
  then midpoint (better (kp5 a) (kp6 a)) (better (kp11 a) (kp12 a))
  else c3.

(** The four [int(...)] of the box, in the order of the code:
    [(center_x, center_y, size_x, size_y)]. *)
Definition box_ints (detection : Detection.t) : result (Z * Z * Z * Z) :=
  let bbox := Detection.bbox detection in
  center_x <-- py_int (Point2D.x (BoundingBox2D.center bbox)) ;;
  center_y <-- py_int (Point2D.y (BoundingBox2D.center bbox)) ;;
  size_x <-- py_int (Point2D.x (BoundingBox2D.size bbox)) ;;
  size_y <-- py_int (Point2D.y (BoundingBox2D.size bbox)) ;;
  Ok (center_x, center_y, size_x, size_y).

(** [roi]: the crop of the depth image by the box, in meters. *)
Definition crop (self : Detect3DNode) (depth_image : ndarray)
    (ints : Z * Z * Z * Z) : list (list float) :=
  let '(center_x, center_y, size_x, size_y) := ints in
  let '(u_min, u_max) := crop_bounds (shape1 depth_image) center_x size_x in
  let '(v_min, v_max) := crop_bounds (shape0 depth_image) center_y size_y in
  np_div (getslice depth_image v_min v_max u_min u_max)
         (of_Z (depth_image_units_divisor self)).

(** [(int(center_x), int(center_y))] after the keypoints had their say. *)
Definition anchor_ints (detection : Detection.t) (ints : Z * Z * Z * Z)
  : result (Z * Z) :=
  let '(center_x, center_y, _, _) := ints in
  let c := resolve_anchor (scan_keypoints (Detection.keypoints detection))
                          (PyInt center_x, PyInt center_y) in
  center_x <-- int_of (fst c) ;;
  center_y <-- int_of (snd c) ;;
  Ok (center_x, center_y).

(** ** [convert_keypoints_to_3d] *)

Definition has_nan (p : vec3) : bool :=
  let '(p0, p1, p2) := p in is_nan p0 || is_nan p1 || is_nan p2.

(** One row [[p.point.x, p.point.y]] of the [np.int16] array; the rows
    are converted in order, [x] before [y]. *)
Definition int16_row (p : KeyPoint2D.t) : result (Z * Z) :=
  x <-- int16 (Point2D.x (KeyPoint2D.point p)) ;;
  y <-- int16 (Point2D.y (KeyPoint2D.point p)) ;;
  Ok (x, y).

(** The body of the loop that fills [msg_array.data]. *)
Definition append_keypoint (msg_array : list KeyPoint3D.t)
    (pd : vec3 * KeyPoint2D.t) : list KeyPoint3D.t :=
  let '(p0, p1, p2, d) := pd in
  if negb (has_nan (p0, p1, p2)) then
    msg_array ++
    [{| KeyPoint3D.point := {| Vector3.x := p0; Vector3.y := p1; Vector3.z := p2 |};
        KeyPoint3D.id := KeyPoint2D.id d;
        KeyPoint3D.score := KeyPoint2D.score d |}]
  else msg_array.

Definition convert_keypoints_to_3d (self : Detect3DNode) (depth_image : ndarray)
    (depth_info : CameraInfo.t) (detection : Detection.t)
  : result KeyPoint3DArray.t :=
  let data := Detection.keypoints detection in
  keypoints_2d <-- mapM int16_row data ;;
  match keypoints_2d with
  | [] => Raise IndexError   (* [keypoints_2d[:, 1]] on an array of shape (0,) *)
  | _ :: _ =>
    let u := map (fun r : Z * Z =>
                    clip (snd r) 0 (Z.of_nat (CameraInfo.height depth_info) - 1))
                 keypoints_2d in
    let v := map (fun r : Z * Z =>
                    clip (fst r) 0 (Z.of_nat (CameraInfo.width depth_info) - 1))
                 keypoints_2d in
    z <-- mapM (fun uv : Z * Z => getitem depth_image (fst uv) (snd uv))
               (combine u v) ;;
    let k := CameraInfo.k depth_info in
    let px := k 2%nat in
    let py := k 5%nat in
    let fx := k 0%nat in
    let fy := k 4%nat in
    let x := map (fun zv : float * Z => (fst zv * (of_Z (snd zv) - px) / fx)%float)
                 (combine z v) in
    let y := map (fun zu : float * Z => (fst zu * (of_Z (snd zu) - py) / fy)%float)
                 (combine z u) in
    let divisor := of_Z (depth_image_units_divisor self) in
    let points_3d :=
      map (fun xyz : float * float * float =>
             let '(xi, yi, zi) := xyz in
             (xi / divisor, yi / divisor, zi / divisor)%float)
          (combine (combine x y) z) in
    Ok {| KeyPoint3DArray.data :=
            fold_left append_keypoint (combine points_3d data) [];
          KeyPoint3DArray.frame_id := EmptyString |}
  end.

Definition set_frame_id_box (b : BoundingBox3D.t) (f : string) : BoundingBox3D.t :=
  {| BoundingBox3D.center := BoundingBox3D.center b;
     BoundingBox3D.size := BoundingBox3D.size b;
     BoundingBox3D.frame_id := f |}.

Definition set_frame_id_keypoints (k : KeyPoint3DArray.t) (f : string)
  : KeyPoint3DArray.t :=
  {| KeyPoint3DArray.data := KeyPoint3DArray.data k;
     KeyPoint3DArray.frame_id := f |}.

(** ** The specification's vocabulary *)

(** The strictly-positive finite samples of a region. *)
Definition positive_finite (roi : list float) : list float :=
  filter (fun s => isfinite s && (0 <? s)%float) roi.

(** What [np.sum] adds up for the mean: the strictly-positive samples,
    with 0 in the place of a sample that is [+inf] (masked, but selected
    by [roi > 0]).  Without a [+inf] sample these are the strictly-positive
    finite samples. *)
Definition summands (roi : list float) : list float :=
  map (fun s => if isfinite s then s else 0%float)
      (filter (fun s => (0 <? s)%float) roi).

(** The finite samples within the tolerance [t] of [m]. *)
Definition consensus (t m : float) (roi : list float) : list float :=
  filter (fun s => isfinite s && (abs (s - m) <=? t)%float) roi.

Definition no_nonzero (roi : list (list float)) : bool :=
  forallb (fun s => (s =? 0)%float) (concat roi).

Definition anchor_outside (depth_image : ndarray) (cx cy : Z) : bool :=
  ((cx <? 0) || (Z.of_nat (shape1 depth_image) <=? cx) ||
   (cy <? 0) || (Z.of_nat (shape0 depth_image) <=? cy))%Z%bool.

(** The depth at the anchor, in meters. *)
Definition anchor_depth (self : Detect3DNode) (depth_image : ndarray)
    (cx cy : Z) : float :=
  (item depth_image cy cx / of_Z (depth_image_units_divisor self))%float.


Definition unusable (d : float) : bool :=
  is_nan d || (d =? 0)%float || is_infinity d.

(** The 16-bit coordinates are clamped to the frame that the camera
    information announces. *)
Definition sample_row (depth_info : CameraInfo.t) (y16 : Z) : Z :=
  clip y16 0 (Z.of_nat (CameraInfo.height depth_info) - 1).

Definition sample_col (depth_info : CameraInfo.t) (x16 : Z) : Z :=
  clip x16 0 (Z.of_nat (CameraInfo.width depth_info) - 1).

(** The camera information announces a non-empty frame that is not larger
    than the depth image. *)
Definition within_image (depth_info : CameraInfo.t) (depth_image : ndarray) : Prop :=
  (1 <= CameraInfo.height depth_info <= shape0 depth_image)%nat /\
  (1 <= CameraInfo.width depth_info <= shape1 depth_image)%nat.

(** The pinhole back-projection of the raw depth [z] at row [u] and
    column [v], in meters. *)
Definition back_projection (self : Detect3DNode) (depth_info : CameraInfo.t)
    (z : float) (u v : Z) : vec3 :=
  let d := of_Z (depth_image_units_divisor self) in
  let k := CameraInfo.k depth_info in
  ((z * (of_Z v - k 2%nat) / k 0%nat) / d,
   (z * (of_Z u - k 5%nat) / k 4%nat) / d,
   z / d)%float.

(** The order of the values that are not NaN, read off their
    representation: sign class, then exponent, then mantissa. *)
Definition order_key (x : spec_float) : Z * Z * Z :=
  match x with
  | S754_nan => (0, 0, 0)
  | S754_zero _ => (0, 0, 0)
  | S754_infinity true => (-2, 0, 0)
  | S754_infinity false => (2, 0, 0)
  | S754_finite true m e => (-1, - e, - Zpos m)
  | S754_finite false m e => (1, e, Zpos m)
  end%Z.

Definition lex_le (a b : Z * Z * Z) : Prop :=
  let '(a1, a2, a3) := a in
  let '(b1, b2, b3) := b in
  (a1 < b1 \/ (a1 = b1 /\ (a2 < b2 \/ (a2 = b2 /\ a3 <= b3))))%Z.

(** The position of the keypoint whose 16-bit pixel is [r = (x16, y16)]:
    clamp, sample, back-project. *)
Definition keypoint_position (self : Detect3DNode) (depth_image : ndarray)
    (depth_info : CameraInfo.t) (r : Z * Z) : vec3 :=
  let u := sample_row depth_info (snd r) in
  let v := sample_col depth_info (fst r) in
  back_projection self depth_info (item depth_image u v) u v.

(** The 3D keypoint of a keypoint [d] with 16-bit pixel [r]. *)
Definition projected (self : Detect3DNode) (depth_image : ndarray)
    (depth_info : CameraInfo.t) (dr : KeyPoint2D.t * (Z * Z)) : KeyPoint3D.t :=
  {| KeyPoint3D.point :=
       {| Vector3.x := fst (fst (keypoint_position self depth_image depth_info (snd dr)));
          Vector3.y := snd (fst (keypoint_position self depth_image depth_info (snd dr)));
          Vector3.z := snd (keypoint_position self depth_image depth_info (snd dr)) |};
     KeyPoint3D.id := KeyPoint2D.id (fst dr);
     KeyPoint3D.score := KeyPoint2D.score (fst dr) |}.

(** Two keypoints with the same 16-bit pixel, id and score. *)
Definition same_pixel (p q : KeyPoint2D.t) : Prop :=
  int16_row p = int16_row q /\
  KeyPoint2D.id p = KeyPoint2D.id q /\
  KeyPoint2D.score p = KeyPoint2D.score q.

(** A size component is non-negative, or it is NaN. *)
Definition nonneg_or_nan (c : float) : Prop :=
  (c <? 0)%float = false /\
  (is_nan c = false -> (0 <=? c)%float = true) /\
  (is_nan c = true -> (0 <=? c)%float = false).

Definition conjugate (q : quat) : quat :=
  let '(q0, q1, q2, q3) := q in (q0, - q1, - q2, - q3)%float.



(** Summation from left to right, one of the orders [np.sum] may use. *)
Definition sequential_sum (l : list float) : float :=
  fold_left PrimFloat.add l 0%float.

Section Summation.

(** [np.sum] of a one-dimensional array of doubles. *)
Variable np_sum : list float -> float.

(** [np.mean] of a masked array: [masked] without unmasked entry,
    otherwise [dsum * 1. / cnt] with [dsum] the sum of the array filled
    with 0.  (For an array that carries no mask NumPy divides the sum by
    the count directly; the product by [1.] is exact.) *)
Definition ma_mean (a : marray float) : option float :=
  match compressed a with
  | [] => None
  | l => Some (np_sum (filled0 a) * 1 / of_Z (Z.of_nat (length l)))%float
  end.

Definition convert_bb_to_3d (self : Detect3DNode) (depth_image : ndarray)
    (depth_info : CameraInfo.t) (detection : Detection.t)
  : result (option BoundingBox3D.t) :=
  ints <-- box_ints detection ;;
  let '(_, _, size_x, size_y) := ints in
  let divisor := of_Z (depth_image_units_divisor self) in
  let roi := crop self depth_image ints in
  if negb (np_any roi) then Ok None else
  center <-- anchor_ints detection ints ;;
  let '(center_x, center_y) := center in
  if ((center_x <? 0) || (Z.of_nat (shape1 depth_image) <=? center_x) ||
      (center_y <? 0) || (Z.of_nat (shape0 depth_image) <=? center_y))%Z%bool
  then Ok None else
  raw <-- getitem depth_image center_y center_x ;;
  let bb_center_z_coord := (raw / divisor)%float in
  if is_nan bb_center_z_coord || (bb_center_z_coord =? 0)%float ||
     is_infinity bb_center_z_coord
  then Ok None else
  let roi := masked_invalid (concat roi) in
  if ma_any (ma_isfinite roi) && ma_any (ma_ne0 roi) then
    let average_z_coord := ma_mean (ma_getitem roi (ma_gt0 roi)) in
    let z_diff := ma_abs (ma_sub roi average_z_coord) in
    let mask_z := ma_le z_diff (maximum_detection_threshold self) in
    if negb (ma_any mask_z) then Ok None else
    let roi_threshold := ma_getitem roi mask_z in
    let z_min := ma_min roi_threshold in
    let z_max := ma_max roi_threshold in
    let k := CameraInfo.k depth_info in
    let px := k 2%nat in
    let py := k 5%nat in
    let fx := k 0%nat in
    let fy := k 4%nat in
    let average := ma_float average_z_coord in
    let x := (average * (of_Z center_x - px) / fx)%float in
    let y := (average * (of_Z center_y - py) / fy)%float in
    let w := (average * (of_Z size_x / fx))%float in
    let h := (average * (of_Z size_y / fy))%float in
    Ok (Some
      {| BoundingBox3D.center :=
           {| Vector3.x := x; Vector3.y := y; Vector3.z := average |};
         BoundingBox3D.size :=
           {| Vector3.x := w; Vector3.y := h;
              Vector3.z := (ma_float z_max - ma_float z_min)%float |};
         BoundingBox3D.frame_id := EmptyString |})
  else Ok None.

(** ** [process_detections] *)

(** The [for detection in detections_msg.detections] loop, with the list
    [new_detections] built so far. *)
Fixpoint process_loop (self : Detect3DNode) (depth_image : ndarray)
    (depth_info : CameraInfo.t) (transform : vec3 * quat)
    (detections new_detections : list Detection.t) : result (list Detection.t) :=
  match detections with
  | [] => Ok new_detections
  | detection :: rest =>
      bbox3d <-- convert_bb_to_3d self depth_image depth_info detection ;;
      match bbox3d with
      | Some bbox3d =>
          let bbox3d := transform_3d_box bbox3d (fst transform) (snd transform) in
          let bbox3d := set_frame_id_box bbox3d (target_frame self) in
          let detection := Detection.set_bbox3d detection bbox3d in
          match Detection.keypoints detection with
          | [] => process_loop self depth_image depth_info transform rest
                    (new_detections ++ [detection])
          | _ :: _ =>
              keypoints3d <-- convert_keypoints_to_3d self depth_image depth_info
                                detection ;;
              let keypoints3d :=
                transform_3d_keypoints keypoints3d (fst transform) (snd transform) in
              let keypoints3d :=
                set_frame_id_keypoints keypoints3d (target_frame self) in
              process_loop self depth_image depth_info transform rest
                (new_detections ++ [Detection.set_keypoints3d detection keypoints3d])
          end
      | None =>
          process_loop self depth_image depth_info transform rest new_detections
      end
  end.

(** The second component of the result is what the call wrote to the
    error log. *)
Definition process_detections (self : Detect3DNode) (depth_msg : Image.t)
    (depth_info : CameraInfo.t) (detections : list Detection.t)
  : result (list Detection.t) * list string :=
  match detections with
  | [] => (Ok [], [])
  | _ :: _ =>
      let '(transform, log) := get_transform self (CameraInfo.frame_id depth_info) in
      match transform with
      | Raise e => (Raise e, log)
      | Ok None => (Ok [], log)
      | Ok (Some transform) =>
          (depth_image <-- imgmsg_to_cv2 self depth_msg ;;
           process_loop self depth_image depth_info transform detections [],
           log)
      end
  end.

(** ** The specification's vocabulary that depends on the summation *)

(** The robust mean: the mean of the strictly-positive finite samples. *)
Definition robust_mean (roi : list float) : float :=
  (np_sum (summands roi) * 1 / of_Z (Z.of_nat (length (positive_finite roi))))%float.

(** The box of a detection with integer box [ints] and anchor [(cx, cy)]:
    the pinhole back-projection of the anchor and of the box size at the
    robust mean, and the spread of the consensus. *)
Definition expected_box (self : Detect3DNode) (depth_info : CameraInfo.t)
    (roi : list (list float)) (ints : Z * Z * Z * Z) (cx cy : Z)
  : BoundingBox3D.t :=
  let '(_, _, size_x, size_y) := ints in
  let k := CameraInfo.k depth_info in
  let m := robust_mean (concat roi) in
  let c := consensus (maximum_detection_threshold self) m (concat roi) in
  {| BoundingBox3D.center :=
       {| Vector3.x := (m * (of_Z cx - k 2%nat) / k 0%nat)%float;
          Vector3.y := (m * (of_Z cy - k 5%nat) / k 4%nat)%float;
          Vector3.z := m |};
     BoundingBox3D.size :=
       {| Vector3.x := (m * (of_Z size_x / k 0%nat))%float;
          Vector3.y := (m * (of_Z size_y / k 4%nat))%float;
          Vector3.z := (ma_float (np_max c) - ma_float (np_min c))%float |};
     BoundingBox3D.frame_id := EmptyString |}.

(** The conditions under which a detection whose box and anchor convert
    to integers gets no box. *)
Definition rejected (self : Detect3DNode) (depth_image : ndarray)
    (roi : list (list float)) (cx cy : Z) : bool :=
  no_nonzero roi
  || anchor_outside depth_image cx cy
  || unusable (anchor_depth self depth_image cx cy)
  || nilb (positive_finite (concat roi))
  || nilb (consensus (maximum_detection_threshold self)
                     (robust_mean (concat roi)) (concat roi)).

(** A detection yields a box. *)
Definition yields_box (self : Detect3DNode) (depth_image : ndarray)
    (depth_info : CameraInfo.t) (detection : Detection.t) : bool :=
  match convert_bb_to_3d self depth_image depth_info detection with
  | Ok (Some _) => true
  | _ => false
  end.

(** The translation and the rotation of a looked-up transform. *)
Definition transform_of (tf : TransformStamped.t) : vec3 * quat :=
  let t := TransformStamped.translation tf in
  let r := TransformStamped.rotation_xyz tf in
  ((Vector3.x t, Vector3.y t, Vector3.z t),
   (TransformStamped.rotation_w tf, Vector3.x r, Vector3.y r, Vector3.z r)).

(** The detection augmented with its 3D box (and its 3D keypoints when it
    has keypoints), both moved to the target frame. *)
Definition augmented (self : Detect3DNode) (depth_image : ndarray)
    (depth_info : CameraInfo.t) (transform : vec3 * quat)
    (detection : Detection.t) : Detection.t :=
  match convert_bb_to_3d self depth_image depth_info detection with
  | Ok (Some box) =>
      let d := Detection.set_bbox3d detection
                 (set_frame_id_box
                    (transform_3d_box box (fst transform) (snd transform))
                    (target_frame self)) in
      match Detection.keypoints detection,
            convert_keypoints_to_3d self depth_image depth_info detection with
      | _ :: _, Ok k =>
          Detection.set_keypoints3d d
            (set_frame_id_keypoints
               (transform_3d_keypoints k (fst transform) (snd transform))
               (target_frame self))
      | _, _ => d
      end
  | _ => detection
  end.

(** A call that the loop makes for this detection raises. *)
Definition call_raises (self : Detect3DNode) (depth_image : ndarray)
    (depth_info : CameraInfo.t) (detection : Detection.t) : Prop :=
  (exists e, convert_bb_to_3d self depth_image depth_info detection = Raise e) \/
  (yields_box self depth_image depth_info detection = true /\
   Detection.keypoints detection <> [] /\
   exists e, convert_keypoints_to_3d self depth_image depth_info detection = Raise e).

(** Every call that the loop makes for these detections returns. *)
Definition calls_return (self : Detect3DNode) (depth_image : ndarray)
    (depth_info : CameraInfo.t) (detections : list Detection.t) : Prop :=
  Forall (fun detection =>
            (exists r, convert_bb_to_3d self depth_image depth_info detection = Ok r) /\
            (yields_box self depth_image depth_info detection = true ->
             Detection.keypoints detection <> [] ->
             exists k, convert_keypoints_to_3d self depth_image depth_info detection
                       = Ok k))
         detections.

End Summation.

(** ** Sample frames *)

(** An image given by its rows. *)
Definition image_of (rows : list (list float)) : ndarray :=
  {| shape0 := length rows;
     shape1 := length (hd [] rows);
     item := fun r c => nth (Z.to_nat c) (nth (Z.to_nat r) rows []) nan |}.

Definition depth_message (h w : nat) : Image.t :=
  {| Image.encoding := "16UC1"; Image.height := h; Image.width := w;
     Image.data := [] |}.

Definition identity_transform : TransformStamped.t :=
  {| TransformStamped.translation := Vector3.zero;
     TransformStamped.rotation_w := 1;
     TransformStamped.rotation_xyz := Vector3.zero |}.

(** The default parameters: a tolerance of 0.3 m, depths in millimetres;
    the depth message decodes to [depth_image]. *)
Definition sample_node (depth_image : ndarray) : Detect3DNode :=
  {| target_frame := "base_link";
     maximum_detection_threshold := 0.3;
     depth_image_units_divisor := 1000;
     lookup_transform := fun _ _ => Ok identity_transform;
     imgmsg_to_cv2 := fun _ => Ok depth_image |}.

(** The same node when the transform cannot be looked up. *)
Definition lost_node (depth_image : ndarray) : Detect3DNode :=
  {| target_frame := "base_link";
     maximum_detection_threshold := 0.3;
     depth_image_units_divisor := 1000;
     lookup_transform := fun _ _ => Raise (TransformException "no such frame");
     imgmsg_to_cv2 := fun _ => Ok depth_image |}.

(** Intrinsics with [fx = fy = 500] and [px = py = 0]. *)
Definition sample_k (i : nat) : float :=
  match i with
  | 0%nat | 4%nat => 500
  | 8%nat => 1
  | _ => 0
  end.

Definition sample_info (h w : nat) : CameraInfo.t :=
  {| CameraInfo.frame_id := "camera_depth_frame";
     CameraInfo.height := h; CameraInfo.width := w; CameraInfo.k := sample_k |}.

(** The camera information of a camera that was never calibrated. *)
Definition uncalibrated_info (h w : nat) : CameraInfo.t :=
  {| CameraInfo.frame_id := "camera_depth_frame";
     CameraInfo.height := h; CameraInfo.width := w; CameraInfo.k := fun _ => 0%float |}.

Definition keypoint (id : Z) (x y score : float) : KeyPoint2D.t :=
  {| KeyPoint2D.id := id;
     KeyPoint2D.point := {| Point2D.x := x; Point2D.y := y |};
     KeyPoint2D.score := score |}.

(** A detection with box centre [(cx, cy)], size [(w, h)] and keypoints. *)
Definition detection_of (cx cy w h : float) (kps : list KeyPoint2D.t) : Detection.t :=
  {| Detection.class_id := 0;
     Detection.class_name := "person";
     Detection.score := 0.9;
     Detection.bbox :=
       {| BoundingBox2D.center := {| Point2D.x := cx; Point2D.y := cy |};
          BoundingBox2D.size := {| Point2D.x := w; Point2D.y := h |} |};
     Detection.bbox3d := BoundingBox3D.default;
     Detection.keypoints := kps;
     Detection.keypoints3d := KeyPoint3DArray.default |}.

(** A 4x4 depth image with a hole (0) and an undefined sample. *)
Definition small_image : ndarray :=
  image_of [[900; 900; 900; 900];
            [900; 1000; nan; 900];
            [900; 0; 1200; 900];
            [900; 900; 900; 900]]%float.

Definition small_detection : Detection.t := detection_of 2 2 3 3 [].

(** Three keypoints on the small image; the second one falls on the
    undefined sample. *)
Definition small_skeleton : Detection.t :=
  detection_of 2 2 3 3 [keypoint 1 1 1 0.8; keypoint 2 2 1 0.7; keypoint 3 2 2 0.6].

(** A detection whose box lies beside the small image. *)
Definition far_detection : Detection.t := detection_of 40 2 3 3 [].


(** A keypoint in the lower right of an 8x8 frame. *)
Definition corner_skeleton : Detection.t :=
  detection_of 2 2 3 3 [keypoint 1 6 6 0.8].

(** A keypoint whose column is 2^63 + 2^11. *)
Definition distant_skeleton : Detection.t :=
  detection_of 2 2 3 3 [keypoint 1 9223372036854777856 1 0.8].

(** A keypoint whose column is 40000. *)
Definition wide_skeleton : Detection.t :=
  detection_of 2 2 3 3 [keypoint 1 40000 1 0.8].



End Fp.

(* ================================================================== *)
(** * Sample frames *)
(* ================================================================== *)

(** An image given by its rows. *)
Definition image_of (rows : list (list float)) : ndarray :=
  {| shape0 := length rows;
     shape1 := length (hd [] rows);
     item := fun r c => nth (Z.to_nat c) (nth (Z.to_nat r) rows []) NaN |}.

Definition identity_transform : TransformStamped.t :=
  {| TransformStamped.translation := Vector3.zero;
     TransformStamped.rotation_w := Fin 1;
     TransformStamped.rotation_xyz := Vector3.zero |}.

(** The default parameters: a tolerance of 0.3 m, depths in millimetres. *)
Definition sample_node : Detect3DNode :=
  {| target_frame := "base_link";
     maximum_detection_threshold := 3 # 10;
     depth_image_units_divisor := 1000;
     lookup_transform := fun _ _ => Ok identity_transform |}.

(** Intrinsics with [fx = fy = 500] and [px = py = 0]. *)
Definition sample_k (i : nat) : float :=
  match i with
  | 0%nat | 4%nat => Fin 500
  | 8%nat => Fin 1
  | _ => Fin 0
  end.

Definition sample_info (h w : nat) : CameraInfo.t :=
  {| CameraInfo.frame_id := "camera_depth_frame";
     CameraInfo.height := h; CameraInfo.width := w; CameraInfo.k := sample_k |}.

Definition keypoint (id : Z) (x y score : Q) : KeyPoint2D.t :=
  {| KeyPoint2D.id := id;
     KeyPoint2D.point := {| Point2D.x := x; Point2D.y := y |};
     KeyPoint2D.score := score |}.

(** A detection with box centre [(cx, cy)], size [(w, h)] and keypoints. *)
Definition detection_of (cx cy w h : Q) (kps : list KeyPoint2D.t) : Detection.t :=
  {| Detection.class_id := 0;
     Detection.class_name := "person";
     Detection.score := 9 # 10;
     Detection.bbox :=
       {| BoundingBox2D.center := {| Point2D.x := cx; Point2D.y := cy |};
          BoundingBox2D.size := {| Point2D.x := w; Point2D.y := h |} |};
     Detection.bbox3d := BoundingBox3D.default;
     Detection.keypoints := kps;
     Detection.keypoints3d := KeyPoint3DArray.default |}.

(** A 4x4 depth image with a hole (0) and an undefined sample. *)
Definition small_image : ndarray :=
  image_of [[Fin 900; Fin 900; Fin 900; Fin 900];
            [Fin 900; Fin 1000; NaN; Fin 900];
            [Fin 900; Fin 0; Fin 1200; Fin 900];
            [Fin 900; Fin 900; Fin 900; Fin 900]].

Definition small_detection : Detection.t := detection_of 2 2 3 3 [].

(** Three keypoints on the small image; the second one falls on the
    undefined sample. *)
Definition small_skeleton : Detection.t :=
  detection_of 2 2 3 3
    [keypoint 1 1 1 (8 # 10); keypoint 2 2 1 (7 # 10); keypoint 3 2 2 (6 # 10)].

(** A detection whose box lies beside the small image. *)
Definition far_detection : Detection.t := detection_of 40 2 3 3 [].

(** A 200x200 depth image that is uniformly 2000 raw units. *)
Definition uniform_image : ndarray :=
  {| shape0 := 200; shape1 := 200; item := fun _ _ => Fin 2000 |}.

(** The specification's scenario for a uniform region. *)
Definition uniform_detection : Detection.t := detection_of 100 100 40 40 [].

(** A single shoulder keypoint with a confidence of zero. *)
Definition lone_shoulder : Detection.t :=
  detection_of 100 100 40 40 [keypoint 5 50 60 0].

(** The specification's scenario for the anchor: both shoulders, no hip. *)
Definition two_shoulders : Detection.t :=
  detection_of 100 100 40 40
    [keypoint 5 50 60 (9 # 10); keypoint 6 52 61 (3 # 10)].

(** A box that lies entirely to the left of the small image, with a
    shoulder keypoint inside the image. *)
Definition offscreen_detection : Detection.t :=
  detection_of (-3) 2 2 2 [keypoint 5 1 1 (9 # 10)].

(* ================================================================== *)
(** * Basic facts *)
(* ================================================================== *)

#[local] Arguments Qabs : simpl never.
#[local] Arguments Qplus : simpl never.
#[local] Arguments Qminus : simpl never.
#[local] Arguments Qmult : simpl never.
#[local] Arguments Qdiv : simpl never.
#[local] Arguments Qopp : simpl never.
#[local] Arguments Qinv : simpl never.
#[local] Arguments Qle_bool : simpl never.
#[local] Arguments Qeq_bool : simpl never.
#[local] Arguments inject_Z : simpl never.
#[local] Arguments Z.mul : simpl never.
#[local] Arguments Z.add : simpl never.
#[local] Arguments Z.sub : simpl never.
#[local] Arguments Z.div : simpl never.
#[local] Arguments Z.of_nat : simpl never.

Lemma Qltb_lt (p q : Q) : Qltb p q = true <-> p < q.
Proof.
  unfold Qltb. rewrite negb_true_iff. split; intro H.
  - apply Qnot_le_lt. intro Hle. apply Qle_bool_iff in Hle. congruence.
  - destruct (Qle_bool q p) eqn:E; [|reflexivity].
    apply Qle_bool_iff in E. apply Qle_not_lt in E. contradiction.
Qed.

Lemma Qltb_ge (p q : Q) : Qltb p q = false <-> q <= p.
Proof.
  unfold Qltb. rewrite negb_false_iff. apply Qle_bool_iff.
Qed.

Lemma Qle_bool_false (p q : Q) : Qle_bool p q = false <-> q < p.
Proof.
  rewrite <- Qltb_lt. unfold Qltb. rewrite negb_true_iff. tauto.
Qed.

Lemma Qeq_bool_false (p q : Q) : Qeq_bool p q = false <-> ~ p == q.
Proof.
  split; intro H.
  - intro E. apply Qeq_bool_iff in E. congruence.
  - destruct (Qeq_bool p q) eqn:E; [|reflexivity].
    apply Qeq_bool_iff in E. contradiction.
Qed.

Lemma np_any_no_nonzero (roi : list (list float)) :
  np_any roi = negb (no_nonzero (concat roi)).
Proof.
  unfold np_any, no_nonzero, truthy.
  induction (concat roi) as [|s l IH]; simpl; [reflexivity|].
  rewrite IH. destruct (feqb s (Fin 0)); reflexivity.
Qed.

Lemma np_index_inside (n : nat) (i : Z) :
  (0 <= i < Z.of_nat n)%Z -> np_index n i = Ok i.
Proof.
  intros [H0 Hn]. unfold np_index.
  replace (- Z.of_nat n <=? i)%Z with true by (symmetry; apply Z.leb_le; lia).
  replace (i <? Z.of_nat n)%Z with true by (symmetry; apply Z.ltb_lt; lia).
  replace (i <? 0)%Z with false by (symmetry; apply Z.ltb_ge; lia).
  reflexivity.
Qed.

Lemma getitem_inside (a : ndarray) (r c : Z) :
  (0 <= r < Z.of_nat (shape0 a))%Z -> (0 <= c < Z.of_nat (shape1 a))%Z ->
  getitem a r c = Ok (item a r c).
Proof.
  intros Hr Hc. unfold getitem.
  rewrite (np_index_inside _ _ Hr), (np_index_inside _ _ Hc). reflexivity.
Qed.

Lemma unusable_checks (d : float) :
  isnan d || feqb d (Fin 0) || isinf d = unusable d.
Proof. destruct d; simpl; try reflexivity. apply orb_false_r. Qed.

(** ** Masked arrays against the specification's vocabulary *)

Lemma positive_finite_cons (s : float) (l : list float) :
  positive_finite (s :: l) =
  match s with
  | Fin q => if Qltb 0 q then q :: positive_finite l else positive_finite l
  | _ => positive_finite l
  end.
Proof.
  unfold positive_finite. destruct s as [|b|q]; try reflexivity.
  cbn [filter isfinite andb fltb fleb]. fold (Qltb 0 q).
  destruct (Qltb 0 q); reflexivity.
Qed.

Lemma consensus_cons (t m : Q) (s : float) (l : list float) :
  consensus t m (s :: l) =
  match s with
  | Fin q => if Qle_bool (Qabs (q - m)) t
             then q :: consensus t m l else consensus t m l
  | _ => consensus t m l
  end.
Proof.
  unfold consensus. destruct s as [|b|q]; try reflexivity.
  cbn [filter fsub fopp fadd fabs fleb]. change (q + - m) with (q - m).
  destruct (Qle_bool (Qabs (q - m)) t); reflexivity.
Qed.

Lemma compressed_positive (roi : list float) :
  compressed (ma_getitem (masked_invalid roi) (ma_gt0 (masked_invalid roi)))
  = positive_finite roi.
Proof.
  induction roi as [|s l IH]; [reflexivity|].
  rewrite positive_finite_cons. destruct s as [|b|q]; simpl; try exact IH.
  destruct (Qltb 0 q); simpl; [now rewrite IH | exact IH].
Qed.

Lemma consensus_masked (t : Q) (roi : list float) :
  ma_any (ma_le (ma_abs (ma_sub (masked_invalid roi) None)) t) = false.
Proof.
  induction roi as [|s l IH]; simpl; [reflexivity|].
  destruct s; simpl; exact IH.
Qed.

Lemma compressed_consensus (t m : Q) (roi : list float) :
  compressed (ma_getitem (masked_invalid roi)
                (ma_le (ma_abs (ma_sub (masked_invalid roi) (Some m))) t))
  = consensus t m roi.
Proof.
  induction roi as [|s l IH]; [reflexivity|].
  rewrite consensus_cons. destruct s as [|b|q]; simpl; try exact IH.
  destruct (Qle_bool (Qabs (q - m)) t); simpl; [now rewrite IH | exact IH].
Qed.

Lemma any_consensus (t m : Q) (roi : list float) :
  ma_any (ma_le (ma_abs (ma_sub (masked_invalid roi) (Some m))) t)
  = negb (nilb (consensus t m roi)).
Proof.
  induction roi as [|s l IH]; [reflexivity|].
  rewrite consensus_cons. destruct s as [|b|q]; simpl; try exact IH.
  destruct (Qle_bool (Qabs (q - m)) t); simpl; [reflexivity | exact IH].
Qed.

Lemma positive_finite_checks (roi : list float) :
  positive_finite roi <> [] ->
  ma_any (ma_isfinite (masked_invalid roi)) && ma_any (ma_ne0 (masked_invalid roi))
  = true.
Proof.
  induction roi as [|s l IH]; [intros H; now elim H|].
  rewrite positive_finite_cons. destruct s as [|b|q]; simpl; try exact IH.
  destruct (Qltb 0 q) eqn:P.
  - intros _. apply Qltb_lt in P.
    replace (Qeq_bool q 0) with false; [reflexivity|].
    symmetry. apply Qeq_bool_false. intro E. rewrite E in P.
    exact (Qlt_irrefl 0 P).
  - intros H. specialize (IH H). apply andb_true_iff in IH.
    destruct IH as [_ IH]. rewrite IH. destruct (Qeq_bool q 0); reflexivity.
Qed.

(** ** [convert_bb_to_3d] in closed form *)

Lemma anchor_bounds_check (w h : nat) (cx cy : Z) :
  ((cx <? 0) || (Z.of_nat w <=? cx) || (cy <? 0) || (Z.of_nat h <=? cy))%Z%bool
  = negb ((0 <=? cx) && (cx <? Z.of_nat w) && (0 <=? cy) && (cy <? Z.of_nat h))%Z.
Proof.
  destruct (Z.ltb_spec cx 0), (Z.leb_spec (Z.of_nat w) cx),
           (Z.ltb_spec cy 0), (Z.leb_spec (Z.of_nat h) cy),
           (Z.leb_spec 0 cx), (Z.ltb_spec cx (Z.of_nat w)),
           (Z.leb_spec 0 cy), (Z.ltb_spec cy (Z.of_nat h));
    simpl; try reflexivity; lia.
Qed.

Lemma anchor_inside_bounds (w h : nat) (cx cy : Z) :
  ((0 <=? cx) && (cx <? Z.of_nat w) && (0 <=? cy) && (cy <? Z.of_nat h))%Z = true ->
  (0 <= cy < Z.of_nat h)%Z /\ (0 <= cx < Z.of_nat w)%Z.
Proof.
  rewrite !andb_true_iff, !Z.leb_le, !Z.ltb_lt. lia.
Qed.

(** The node computes exactly the specification's box, and rejects for
    exactly the specification's reasons; it never raises. *)
Lemma convert_bb_to_3d_eq (self : Detect3DNode) (depth_image : ndarray)
    (depth_info : CameraInfo.t) (detection : Detection.t) :
  convert_bb_to_3d self depth_image depth_info detection =
  Ok (if rejected self depth_image detection then None
      else Some (expected_box self depth_image depth_info detection)).
Proof.
  unfold convert_bb_to_3d, rejected, expected_box, anchor_outside, anchor_depth.
  set (roi := depth_roi self depth_image detection).
  rewrite np_any_no_nonzero, negb_involutive.
  destruct (no_nonzero (concat roi)); [reflexivity|]. cbn [orb].
  destruct (anchor_pixel detection) as [cx cy].
  rewrite anchor_bounds_check.
  destruct ((0 <=? cx) && (cx <? Z.of_nat (shape1 depth_image)) &&
            (0 <=? cy) && (cy <? Z.of_nat (shape0 depth_image)))%Z eqn:B;
    cbn [negb orb]; [|reflexivity].
  apply anchor_inside_bounds in B. destruct B as [By Bx].
  rewrite (getitem_inside _ _ _ By Bx). cbn [bind].
  rewrite unusable_checks.
  destruct (unusable _); [reflexivity|]. cbn [orb].
  unfold ma_mean, ma_min, ma_max. rewrite compressed_positive.
  destruct (positive_finite (concat roi)) as [|q l] eqn:P.
  - cbn [nilb orb]. rewrite consensus_masked. cbn [negb].
    destruct (_ && _); reflexivity.
  - rewrite positive_finite_checks by (rewrite P; discriminate).
    cbn [nilb orb]. unfold robust_mean. rewrite P.
    rewrite any_consensus, compressed_consensus.
    destruct (nilb (consensus _ _ _)); reflexivity.
Qed.

(** ** Minimum and maximum *)

Lemma fold_Qmin_spec (l : list Q) (q : Q) :
  In (fold_left Qmin l q) (q :: l) /\
  forall x, In x (q :: l) -> fold_left Qmin l q <= x.
Proof.
  revert q. induction l as [|a l IH]; intros q; simpl.
  - split; [now left|]. intros x [<-|[]]. apply Qle_refl.
  - destruct (IH (Qmin q a)) as [Hin Hle]. split.
    + destruct Hin as [E|Hin]; [|now right; right].
      rewrite <- E. unfold Qmin. destruct (Qle_bool q a); auto.
    + assert (Hq : Qmin q a <= q /\ Qmin q a <= a).
      { unfold Qmin. destruct (Qle_bool q a) eqn:E.
        - apply Qle_bool_iff in E. split; [apply Qle_refl | exact E].
        - apply Qle_bool_false in E. split; [apply Qlt_le_weak; exact E | apply Qle_refl]. }
      assert (H0 : fold_left Qmin l (Qmin q a) <= Qmin q a) by (apply Hle; now left).
      intros x [<-|[<-|Hx]].
      * eapply Qle_trans; [exact H0 | apply Hq].
      * eapply Qle_trans; [exact H0 | apply Hq].
      * apply Hle. now right.
Qed.

Lemma fold_Qmax_spec (l : list Q) (q : Q) :
  In (fold_left Qmax l q) (q :: l) /\
  forall x, In x (q :: l) -> x <= fold_left Qmax l q.
Proof.
  revert q. induction l as [|a l IH]; intros q; simpl.
  - split; [now left|]. intros x [<-|[]]. apply Qle_refl.
  - destruct (IH (Qmax q a)) as [Hin Hle]. split.
    + destruct Hin as [E|Hin]; [|now right; right].
      rewrite <- E. unfold Qmax. destruct (Qle_bool q a); auto.
    + assert (Hq : q <= Qmax q a /\ a <= Qmax q a).
      { unfold Qmax. destruct (Qle_bool q a) eqn:E.
        - apply Qle_bool_iff in E. split; [exact E | apply Qle_refl].
        - apply Qle_bool_false in E. split; [apply Qle_refl | apply Qlt_le_weak; exact E]. }
      assert (H0 : Qmax q a <= fold_left Qmax l (Qmax q a)) by (apply Hle; now left).
      intros x [<-|[<-|Hx]].
      * eapply Qle_trans; [apply Hq | exact H0].
      * eapply Qle_trans; [apply Hq | exact H0].
      * apply Hle. now right.
Qed.

Lemma Qminimum_spec (l : list Q) :
  l <> [] -> exists lo, Qminimum l = Some lo /\ In lo l /\ forall x, In x l -> lo <= x.
Proof.
  destruct l as [|q l]; [congruence|]. intros _.
  exists (fold_left Qmin l q). split; [reflexivity|]. apply fold_Qmin_spec.
Qed.

Lemma Qmaximum_spec (l : list Q) :
  l <> [] -> exists hi, Qmaximum l = Some hi /\ In hi l /\ forall x, In x l -> x <= hi.
Proof.
  destruct l as [|q l]; [congruence|]. intros _.
  exists (fold_left Qmax l q). split; [reflexivity|]. apply fold_Qmax_spec.
Qed.

(** ** Membership in the specification's sample sets *)

Lemma In_positive_finite (roi : list float) (q : Q) :
  In q (positive_finite roi) <-> In (Fin q) roi /\ 0 < q.
Proof.
  induction roi as [|s l IH]; [simpl; tauto|].
  rewrite positive_finite_cons. destruct s as [|b|p].
  - rewrite IH. simpl. intuition congruence.
  - rewrite IH. simpl. intuition congruence.
  - destruct (Qltb 0 p) eqn:E.
    + apply Qltb_lt in E. simpl. rewrite IH. split.
      * intros [<-|[H1 H2]]; auto.
      * intros [[H|H] H2]; [left; congruence | right; auto].
    + apply Qltb_ge in E. rewrite IH. simpl. split.
      * intros [H1 H2]; auto.
      * intros [[H|H] H2]; [|auto].
        injection H as ->. exfalso. apply (Qlt_irrefl 0).
        eapply Qlt_le_trans; eauto.
Qed.


Lemma positive_finite_nonzero (roi : list float) :
  positive_finite roi <> [] -> no_nonzero roi = false.
Proof.
  induction roi as [|s l IH]; [intros H; now elim H|].
  rewrite positive_finite_cons. unfold no_nonzero. cbn [forallb].
  destruct s as [|b|q]; try reflexivity.
  destruct (Qltb 0 q) eqn:E.
  - intros _. apply Qltb_lt in E. cbn [feqb].
    replace (Qeq_bool q 0) with false; [reflexivity|].
    symmetry. apply Qeq_bool_false. intro Z0. rewrite Z0 in E.
    exact (Qlt_irrefl 0 E).
  - intros H. fold (no_nonzero l). rewrite (IH H). apply andb_false_r.
Qed.

(* ================================================================== *)
(** * Keypoint projection *)
(* ================================================================== *)

Lemma combine_map {A B C : Type} (f : A -> B) (g : A -> C) (l : list A) :
  combine (map f l) (map g l) = map (fun a => (f a, g a)) l.
Proof. induction l as [|a l IH]; simpl; [reflexivity | now rewrite IH]. Qed.

Lemma mapM_map {A B C : Type} (f : B -> result C) (h : A -> B) (g : A -> C)
    (l : list A) :
  (forall a, In a l -> f (h a) = Ok (g a)) -> mapM f (map h l) = Ok (map g l).
Proof.
  induction l as [|a l IH]; intros H; simpl; [reflexivity|].
  rewrite (H a) by now left. cbn [bind].
  rewrite IH by (intros b Hb; apply H; now right). reflexivity.
Qed.

Lemma clip_inside (a : Z) (n : nat) :
  (1 <= n)%nat -> (0 <= clip a 0 (Z.of_nat n - 1) < Z.of_nat n)%Z.
Proof. unfold clip. lia. Qed.

(** The loop that fills [msg_array] keeps, in order, the points without
    a NaN component. *)
Lemma append_keypoints (pos : KeyPoint2D.t -> vec3) (data : list KeyPoint2D.t)
    (msg_array : list KeyPoint3D.t) :
  fold_left append_keypoint (map (fun d => (pos d, d)) data) msg_array
  = msg_array ++ map (fun d => KeyPoint3D_of (pos d) d)
                     (filter (fun d => negb (has_nan (pos d))) data).
Proof.
  revert msg_array. induction data as [|d l IH]; intros acc; simpl.
  - now rewrite app_nil_r.
  - rewrite IH. destruct (has_nan (pos d)); simpl; [reflexivity|].
    now rewrite <- app_assoc.
Qed.

(** On a frame whose camera info describes a non-empty depth image, the
    batch computation of [convert_keypoints_to_3d] is the keypoint-wise
    projection followed by the removal of the undefined points. *)
Lemma convert_keypoints_to_3d_eq (self : Detect3DNode) (depth_image : ndarray)
    (depth_info : CameraInfo.t) (detection : Detection.t) :
  Detection.keypoints detection <> [] ->
  coherent depth_image depth_info ->
  (1 <= shape0 depth_image)%nat -> (1 <= shape1 depth_image)%nat ->
  convert_keypoints_to_3d self depth_image depth_info detection =
  Ok {| KeyPoint3DArray.data :=
          surviving_keypoints self depth_image depth_info
            (Detection.keypoints detection);
        KeyPoint3DArray.frame_id := EmptyString |}.
Proof.
  intros Hne [Hh Hw] H0 H1. unfold convert_keypoints_to_3d.
  destruct (Detection.keypoints detection) as [|d0 l] eqn:D; [now elim Hne|].
  clear Hne. rewrite <- D. set (data := Detection.keypoints detection).
  assert (Hdata : map (fun p => (int16 (Point2D.x (KeyPoint2D.point p)),
                                 int16 (Point2D.y (KeyPoint2D.point p)))) data
                  <> []) by (unfold data; rewrite D; discriminate).
  destruct (map _ data) as [|r0 rs] eqn:K; [now elim Hdata|].
  rewrite <- K. clear K Hdata r0 rs.
  rewrite !map_map. cbn [fst snd].
  fold (sample_row depth_info). fold (sample_col depth_info).
  change (map (fun x => clip (int16 (Point2D.y (KeyPoint2D.point x))) 0
                          (Z.of_nat (CameraInfo.height depth_info) - 1)) data)
    with (map (sample_row depth_info) data).
  change (map (fun x => clip (int16 (Point2D.x (KeyPoint2D.point x))) 0
                          (Z.of_nat (CameraInfo.width depth_info) - 1)) data)
    with (map (sample_col depth_info) data).
  rewrite combine_map.
  rewrite (mapM_map _ _ (sampled_depth depth_image depth_info)).
  2:{ intros d _. cbn [fst snd]. unfold sampled_depth. apply getitem_inside.
      - unfold sample_row. rewrite Hh. now apply clip_inside.
      - unfold sample_col. rewrite Hw. now apply clip_inside. }
  cbn [bind]. rewrite !combine_map, !map_map. cbn [fst snd].
  rewrite !combine_map, !map_map.
  unfold surviving_keypoints. f_equal. f_equal.
  change (map _ data) with (map (keypoint_position self depth_image depth_info) data).
  rewrite <- (map_id data) at 2. rewrite combine_map.
  exact (append_keypoints (keypoint_position self depth_image depth_info) data []).
Qed.

(** ** The 16-bit pixel coordinates *)

Lemma wrap16_range (z : Z) : (-32768 <= wrap16 z <= 32767)%Z.
Proof.
  unfold wrap16. pose proof (Z.mod_pos_bound (z + 32768) 65536). lia.
Qed.

Lemma wrap16_congruent (z : Z) : ((wrap16 z - z) mod 65536 = 0)%Z.
Proof.
  unfold wrap16. pose proof (Z.div_mod (z + 32768) 65536).
  replace ((z + 32768) mod 65536 - 32768 - z)%Z
    with (- ((z + 32768) / 65536) * 65536)%Z by lia.
  apply Z.mod_mul. lia.
Qed.

(* ================================================================== *)
(** * The detection pipeline *)
(* ================================================================== *)

Lemma box_needs_pixels (self : Detect3DNode) (depth_image : ndarray)
    (depth_info : CameraInfo.t) (detection : Detection.t) (box : BoundingBox3D.t) :
  convert_bb_to_3d self depth_image depth_info detection = Ok (Some box) ->
  (1 <= shape0 depth_image)%nat /\ (1 <= shape1 depth_image)%nat.
Proof.
  rewrite convert_bb_to_3d_eq. unfold rejected.
  destruct (anchor_outside depth_image detection) eqn:A.
  - rewrite orb_true_r. cbn [orb]. discriminate.
  - intros _. unfold anchor_outside in A.
    destruct (anchor_pixel detection) as [cx cy].
    apply negb_false_iff, anchor_inside_bounds in A. lia.
Qed.

(** The loop appends, for each detection that gets a box, the augmented
    detection, and skips the others. *)
Lemma process_loop_eq (self : Detect3DNode) (depth_image : ndarray)
    (depth_info : CameraInfo.t) (transform : vec3 * quat)
    (detections new_detections : list Detection.t) :
  coherent depth_image depth_info ->
  process_loop self depth_image depth_info transform detections new_detections =
  Ok (new_detections ++
      map (augmented self depth_image depth_info transform)
          (filter (yields_box self depth_image depth_info) detections)).
Proof.
  intros Hc. revert new_detections.
  induction detections as [|d l IH]; intros acc.
  - simpl. now rewrite app_nil_r.
  - cbn [process_loop filter]. unfold yields_box at 1.
    destruct (convert_bb_to_3d self depth_image depth_info d)
      as [[box|]|e] eqn:E; cbn [bind].
    + destruct (box_needs_pixels _ _ _ _ _ E) as [H0 H1].
      cbn [map]. unfold augmented at 1. rewrite E.
      cbn [Detection.keypoints Detection.set_bbox3d].
      destruct (Detection.keypoints d) as [|k ks] eqn:K.
      * rewrite IH, <- app_assoc. reflexivity.
      * rewrite convert_keypoints_to_3d_eq; try assumption;
          cbn [Detection.keypoints Detection.set_bbox3d];
          [|rewrite K; discriminate].
        cbn [bind]. rewrite IH, <- app_assoc, K. reflexivity.
    + apply IH.
    + rewrite convert_bb_to_3d_eq in E. discriminate.
Qed.

(* ================================================================== *)
(** * The rigid transform *)
(* ================================================================== *)

(** On finite values [qv_mult] is the specification's [rotate]. *)
Lemma qv_mult_rotate (q : qquat) (v : qvec3) :
  qv_mult (fin4 q) (fin3 v) = fin3 (rotate q v).
Proof.
  destruct q as [[[q0 q1] q2] q3], v as [[v0 v1] v2]. reflexivity.
Qed.





(* ================================================================== *)
(** * The cropped region *)
(* ================================================================== *)

Lemma In_zrange (lo hi i : Z) : In i (zrange lo hi) <-> (lo <= i < hi)%Z.
Proof.
  unfold zrange. rewrite in_map_iff. split.
  - intros (k & <- & Hk). apply in_seq in Hk. lia.
  - intros H. exists (Z.to_nat (i - lo)). split; [lia|]. apply in_seq. lia.
Qed.

(** A slice whose bounds are not negative selects the plain range. *)
Lemma slice_is_range (n : nat) (lo hi : Z) :
  (0 <= lo)%Z -> ((0 <= hi)%Z \/ n = 0%nat) -> (hi <= Z.of_nat n - 1)%Z ->
  slice_indices (Z.of_nat n) lo hi = zrange lo hi.
Proof.
  intros Hlo Hhi Hn. unfold slice_indices, zrange, slice_bound.
  destruct (Z.ltb_spec lo 0); [lia|].
  destruct (Z.ltb_spec hi 0) as [Hneg|Hpos].
  - assert (n = 0%nat) by lia. subst n.
    replace (Z.to_nat (Z.max (hi + Z.of_nat 0) 0 - Z.min lo (Z.of_nat 0))) with 0%nat by lia.
    replace (Z.to_nat (hi - lo)) with 0%nat by lia. reflexivity.
  - destruct (Z.le_gt_cases lo (Z.of_nat n)).
    + replace (Z.min lo (Z.of_nat n)) with lo by lia.
      replace (Z.min hi (Z.of_nat n)) with hi by lia. reflexivity.
    + replace (Z.to_nat (Z.min hi (Z.of_nat n) - Z.min lo (Z.of_nat n))) with 0%nat by lia.
      replace (Z.to_nat (hi - lo)) with 0%nat by lia. reflexivity.
Qed.

(** When the right and the bottom edge of the box are not left of, or
    above, the image, the cropped region is the rectangle between the
    clipped bounds, in meters. *)
Lemma crop_is_rectangle (self : Detect3DNode) (depth_image : ndarray)
    (detection : Detection.t) :
  let bbox := Detection.bbox detection in
  let cx := py_int (Point2D.x (BoundingBox2D.center bbox)) in
  let cy := py_int (Point2D.y (BoundingBox2D.center bbox)) in
  let w := py_int (Point2D.x (BoundingBox2D.size bbox)) in
  let h := py_int (Point2D.y (BoundingBox2D.size bbox)) in
  (0 <= cx + w / 2)%Z -> (0 <= cy + h / 2)%Z ->
  depth_roi self depth_image detection =
  np_div (rectangle depth_image
            (Z.max (cy - h / 2) 0) (Z.min (cy + h / 2) (Z.of_nat (shape0 depth_image) - 1))
            (Z.max (cx - w / 2) 0) (Z.min (cx + w / 2) (Z.of_nat (shape1 depth_image) - 1)))
         (of_Z (depth_image_units_divisor self)).
Proof.
  intros bbox cx cy w h Hx Hy. unfold depth_roi, crop_bounds, getslice, rectangle.
  fold bbox. fold cx. fold cy. fold w. fold h.
  rewrite !slice_is_range; try lia; reflexivity.
Qed.

Lemma In_depth_roi (a : ndarray) (d : float) (v_min v_max u_min u_max : Z)
    (s : float) :
  In s (concat (np_div (rectangle a v_min v_max u_min u_max) d)) <->
  exists r c, (v_min <= r < v_max)%Z /\ (u_min <= c < u_max)%Z /\
              s = fdiv (item a r c) d.
Proof.
  unfold np_div, rectangle. rewrite in_concat. split.
  - intros (row & Hrow & Hs).
    rewrite map_map in Hrow. apply in_map_iff in Hrow.
    destruct Hrow as (r & <- & Hr). rewrite map_map in Hs.
    apply in_map_iff in Hs. destruct Hs as (c & <- & Hc).
    exists r, c. rewrite In_zrange in Hr, Hc. auto.
  - intros (r & c & Hr & Hc & ->).
    exists (map (fun s => fdiv s d) (map (fun u => item a r u) (zrange u_min u_max))).
    split.
    + apply in_map, in_map_iff. exists r.
      split; [reflexivity | now apply In_zrange].
    + apply (in_map (fun s => fdiv s d)), in_map_iff. exists c.
      split; [reflexivity | now apply In_zrange].
Qed.

(** ** Regions of uniform depth *)

Lemma finite_values_uniform (c : Q) (l : list float) :
  Forall (fun s => exists q, s = Fin q /\ q == c) l ->
  Forall (fun q => q == c) (finite_values l) /\
  length (finite_values l) = length l.
Proof.
  induction 1 as [|s l (q & -> & Hq) _ [IH1 IH2]]; simpl; [split; auto|].
  split; [constructor; assumption | now rewrite IH2].
Qed.

Lemma positive_finite_uniform (c : Q) (l : list float) :
  0 < c -> Forall (fun s => exists q, s = Fin q /\ q == c) l ->
  positive_finite l = finite_values l.
Proof.
  intros Hc. induction 1 as [|s l (q & -> & Hq) _ IH]; [reflexivity|].
  rewrite positive_finite_cons, IH.
  replace (Qltb 0 q) with true; [reflexivity|].
  symmetry. apply Qltb_lt. now rewrite Hq.
Qed.

Lemma consensus_uniform (t m c : Q) (l : list float) :
  0 <= t -> m == c -> Forall (fun s => exists q, s = Fin q /\ q == c) l ->
  consensus t m l = finite_values l.
Proof.
  intros Ht Hm. induction 1 as [|s l (q & -> & Hq) _ IH]; [reflexivity|].
  rewrite consensus_cons, IH.
  replace (Qle_bool (Qabs (q - m)) t) with true; [reflexivity|].
  symmetry. apply Qle_bool_iff.
  assert (E : q - m == 0) by (rewrite Hq, Hm; ring).
  rewrite E. exact Ht.
Qed.

Lemma Qsum_uniform (c : Q) (l : list Q) :
  Forall (fun q => q == c) l -> Qsum l == c * inject_Z (Z.of_nat (length l)).
Proof.
  induction 1 as [|q l Hq _ IH]; simpl.
  - unfold Qsum. simpl. ring.
  - unfold Qsum in *. cbn [fold_right]. rewrite IH, Hq.
    rewrite Nat2Z.inj_succ. unfold Z.succ. rewrite inject_Z_plus. ring.
Qed.

Lemma Qmean_uniform (c : Q) (l : list Q) :
  l <> [] -> Forall (fun q => q == c) l -> Qmean l == c.
Proof.
  intros Hne H. unfold Qmean. rewrite (Qsum_uniform c l H).
  field. intro E.
  assert (Hn : inject_Z (Z.of_nat (length l)) == inject_Z 0) by exact E.
  apply inject_Z_injective in Hn. destruct l; [now elim Hne | discriminate].
Qed.

Lemma py_int_inject (q : Q) (z : Z) : q == inject_Z z -> py_int q = z.
Proof.
  unfold py_int, Qeq, inject_Z. simpl. intros E.
  rewrite Z.mul_1_r in E. rewrite E. apply Z.quot_mul. discriminate.
Qed.

Lemma same_Fin (a : float) (c : Q) : same a (Fin c) -> exists q, a = Fin q /\ q == c.
Proof.
  destruct a as [|b|q]; simpl; try contradiction. intros H. now exists q.
Qed.

Lemma anchor_without_keypoints (detection : Detection.t) :
  Detection.keypoints detection = [] ->
  anchor_pixel detection =
  (py_int (Point2D.x (BoundingBox2D.center (Detection.bbox detection))),
   py_int (Point2D.y (BoundingBox2D.center (Detection.bbox detection)))).
Proof.
  intros K. unfold anchor_pixel. rewrite K.
  cbn [scan_keypoints fold_left resolve_anchor anchors_init up_detected
       down_detected andb fst snd].
  f_equal; apply py_int_inject; reflexivity.
Qed.

(** C7.  A box of centre (100, 100) and size (40, 40) without keypoints,
    on a depth frame whose 40x40 region around (100, 100) is uniformly
    2000 raw units, with a divisor of 1000 and intrinsics
    [fx = fy = 500], [px = py = 0], gets a box with [center.z = 2.0],
    [size.z = 0.0], [center.x = 0.4], [center.y = 0.4] and
    [size.x = 0.16] (for any tolerance that is not negative). *)
Theorem uniform_depth_scenario (self : Detect3DNode) (depth_image : ndarray)
    (depth_info : CameraInfo.t) (detection : Detection.t) :
  depth_image_units_divisor self = 1000%Z ->
  0 <= maximum_detection_threshold self ->
  Point2D.x (BoundingBox2D.center (Detection.bbox detection)) == 100 ->
  Point2D.y (BoundingBox2D.center (Detection.bbox detection)) == 100 ->
  Point2D.x (BoundingBox2D.size (Detection.bbox detection)) == 40 ->
  Point2D.y (BoundingBox2D.size (Detection.bbox detection)) == 40 ->
  Detection.keypoints detection = [] ->
  (121 <= shape0 depth_image)%nat -> (121 <= shape1 depth_image)%nat ->
  (forall r c, (80 <= r < 120)%Z -> (80 <= c < 120)%Z ->
               same (item depth_image r c) (Fin 2000)) ->
  same (CameraInfo.k depth_info 0) (Fin 500) ->
  same (CameraInfo.k depth_info 4) (Fin 500) ->
  same (CameraInfo.k depth_info 2) (Fin 0) ->
  same (CameraInfo.k depth_info 5) (Fin 0) ->
  exists box,
    convert_bb_to_3d self depth_image depth_info detection = Ok (Some box) /\
    same (Vector3.z (BoundingBox3D.center box)) (Fin 2) /\
    same (Vector3.z (BoundingBox3D.size box)) (Fin 0) /\
    same (Vector3.x (BoundingBox3D.center box)) (Fin (4 # 10)) /\
    same (Vector3.y (BoundingBox3D.center box)) (Fin (4 # 10)) /\
    same (Vector3.x (BoundingBox3D.size box)) (Fin (16 # 100)).
Proof.
  intros Hdiv Ht Hcx Hcy Hsx Hsy Hk H0 H1 Himg Hfx Hfy Hpx Hpy.
  apply (py_int_inject _ 100) in Hcx, Hcy.
  apply (py_int_inject _ 40) in Hsx, Hsy.
  (* the cropped region *)
  assert (Hroi : depth_roi self depth_image detection =
                 np_div (rectangle depth_image 80 120 80 120) (of_Z 1000)).
  { rewrite crop_is_rectangle; rewrite ?Hcx, ?Hcy, ?Hsx, ?Hsy, ?Hdiv;
      change (40 / 2)%Z with 20%Z; try lia.
    f_equal. f_equal; lia. }
  set (roi := concat (depth_roi self depth_image detection)).
  assert (Hin : forall r c, (80 <= r < 120)%Z -> (80 <= c < 120)%Z ->
                  exists q, fdiv (item depth_image r c) (of_Z 1000) = Fin q /\ q == 2).
  { intros r c Hr Hc. destruct (same_Fin _ _ (Himg r c Hr Hc)) as (q & -> & Hq).
    exists (q / inject_Z 1000). split; [reflexivity|]. rewrite Hq. reflexivity. }
  assert (Huni : Forall (fun s => exists q, s = Fin q /\ q == 2) roi).
  { apply Forall_forall. intros s Hs. unfold roi in Hs. rewrite Hroi in Hs.
    apply In_depth_roi in Hs. destruct Hs as (r & c & Hr & Hc & ->).
    now apply Hin. }
  assert (Hne : finite_values roi <> []).
  { assert (I : In (fdiv (item depth_image 80 80) (of_Z 1000)) roi).
    { unfold roi. rewrite Hroi. apply In_depth_roi. exists 80%Z, 80%Z.
      repeat split; lia. }
    destruct (finite_values_uniform 2 roi Huni) as [_ L].
    intros E. rewrite E in L. destruct roi; [contradiction | discriminate]. }
  destruct (finite_values_uniform 2 roi Huni) as [Hvals _].
  assert (Hpos : positive_finite roi = finite_values roi)
    by (apply (positive_finite_uniform 2); [reflexivity | assumption]).
  assert (Hmean : robust_mean roi == 2).
  { unfold robust_mean. rewrite Hpos. now apply Qmean_uniform. }
  assert (Hcons : consensus (maximum_detection_threshold self) (robust_mean roi) roi
                  = finite_values roi)
    by (now apply (consensus_uniform _ _ 2)).
  (* the anchor *)
  assert (Hanchor : anchor_pixel detection = (100, 100)%Z).
  { rewrite anchor_without_keypoints by assumption. now rewrite Hcx, Hcy. }
  assert (Hrej : rejected self depth_image detection = false).
  { unfold rejected, anchor_outside, anchor_depth. fold roi.
    rewrite Hanchor, Hcons, Hpos, Hdiv.
    rewrite (positive_finite_nonzero roi) by (rewrite Hpos; exact Hne).
    replace (0 <=? 100)%Z with true by reflexivity.
    replace (100 <? Z.of_nat (shape1 depth_image))%Z with true
      by (symmetry; apply Z.ltb_lt; lia).
    replace (100 <? Z.of_nat (shape0 depth_image))%Z with true
      by (symmetry; apply Z.ltb_lt; lia).
    destruct (Hin 100%Z 100%Z) as (q & -> & Hq); try lia.
    cbn [andb negb orb unusable].
    replace (Qeq_bool q 0) with false
      by (symmetry; apply Qeq_bool_false; rewrite Hq; discriminate).
    destruct (finite_values roi); [now elim Hne | reflexivity]. }
  rewrite convert_bb_to_3d_eq, Hrej. eexists. split; [reflexivity|].
  unfold expected_box. fold roi. rewrite Hanchor, Hcons, Hsx.
  cbn [BoundingBox3D.center BoundingBox3D.size Vector3.x Vector3.y Vector3.z].
  destruct (same_Fin _ _ Hfx) as (fx & -> & Efx).
  destruct (same_Fin _ _ Hfy) as (fy & -> & Efy).
  destruct (same_Fin _ _ Hpx) as (px & -> & Epx).
  destruct (same_Fin _ _ Hpy) as (py & -> & Epy).
  assert (Nfx : Qeq_bool fx 0 = false)
    by (apply Qeq_bool_false; rewrite Efx; discriminate).
  assert (Nfy : Qeq_bool fy 0 = false)
    by (apply Qeq_bool_false; rewrite Efy; discriminate).
  destruct (Qminimum_spec (finite_values roi) Hne) as (lo & -> & Ilo & _).
  destruct (Qmaximum_spec (finite_values roi) Hne) as (hi & -> & Ihi & _).
  rewrite Forall_forall in Hvals.
  pose proof (Hvals lo Ilo) as Elo. pose proof (Hvals hi Ihi) as Ehi.
  cbn [of_Z fsub fopp fadd fmul fdiv ma_float same]. rewrite Nfx, Nfy.
  cbn [same].
  repeat split.
  - exact Hmean.
  - rewrite Elo, Ehi. reflexivity.
  - rewrite Hmean, Efx, Epx. reflexivity.
  - rewrite Hmean, Efy, Epy. reflexivity.
  - rewrite Hmean, Efx. reflexivity.
Qed.

Lemma uniform_depth_scenario_witness :
  exists box,
    convert_bb_to_3d sample_node uniform_image (sample_info 200 200)
      uniform_detection = Ok (Some box) /\
    same (Vector3.z (BoundingBox3D.center box)) (Fin 2) /\
    same (Vector3.z (BoundingBox3D.size box)) (Fin 0) /\
    same (Vector3.x (BoundingBox3D.center box)) (Fin (4 # 10)) /\
    same (Vector3.y (BoundingBox3D.center box)) (Fin (4 # 10)) /\
    same (Vector3.x (BoundingBox3D.size box)) (Fin (16 # 100)).
Proof.
  apply (uniform_depth_scenario sample_node uniform_image (sample_info 200 200)
           uniform_detection);
    try reflexivity; try (simpl; lia); try discriminate.
Defined.

(** The crop of a box that stays clear of the left and top borders is the
    claimed rectangle; this is the case of the uniform scenario. *)
Example uniform_crop :
  depth_roi sample_node uniform_image uniform_detection =
  np_div (rectangle uniform_image 80 120 80 120) (of_Z 1000).
Proof. vm_compute. reflexivity. Qed.

(* ================================================================== *)
(** * The anchor for well-scored keypoints *)
(* ================================================================== *)

Lemma scan_keypoints_snoc (data : list KeyPoint2D.t) (kp : KeyPoint2D.t) :
  scan_keypoints (data ++ [kp]) = scan_keypoint (scan_keypoints data) kp.
Proof. unfold scan_keypoints. now rewrite fold_left_app. Qed.

Lemma slot_holds_snoc_other (i : Z) (data : list KeyPoint2D.t) (kp k : KeyPoint2D.t) :
  KeyPoint2D.id k <> i -> slot_holds i data kp -> slot_holds i (data ++ [k]) kp.
Proof.
  intros Hk [[Hin Hid]|[Hno Hdef]].
  - left. split; [apply in_or_app; now left | assumption].
  - right. split; [|assumption].
    intros k' Hk'. apply in_app_or in Hk'. destruct Hk' as [Hk'|[<-|[]]]; auto.
Qed.

Lemma slot_holds_snoc_same (data : list KeyPoint2D.t) (k : KeyPoint2D.t) :
  slot_holds (KeyPoint2D.id k) (data ++ [k]) k.
Proof. left. split; [apply in_or_app; right; now left | reflexivity]. Qed.

(** After the loop each slot holds its keypoint, and the two flags tell
    whether a shoulder, respectively a hip, occurs. *)
Lemma scan_keypoints_slots (data : list KeyPoint2D.t) :
  let a := scan_keypoints data in
  slot_holds 5 data (kp5 a) /\ slot_holds 6 data (kp6 a) /\
  slot_holds 11 data (kp11 a) /\ slot_holds 12 data (kp12 a) /\
  up_detected a = negb (nilb (with_ids [5; 6]%Z data)) /\
  down_detected a = negb (nilb (with_ids [11; 12]%Z data)).
Proof.
  induction data as [|k l IH] using rev_ind.
  - cbn. repeat split; right; split; auto.
  - cbv zeta in *. rewrite scan_keypoints_snoc.
    destruct IH as (I5 & I6 & I11 & I12 & Iu & Id).
    unfold with_ids in *. rewrite !filter_app. cbn [filter existsb].
    unfold scan_keypoint.
    destruct (Z.eqb_spec (KeyPoint2D.id k) 5) as [E5|N5];
      [|destruct (Z.eqb_spec (KeyPoint2D.id k) 6) as [E6|N6];
        [|destruct (Z.eqb_spec (KeyPoint2D.id k) 11) as [E11|N11];
          [|destruct (Z.eqb_spec (KeyPoint2D.id k) 12) as [E12|N12]]]];
      cbn [kp5 kp6 kp11 kp12 up_detected down_detected orb];
      rewrite ?E5, ?E6, ?E11, ?E12; cbn [Z.eqb Pos.eqb orb];
      rewrite ?app_nil_r;
      repeat match goal with
             | |- _ /\ _ => split
             | |- slot_holds ?i (l ++ [k]) k =>
                 first [ rewrite <- E5 | rewrite <- E6
                       | rewrite <- E11 | rewrite <- E12 ];
                 apply slot_holds_snoc_same
             | |- slot_holds _ (l ++ [k]) _ =>
                 apply slot_holds_snoc_other; [lia | assumption]
             | |- _ = negb (nilb (?x ++ [_])) => destruct x; reflexivity
             | |- _ => assumption
             end.
Qed.

Lemma In_with_ids (i j : Z) (data : list KeyPoint2D.t) (kp : KeyPoint2D.t) :
  In kp (with_ids [i; j] data) <->
  In kp data /\ (KeyPoint2D.id kp = i \/ KeyPoint2D.id kp = j).
Proof.
  unfold with_ids. rewrite filter_In. cbn [existsb].
  rewrite !orb_true_iff, !Z.eqb_eq. intuition discriminate.
Qed.

(** Among well-scored keypoints, [better] applied to the two slots of a
    side picks a highest-confidence keypoint of that side. *)
Lemma better_is_best (i j : Z) (data : list KeyPoint2D.t) (a b : KeyPoint2D.t) :
  (forall kp, In kp data -> KeyPoint2D.id kp = i \/ KeyPoint2D.id kp = j ->
              0 < KeyPoint2D.score kp) ->
  (forall k1 k2, In k1 data -> In k2 data ->
                 KeyPoint2D.id k1 = i \/ KeyPoint2D.id k1 = j ->
                 KeyPoint2D.id k1 = KeyPoint2D.id k2 -> k1 = k2) ->
  slot_holds i data a -> slot_holds j data b ->
  with_ids [i; j] data <> [] ->
  best_of (with_ids [i; j] data) (better a b).
Proof.
  intros Hpos Huniq Ha Hb Hne. unfold best_of, better.
  destruct Ha as [[Ia Ea]|[Na Da]], Hb as [[Ib Eb]|[Nb Db]].
  - destruct (Qltb (KeyPoint2D.score b) (KeyPoint2D.score a)) eqn:C.
    + apply Qltb_lt in C. split; [apply In_with_ids; auto|].
      intros kp Hkp. apply In_with_ids in Hkp. destruct Hkp as [Hin [Hid|Hid]].
      * rewrite (Huniq kp a); auto; [apply Qle_refl | congruence].
      * rewrite (Huniq kp b); auto; [now apply Qlt_le_weak | congruence].
    + apply Qltb_ge in C. split; [apply In_with_ids; auto|].
      intros kp Hkp. apply In_with_ids in Hkp. destruct Hkp as [Hin [Hid|Hid]].
      * rewrite (Huniq kp a); auto; congruence.
      * rewrite (Huniq kp b); auto; [apply Qle_refl | congruence].
  - subst b. replace (Qltb (KeyPoint2D.score KeyPoint2D.default) (KeyPoint2D.score a))
      with true by (symmetry; apply Qltb_lt; apply Hpos; auto).
    split; [apply In_with_ids; auto|].
    intros kp Hkp. apply In_with_ids in Hkp. destruct Hkp as [Hin [Hid|Hid]].
    + rewrite (Huniq kp a); auto; [apply Qle_refl | congruence].
    + now elim (Nb kp Hin).
  - subst a. replace (Qltb (KeyPoint2D.score b) (KeyPoint2D.score KeyPoint2D.default))
      with false
      by (symmetry; apply Qltb_ge, Qlt_le_weak; apply Hpos; auto).
    split; [apply In_with_ids; auto|].
    intros kp Hkp. apply In_with_ids in Hkp. destruct Hkp as [Hin [Hid|Hid]].
    + now elim (Na kp Hin).
    + rewrite (Huniq kp b); auto; [apply Qle_refl | congruence].
  - exfalso. destruct (with_ids [i; j] data) as [|kp l] eqn:W; [now elim Hne|].
    assert (Hkp : In kp (with_ids [i; j] data)) by (rewrite W; now left).
    apply In_with_ids in Hkp. destruct Hkp as [Hin [Hid|Hid]].
    + exact (Na kp Hin Hid).
    + exact (Nb kp Hin Hid).
Qed.

(** For well-scored keypoints the node resolves the anchor as the
    specification prescribes. *)
Lemma anchor_follows_spec (detection : Detection.t) :
  well_scored (Detection.keypoints detection) ->
  spec_anchor detection
    (resolve_anchor (scan_keypoints (Detection.keypoints detection))
       (inject_Z (py_int (Point2D.x (BoundingBox2D.center (Detection.bbox detection)))),
        inject_Z (py_int (Point2D.y (BoundingBox2D.center (Detection.bbox detection)))))).
Proof.
  intros [Hpos Huniq]. unfold spec_anchor, resolve_anchor.
  destruct (scan_keypoints_slots (Detection.keypoints detection))
    as (I5 & I6 & I11 & I12 & Iu & Id).
  assert (Bup : with_ids [5; 6]%Z (Detection.keypoints detection) <> [] ->
                best_of (with_ids [5; 6]%Z (Detection.keypoints detection))
                  (better (kp5 (scan_keypoints (Detection.keypoints detection)))
                          (kp6 (scan_keypoints (Detection.keypoints detection))))).
  { apply better_is_best; auto.
    - intros kp Hin [E|E]; apply Hpos; auto; rewrite E; simpl; auto.
    - intros k1 k2 H1 H2 [E|E]; apply Huniq; auto; rewrite E; simpl; auto. }
  assert (Bdown : with_ids [11; 12]%Z (Detection.keypoints detection) <> [] ->
                  best_of (with_ids [11; 12]%Z (Detection.keypoints detection))
                    (better (kp11 (scan_keypoints (Detection.keypoints detection)))
                            (kp12 (scan_keypoints (Detection.keypoints detection))))).
  { apply better_is_best; auto.
    - intros kp Hin [E|E]; apply Hpos; auto; rewrite E; simpl; auto.
    - intros k1 k2 H1 H2 [E|E]; apply Huniq; auto; rewrite E; simpl; auto. }
  rewrite Iu, Id.
  destruct (with_ids [5; 6]%Z _) as [|u us], (with_ids [11; 12]%Z _) as [|d ds];
    cbn [nilb negb andb].
  - reflexivity.
  - eexists. split; [apply Bdown; discriminate | reflexivity].
  - eexists. split; [apply Bup; discriminate | reflexivity].
  - do 2 eexists. split; [apply Bup; discriminate|].
    split; [apply Bdown; discriminate | reflexivity].
Qed.

(* ================================================================== *)
(** * Where the node departs from the specification *)
(* ================================================================== *)

(** C3.  A detection whose only shoulder or hip keypoint is id 5, at
    (50, 60), with a confidence of 0: the specification's anchor is that
    keypoint's pixel, but the node compares it with the score 0 of the
    default-constructed [kp6], keeps [kp6] and anchors the box at its
    position (0, 0).  In the specification's own scenario (ids 5 and 6 at
    0.9 and 0.3) the node does take id 5's pixel. *)
Theorem lone_zero_score_keypoint_loses :
  anchor_pixel lone_shoulder = (0, 0)%Z /\
  spec_anchor lone_shoulder (50, 60) /\
  ~ spec_anchor lone_shoulder
      (resolve_anchor (scan_keypoints (Detection.keypoints lone_shoulder))
         (100, 100)) /\
  anchor_pixel two_shoulders = (50, 60)%Z /\
  spec_anchor two_shoulders (50, 60).
Proof.
  split; [reflexivity|]. split; [|split; [|split; [reflexivity|]]].
  - exists (keypoint 5 50 60 0). split; [|reflexivity].
    split; [now left|]. intros kp [<-|[]]. apply Qle_refl.
  - intros (up & [[<-|[]] _] & E). discriminate E.
  - exists (keypoint 5 50 60 (9 # 10)). split; [|reflexivity].
    split; [now left|]. intros kp [<-|[<-|[]]]; cbn; [apply Qle_refl | discriminate].
Qed.

(** C5.  A box of centre (-3, 2) and size (2, 2) on the 4x4 image: the
    clipped column bounds are [u_min = 0] and [u_max = -2], the rectangle
    between them is empty, but the slice [0:-2] counts its end from the
    right border and the node crops columns 0 and 1.  With a keypoint
    inside the image the detection even gets a box from that region. *)
Theorem offscreen_box_crop_wraps :
  crop_bounds (shape1 small_image) (-3) 2 = (0, -2)%Z /\
  crop_bounds (shape0 small_image) 2 2 = (1, 3)%Z /\
  rectangle small_image 1 3 0 (-2) = [[]; []] /\
  depth_roi sample_node small_image offscreen_detection =
    np_div (rectangle small_image 1 3 0 2) (of_Z 1000) /\
  depth_roi sample_node small_image offscreen_detection <>
    np_div (rectangle small_image 1 3 0 (-2)) (of_Z 1000) /\
  exists box,
    convert_bb_to_3d sample_node small_image (sample_info 4 4) offscreen_detection
    = Ok (Some box).
Proof.
  repeat split; try reflexivity.
  - vm_compute. discriminate.
  - eexists. vm_compute. reflexivity.
Qed.

(* ================================================================== *)
(** * Further properties of the rigid transform *)
(* ================================================================== *)

Lemma same3_fin3 (a b : qvec3) : same3 (fin3 a) (fin3 b) <-> qsame3 a b.
Proof. destruct a as [[a0 a1] a2], b as [[b0 b1] b2]. reflexivity. Qed.

(** X3.  [q] and [-q] rotate alike, whether or not [q] is a unit
    quaternion. *)
Theorem qv_mult_antipodal (q : qquat) (v : qvec3) :
  same3 (qv_mult (fin4 (qneg q)) (fin3 v)) (qv_mult (fin4 q) (fin3 v)).
Proof.
  rewrite !qv_mult_rotate. apply same3_fin3.
  destruct q as [[[q0 q1] q2] q3], v as [[v0 v1] v2].
  unfold qneg, rotate, qcross, qsame3. repeat split; ring.
Qed.

(** X4.  [qv_mult] does not normalise its quaternion: a quaternion
    without vector part, of any magnitude and the zero quaternion
    included, leaves every finite vector unchanged. *)
Theorem qv_mult_scalar_quaternion (w : Q) (v : qvec3) :
  same3 (qv_mult (fin4 (w, 0, 0, 0)) (fin3 v)) (fin3 v).
Proof.
  rewrite qv_mult_rotate. apply same3_fin3.
  destruct v as [[v0 v1] v2].
  unfold rotate, qcross, qsame3. repeat split; ring.
Qed.

(** ** Boxes and keypoints with finite coordinates *)






(* ================================================================== *)
(** * Further properties of the box estimate *)
(* ================================================================== *)

Lemma inject_Z_succ (n : nat) :
  inject_Z (Z.of_nat (S n)) == inject_Z (Z.of_nat n) + 1.
Proof.
  rewrite Nat2Z.inj_succ. unfold Z.succ. rewrite inject_Z_plus. reflexivity.
Qed.

Lemma Qsum_lower (lo : Q) (l : list Q) :
  (forall x, In x l -> lo <= x) ->
  lo * inject_Z (Z.of_nat (length l)) <= Qsum l.
Proof.
  induction l as [|a l IH]; intros H.
  - unfold Qsum. simpl. setoid_replace (lo * inject_Z (Z.of_nat 0)) with 0 by ring.
    apply Qle_refl.
  - unfold Qsum in *. cbn [length fold_right]. rewrite inject_Z_succ.
    assert (Ha : lo <= a) by (apply H; now left).
    assert (Hl : lo * inject_Z (Z.of_nat (length l)) <= fold_right Qplus 0 l)
      by (apply IH; intros x Hx; apply H; now right).
    lra.
Qed.

Lemma Qsum_upper (hi : Q) (l : list Q) :
  (forall x, In x l -> x <= hi) ->
  Qsum l <= hi * inject_Z (Z.of_nat (length l)).
Proof.
  induction l as [|a l IH]; intros H.
  - unfold Qsum. simpl. setoid_replace (hi * inject_Z (Z.of_nat 0)) with 0 by ring.
    apply Qle_refl.
  - unfold Qsum in *. cbn [length fold_right]. rewrite inject_Z_succ.
    assert (Ha : a <= hi) by (apply H; now left).
    assert (Hl : fold_right Qplus 0 l <= hi * inject_Z (Z.of_nat (length l)))
      by (apply IH; intros x Hx; apply H; now right).
    lra.
Qed.

Lemma length_positive (l : list Q) : l <> [] -> 0 < inject_Z (Z.of_nat (length l)).
Proof.
  destruct l as [|a l]; [congruence|]. intros _.
  change 0 with (inject_Z 0). rewrite <- Zlt_Qlt. cbn [length]. lia.
Qed.

(** The mean of a non-empty list lies between its bounds. *)
Lemma Qmean_between (lo hi : Q) (l : list Q) :
  l <> [] -> (forall x, In x l -> lo <= x <= hi) -> lo <= Qmean l <= hi.
Proof.
  intros Hne H. pose proof (length_positive l Hne) as Hn. unfold Qmean. split.
  - apply Qle_shift_div_l; [exact Hn|]. apply Qsum_lower. intros x Hx. now apply H.
  - apply Qle_shift_div_r; [exact Hn|]. apply Qsum_upper. intros x Hx. now apply H.
Qed.

(** What a returned box tells about the closed form. *)
Lemma box_returned (self : Detect3DNode) (depth_image : ndarray)
    (depth_info : CameraInfo.t) (detection : Detection.t) (box : BoundingBox3D.t) :
  convert_bb_to_3d self depth_image depth_info detection = Ok (Some box) ->
  box = expected_box self depth_image depth_info detection /\
  positive_finite (concat (depth_roi self depth_image detection)) <> [] /\
  consensus (maximum_detection_threshold self)
    (robust_mean (concat (depth_roi self depth_image detection)))
    (concat (depth_roi self depth_image detection)) <> [].
Proof.
  rewrite convert_bb_to_3d_eq. unfold rejected.
  destruct (positive_finite _) as [|p l]; [rewrite orb_true_r; discriminate|].
  destruct (consensus _ _ _) as [|c0 c]; [rewrite orb_true_r; discriminate|].
  destruct (_ || _); [discriminate|].
  intros E. injection E as <-. repeat split; discriminate.
Qed.

(** ** Where the crop is taken *)














(** ** Keypoints the anchor ignores *)

Lemma scan_ignores_other_ids (data : list KeyPoint2D.t) (a : anchors) :
  fold_left scan_keypoint (with_ids [5; 6; 11; 12]%Z data) a
  = fold_left scan_keypoint data a.
Proof.
  revert a. induction data as [|kp l IH]; intros a; [reflexivity|].
  unfold with_ids in *. cbn [filter existsb fold_left].
  destruct (Z.eqb_spec (KeyPoint2D.id kp) 5) as [E5|N5]; [apply IH|].
  destruct (Z.eqb_spec (KeyPoint2D.id kp) 6) as [E6|N6]; [apply IH|].
  destruct (Z.eqb_spec (KeyPoint2D.id kp) 11) as [E11|N11]; [apply IH|].
  destruct (Z.eqb_spec (KeyPoint2D.id kp) 12) as [E12|N12]; [apply IH|].
  cbn [orb]. rewrite IH. f_equal. unfold scan_keypoint.
  rewrite (proj2 (Z.eqb_neq _ _) N5), (proj2 (Z.eqb_neq _ _) N6),
    (proj2 (Z.eqb_neq _ _) N11), (proj2 (Z.eqb_neq _ _) N12).
  reflexivity.
Qed.

(** X12.  Only the keypoints with ids 5, 6, 11 and 12 matter to
    [convert_bb_to_3d]: removing every other keypoint from a detection
    does not change its result. *)
Theorem convert_bb_to_3d_ignores_other_keypoints (self : Detect3DNode)
    (depth_image : ndarray) (depth_info : CameraInfo.t) (detection : Detection.t) :
  convert_bb_to_3d self depth_image depth_info
    (set_keypoints detection
       (with_ids [5; 6; 11; 12]%Z (Detection.keypoints detection)))
  = convert_bb_to_3d self depth_image depth_info detection.
Proof.
  assert (A : anchor_pixel
                (set_keypoints detection
                   (with_ids [5; 6; 11; 12]%Z (Detection.keypoints detection)))
              = anchor_pixel detection).
  { unfold anchor_pixel, scan_keypoints, set_keypoints.
    cbn [Detection.bbox Detection.keypoints].
    now rewrite scan_ignores_other_ids. }
  unfold convert_bb_to_3d. rewrite A. reflexivity.
Qed.

(** ** Degenerate parameters *)

Lemma robust_mean_positive (roi : list float) :
  positive_finite roi <> [] -> 0 < robust_mean roi.
Proof.
  intros Hpos.
  destruct (Qminimum_spec _ Hpos) as (lo & _ & Ilo & Hlo).
  destruct (Qmaximum_spec _ Hpos) as (hi & _ & _ & Hhi).
  apply In_positive_finite in Ilo.
  eapply Qlt_le_trans; [exact (proj2 Ilo)|].
  unfold robust_mean.
  apply (Qmean_between lo hi); [exact Hpos|].
  intros x Hx. split; [now apply Hlo | now apply Hhi].
Qed.

Lemma fdiv_by_zero (a f : float) : same f (Fin 0) -> isfinite (fdiv a f) = false.
Proof.
  intros H. destruct (same_Fin _ _ H) as (q & -> & Hq).
  apply Qeq_bool_iff in Hq.
  destruct a as [|b|p]; cbn [fdiv isfinite]; try reflexivity.
  rewrite Hq. destruct (Qeq_bool p 0); reflexivity.
Qed.

Lemma fmul_positive_nonfinite (m : Q) (a : float) :
  0 < m -> isfinite a = false -> isfinite (fmul (Fin m) a) = false.
Proof.
  intros Hm Ha. destruct a as [|b|p]; try discriminate; cbn [fmul]; [reflexivity|].
  replace (Qeq_bool m 0) with false; [reflexivity|].
  symmetry. apply Qeq_bool_false. intros E. rewrite E in Hm.
  exact (Qlt_irrefl 0 Hm).
Qed.

(** X13.  The intrinsics are not validated: with a focal length [fx] of
    zero a detection still gets its box, whose [center.x] and [size.x]
    are then not finite (an infinity or NaN); likewise for [fy],
    [center.y] and [size.y]. *)
Theorem zero_focal_length_box_not_finite (self : Detect3DNode)
    (depth_image : ndarray) (depth_info : CameraInfo.t) (detection : Detection.t)
    (box : BoundingBox3D.t) :
  convert_bb_to_3d self depth_image depth_info detection = Ok (Some box) ->
  (same (CameraInfo.k depth_info 0) (Fin 0) ->
   isfinite (Vector3.x (BoundingBox3D.center box)) = false /\
   isfinite (Vector3.x (BoundingBox3D.size box)) = false) /\
  (same (CameraInfo.k depth_info 4) (Fin 0) ->
   isfinite (Vector3.y (BoundingBox3D.center box)) = false /\
   isfinite (Vector3.y (BoundingBox3D.size box)) = false).
Proof.
  intros E. destruct (box_returned _ _ _ _ _ E) as (-> & Hpos & _).
  pose proof (robust_mean_positive _ Hpos) as Hm.
  unfold expected_box. destruct (anchor_pixel detection) as [cx cy].
  cbn [BoundingBox3D.center BoundingBox3D.size Vector3.x Vector3.y].
  split; intros F; split;
    first [ now apply fdiv_by_zero
          | apply fmul_positive_nonfinite; [exact Hm | now apply fdiv_by_zero] ].
Qed.

Lemma zero_focal_length_box_not_finite_witness :
  exists box,
    convert_bb_to_3d sample_node small_image
      {| CameraInfo.frame_id := "camera_depth_frame";
         CameraInfo.height := 4; CameraInfo.width := 4;
         CameraInfo.k := fun _ => Fin 0 |}
      small_detection = Ok (Some box) /\
    isfinite (Vector3.x (BoundingBox3D.center box)) = false /\
    isfinite (Vector3.x (BoundingBox3D.size box)) = false.
Proof.
  eexists. split; [vm_compute; reflexivity|].
  apply (proj1 (zero_focal_length_box_not_finite sample_node small_image
                  {| CameraInfo.frame_id := "camera_depth_frame";
                     CameraInfo.height := 4; CameraInfo.width := 4;
                     CameraInfo.k := fun _ => Fin 0 |}
                  small_detection _ ltac:(vm_compute; reflexivity))).
  reflexivity.
Defined.



(* ================================================================== *)
(** * Further properties of the keypoint projection *)
(* ================================================================== *)






(* ================================================================== *)
(** * Further properties of the pipeline *)
(* ================================================================== *)

(** [convert_bb_to_3d] reads the 2D box and the keypoints of a detection,
    nothing else. *)
Lemma convert_bb_to_3d_reads_2d (self : Detect3DNode) (depth_image : ndarray)
    (depth_info : CameraInfo.t) (d d' : Detection.t) :
  Detection.bbox d' = Detection.bbox d ->
  Detection.keypoints d' = Detection.keypoints d ->
  convert_bb_to_3d self depth_image depth_info d'
  = convert_bb_to_3d self depth_image depth_info d.
Proof.
  intros Hb Hk. unfold convert_bb_to_3d, depth_roi, anchor_pixel.
  now rewrite Hb, Hk.
Qed.

(** With the transform at hand, the call is the closed form of the loop. *)
Lemma process_detections_eq (self : Detect3DNode) (depth_image : ndarray)
    (depth_info : CameraInfo.t) (detections : list Detection.t)
    (tf : TransformStamped.t) :
  coherent depth_image depth_info ->
  lookup_transform self (target_frame self) (CameraInfo.frame_id depth_info) = Ok tf ->
  process_detections self depth_image depth_info detections =
  (Ok (map (augmented self depth_image depth_info (transform_of tf))
           (filter (yields_box self depth_image depth_info) detections)), []).
Proof.
  intros Hc L. unfold process_detections, get_transform. rewrite L.
  destruct detections as [|d l]; [reflexivity|].
  fold (transform_of tf). rewrite process_loop_eq by assumption. reflexivity.
Qed.

Lemma augmented_2d (self : Detect3DNode) (depth_image : ndarray)
    (depth_info : CameraInfo.t) (transform : vec3 * quat) (d : Detection.t) :
  Detection.bbox (augmented self depth_image depth_info transform d)
    = Detection.bbox d /\
  Detection.keypoints (augmented self depth_image depth_info transform d)
    = Detection.keypoints d.
Proof.
  unfold augmented.
  destruct (convert_bb_to_3d self depth_image depth_info d) as [[box|]|e];
    try (split; reflexivity).
  destruct (Detection.keypoints d) eqn:K; cbn; rewrite ?K; split; reflexivity.
Qed.

Lemma augmented_again (self : Detect3DNode) (depth_image : ndarray)
    (depth_info : CameraInfo.t) (transform : vec3 * quat) (d : Detection.t) :
  yields_box self depth_image depth_info
    (augmented self depth_image depth_info transform d)
  = yields_box self depth_image depth_info d /\
  augmented self depth_image depth_info transform
    (augmented self depth_image depth_info transform d)
  = augmented self depth_image depth_info transform d.
Proof.
  destruct (augmented_2d self depth_image depth_info transform d) as [Hb Hk].
  pose proof (convert_bb_to_3d_reads_2d self depth_image depth_info d _ Hb Hk) as E.
  split; [unfold yields_box; now rewrite E|].
  unfold augmented at 1. rewrite E, Hk.
  unfold augmented.
  destruct (convert_bb_to_3d self depth_image depth_info d) as [[box|]|e];
    try reflexivity.
  destruct (Detection.keypoints d) eqn:K; reflexivity.
Qed.

(** X17.  Feeding the output of [process_detections] back with the same
    frame and transform returns it unchanged: every detection is kept,
    and its box and keypoints are recomputed from the 2D data to the same
    values. *)
Theorem process_detections_idempotent (self : Detect3DNode) (depth_image : ndarray)
    (depth_info : CameraInfo.t) (detections out : list Detection.t)
    (tf : TransformStamped.t) (log : list string) :
  coherent depth_image depth_info ->
  lookup_transform self (target_frame self) (CameraInfo.frame_id depth_info) = Ok tf ->
  process_detections self depth_image depth_info detections = (Ok out, log) ->
  process_detections self depth_image depth_info out = (Ok out, []).
Proof.
  intros Hc L. rewrite !(process_detections_eq _ _ _ _ tf Hc L).
  intros E. injection E as <- _. f_equal. f_equal.
  induction detections as [|d l IH]; [reflexivity|].
  cbn [filter].
  destruct (yields_box self depth_image depth_info d) eqn:Y; [|exact IH].
  destruct (augmented_again self depth_image depth_info (transform_of tf) d)
    as [Ey Ea].
  cbn [map filter]. rewrite Ey, Y. cbn [map]. now rewrite Ea, IH.
Qed.

Lemma process_detections_idempotent_witness :
  exists out,
    process_detections sample_node small_image (sample_info 4 4)
      [small_detection; far_detection; small_skeleton] = (Ok out, []) /\
    process_detections sample_node small_image (sample_info 4 4) out = (Ok out, []).
Proof.
  eexists. split; [vm_compute; reflexivity|].
  apply (process_detections_idempotent sample_node small_image (sample_info 4 4)
           [small_detection; far_detection; small_skeleton] _ identity_transform []).
  - split; reflexivity.
  - reflexivity.
  - vm_compute. reflexivity.
Defined.

(** X20.  Every detection that [process_detections] returns has its box
    in the target frame.  If it has keypoints, its 3D keypoints are in
    the target frame too and are no more than its 2D keypoints; if it has
    none, its [keypoints3d] field is the one the input detection came
    with. *)
Theorem output_frames (self : Detect3DNode) (depth_image : ndarray)
    (depth_info : CameraInfo.t) (detections out : list Detection.t)
    (log : list string) :
  coherent depth_image depth_info ->
  process_detections self depth_image depth_info detections = (Ok out, log) ->
  Forall (fun d =>
            BoundingBox3D.frame_id (Detection.bbox3d d) = target_frame self /\
            match Detection.keypoints d with
            | [] => exists d0, In d0 detections /\
                               Detection.bbox d0 = Detection.bbox d /\
                               Detection.keypoints3d d = Detection.keypoints3d d0
            | _ :: _ =>
                KeyPoint3DArray.frame_id (Detection.keypoints3d d) = target_frame self /\
                (length (KeyPoint3DArray.data (Detection.keypoints3d d))
                 <= length (Detection.keypoints d))%nat
            end) out.
Proof.
  intros Hc. unfold process_detections, get_transform.
  destruct detections as [|d1 l1] eqn:D.
  { intros E. injection E as <- _. constructor. }
  rewrite <- D. clear D.
  destruct (lookup_transform self (target_frame self)
              (CameraInfo.frame_id depth_info)) as [tf|[|msg]].
  - rewrite process_loop_eq by assumption. intros E. injection E as <- _.
    apply Forall_forall. intros d Hd. apply in_map_iff in Hd.
    destruct Hd as (d0 & <- & Hd0). apply filter_In in Hd0.
    destruct Hd0 as [Hin Y]. unfold yields_box in Y. unfold augmented.
    destruct (convert_bb_to_3d self depth_image depth_info d0) as [[box|]|e];
      try discriminate.
    destruct (Detection.keypoints d0) as [|k ks] eqn:K.
    + cbn. rewrite K. split; [reflexivity|]. exists d0. auto.
    + unfold transform_3d_keypoints.
      cbn [Detection.bbox3d Detection.set_bbox3d Detection.set_keypoints3d
           Detection.keypoints Detection.keypoints3d set_frame_id_box
           set_frame_id_keypoints BoundingBox3D.frame_id
           KeyPoint3DArray.frame_id KeyPoint3DArray.data].
      rewrite K. split; [reflexivity|]. split; [reflexivity|].
      rewrite length_map. unfold surviving_keypoints. rewrite length_map.
      apply filter_length_le.
  - discriminate.
  - intros E. injection E as <- _. constructor.
Qed.

Lemma output_frames_witness :
  exists out,
    process_detections sample_node small_image (sample_info 4 4)
      [small_detection; small_skeleton] = (Ok out, []) /\
    Forall (fun d => BoundingBox3D.frame_id (Detection.bbox3d d) = "base_link"%string)
           out.
Proof.
  eexists. split; [vm_compute; reflexivity|].
  pose proof (output_frames sample_node small_image (sample_info 4 4)
                [small_detection; small_skeleton] _ []
                (conj eq_refl eq_refl) ltac:(vm_compute; reflexivity)) as F.
  apply Forall_forall. intros d Hd. rewrite Forall_forall in F.
  exact (proj1 (F d Hd)).
Defined.
(* ================================================================== *)
(** * The node in binary64 arithmetic: facts *)
(* ================================================================== *)

Import Fp PrimFloat SpecFloat FloatOps FloatAxioms.
#[local] Set Warnings "-inexact-float".

(** ** Laws of IEEE 754 comparison *)

Lemma Prim2SF_zero : Prim2SF 0%float = S754_zero false.
Proof. reflexivity. Qed.

Lemma SFcompare_refl (x : spec_float) :
  x <> S754_nan -> SFcompare x x = Some Eq.
Proof.
  destruct x as [s | s | | s m e]; intros H; try congruence.
  - destruct s; reflexivity.
  - destruct s; reflexivity.
  - cbn. destruct s; rewrite Z.compare_refl.
    + rewrite Pos.compare_cont_refl. reflexivity.
    + rewrite Pos.compare_cont_refl. reflexivity.
Qed.

Lemma is_nan_spec (x : float) :
  is_nan x = match Prim2SF x with S754_nan => true | _ => false end.
Proof.
  unfold is_nan. rewrite eqb_spec. unfold SFeqb.
  destruct (Prim2SF x) as [[|] | [|] | | s m e] eqn:E; try reflexivity.
  rewrite SFcompare_refl by congruence. reflexivity.
Qed.

Lemma is_infinity_spec (x : float) :
  is_infinity x = match Prim2SF x with S754_infinity _ => true | _ => false end.
Proof.
  unfold is_infinity. rewrite eqb_spec, abs_spec. unfold SFeqb.
  change (Prim2SF infinity) with (S754_infinity false).
  destruct (Prim2SF x) as [[|] | [|] | | [|] m e]; reflexivity.
Qed.

Lemma isfinite_spec (x : float) :
  isfinite x = match Prim2SF x with
               | S754_zero _ | S754_finite _ _ _ => true
               | _ => false
               end.
Proof.
  unfold isfinite. rewrite is_nan_spec, is_infinity_spec.
  destruct (Prim2SF x); reflexivity.
Qed.

Lemma isfinite_not_nan (x : float) : isfinite x = true -> is_nan x = false.
Proof.
  unfold isfinite. destruct (is_nan x); [discriminate | reflexivity].
Qed.

Lemma isfinite_not_infinity (x : float) : isfinite x = true -> is_infinity x = false.
Proof.
  unfold isfinite. destruct (is_nan x), (is_infinity x); try discriminate; reflexivity.
Qed.


Lemma ltb_0_not_zero (s : float) : (0 <? s)%float = true -> (s =? 0)%float = false.
Proof.
  rewrite ltb_spec, eqb_spec, Prim2SF_zero.
  destruct (Prim2SF s) as [[|] | [|] | | [|] m e]; try discriminate; reflexivity.
Qed.

Lemma leb_refl (x : float) : is_nan x = false -> (x <=? x)%float = true.
Proof.
  rewrite is_nan_spec, leb_spec. intros H. unfold SFleb.
  rewrite SFcompare_refl; [reflexivity |].
  intros E. rewrite E in H. discriminate.
Qed.

Lemma abs_nonneg (x : float) : is_nan (abs x) = false -> (0 <=? abs x)%float = true.
Proof.
  rewrite is_nan_spec, leb_spec, abs_spec, Prim2SF_zero.
  destruct (Prim2SF x) as [[|] | [|] | | [|] m e]; cbn; try reflexivity; discriminate.
Qed.

Lemma abs_not_negative (x : float) : (abs x <? 0)%float = false.
Proof.
  rewrite ltb_spec, abs_spec, Prim2SF_zero.
  destruct (Prim2SF x) as [[|] | [|] | | [|] m e]; reflexivity.
Qed.

Lemma nan_not_nonneg (x : float) : is_nan x = true -> (0 <=? x)%float = false.
Proof.
  rewrite is_nan_spec, leb_spec, Prim2SF_zero.
  destruct (Prim2SF x); try discriminate. reflexivity.
Qed.



(** ** Masked arrays against the specification's vocabulary *)

Lemma fp_existsb_filter {A : Type} (p : A -> bool) (l : list A) :
  existsb p l = negb (nilb (filter p l)).
Proof.
  induction l as [| a l IH]; [reflexivity |].
  cbn. destruct (p a); [reflexivity | exact IH].
Qed.

Lemma fp_np_any_no_nonzero (roi : list (list float)) :
  negb (np_any roi) = no_nonzero roi.
Proof.
  unfold np_any, no_nonzero, truthy.
  induction (concat roi) as [| s l IH]; [reflexivity |].
  cbn. rewrite negb_orb, IH, negb_involutive. reflexivity.
Qed.

Lemma ma_any_isfinite (l : list float) :
  ma_any (ma_isfinite (masked_invalid l)) = existsb isfinite l.
Proof.
  unfold ma_any, ma_isfinite, masked_invalid.
  induction l as [| s l IH]; [reflexivity |].
  cbn. rewrite IH. destruct (isfinite s); reflexivity.
Qed.

Lemma ma_any_ne0 (l : list float) :
  ma_any (ma_ne0 (masked_invalid l))
  = existsb (fun s => isfinite s && negb (s =? 0)%float) l.
Proof.
  unfold ma_any, ma_ne0, masked_invalid.
  induction l as [| s l IH]; [reflexivity |].
  cbn. rewrite IH. destruct (isfinite s); cbn; [| reflexivity].
  rewrite andb_true_r. reflexivity.
Qed.

Lemma compressed_gt0 (l : list float) :
  compressed (ma_getitem (masked_invalid l) (ma_gt0 (masked_invalid l)))
  = positive_finite l.
Proof.
  unfold compressed, ma_gt0, masked_invalid, positive_finite.
  induction l as [| s l IH]; [reflexivity |].
  cbn. destruct (0 <? s)%float; cbn.
  - destruct (isfinite s); cbn; rewrite IH; reflexivity.
  - rewrite andb_false_r. exact IH.
Qed.

Lemma filled0_gt0 (l : list float) :
  filled0 (ma_getitem (masked_invalid l) (ma_gt0 (masked_invalid l)))
  = summands l.
Proof.
  unfold filled0, ma_gt0, masked_invalid, summands.
  induction l as [| s l IH]; [reflexivity |].
  cbn. destruct (0 <? s)%float; cbn.
  - rewrite IH. destruct (isfinite s); reflexivity.
  - exact IH.
Qed.


Lemma mask_z_any (l : list float) (m t : float) :
  ma_any (ma_le (ma_abs (ma_sub (masked_invalid l) (Some m))) t)
  = existsb (fun s => isfinite s && (abs (s - m) <=? t)%float) l.
Proof.
  unfold ma_any, ma_le, ma_abs, ma_sub, masked_invalid.
  induction l as [| s l IH]; [reflexivity |].
  cbn. rewrite IH. destruct (isfinite s); cbn.
  - rewrite andb_true_r. reflexivity.
  - rewrite andb_false_r. reflexivity.
Qed.

Lemma mask_z_compressed (l : list float) (m t : float) :
  compressed (ma_getitem (masked_invalid l)
                (ma_le (ma_abs (ma_sub (masked_invalid l) (Some m))) t))
  = consensus t m l.
Proof.
  unfold compressed, ma_le, ma_abs, ma_sub, masked_invalid, consensus.
  induction l as [| s l IH]; [reflexivity |].
  cbn. destruct (isfinite s); cbn.
  - destruct (abs (s - m) <=? t)%float; cbn; rewrite IH; reflexivity.
  - destruct (abs s <=? t)%float; cbn; exact IH.
Qed.

Lemma mask_z_masked (l : list float) (t : float) :
  ma_any (ma_le (ma_abs (ma_sub (masked_invalid l) None)) t) = false.
Proof.
  unfold ma_any, ma_le, ma_abs, ma_sub, masked_invalid.
  induction l as [| s l IH]; [reflexivity |].
  cbn. rewrite andb_false_r. exact IH.
Qed.

Lemma fp_In_positive_finite (l : list float) (s : float) :
  In s (positive_finite l) <-> In s l /\ isfinite s = true /\ (0 <? s)%float = true.
Proof.
  unfold positive_finite. rewrite filter_In, andb_true_iff. tauto.
Qed.

Lemma fp_positive_finite_nonzero (l : list float) :
  existsb isfinite l && existsb (fun s => isfinite s && negb (s =? 0)%float) l = false ->
  positive_finite l = [].
Proof.
  intros H. destruct (positive_finite l) as [| p ps] eqn:E; [reflexivity |].
  assert (Hp : In p (positive_finite l)) by (rewrite E; left; reflexivity).
  apply fp_In_positive_finite in Hp. destruct Hp as [Hin [F P]].
  assert (H1 : existsb isfinite l = true)
    by (apply existsb_exists; exists p; auto).
  assert (H2 : existsb (fun s => isfinite s && negb (s =? 0)%float) l = true).
  { apply existsb_exists. exists p. split; [exact Hin |].
    rewrite F, (ltb_0_not_zero _ P). reflexivity. }
  rewrite H1, H2 in H. discriminate.
Qed.

Lemma fp_getitem_inside (a : ndarray) (r c : Z) :
  (0 <= r < Z.of_nat (shape0 a))%Z -> (0 <= c < Z.of_nat (shape1 a))%Z ->
  getitem a r c = Ok (item a r c).
Proof.
  intros Hr Hc. unfold getitem, np_index.
  replace ((- Z.of_nat (shape0 a) <=? r)%Z && (r <? Z.of_nat (shape0 a))%Z) with true
    by (symmetry; apply andb_true_intro; split; [apply Z.leb_le | apply Z.ltb_lt]; lia).
  replace (r <? 0)%Z with false by (symmetry; apply Z.ltb_ge; lia).
  cbn [bind].
  replace ((- Z.of_nat (shape1 a) <=? c)%Z && (c <? Z.of_nat (shape1 a))%Z) with true
    by (symmetry; apply andb_true_intro; split; [apply Z.leb_le | apply Z.ltb_lt]; lia).
  replace (c <? 0)%Z with false by (symmetry; apply Z.ltb_ge; lia).
  reflexivity.
Qed.

Lemma anchor_inside (a : ndarray) (cx cy : Z) :
  anchor_outside a cx cy = false ->
  (0 <= cy < Z.of_nat (shape0 a))%Z /\ (0 <= cx < Z.of_nat (shape1 a))%Z.
Proof.
  unfold anchor_outside. intros H.
  apply orb_false_elim in H. destruct H as [H H4].
  apply orb_false_elim in H. destruct H as [H H3].
  apply orb_false_elim in H. destruct H as [H1 H2].
  apply Z.ltb_ge in H1, H3. apply Z.leb_gt in H2, H4. lia.
Qed.

(** ** [convert_bb_to_3d] in closed form *)

(** Once the four numbers of the box and the two of the anchor have
    converted to integers, nothing else can raise. *)
Lemma fp_convert_bb_to_3d_eq (np_sum : list float -> float) (self : Detect3DNode)
    (depth_image : ndarray) (depth_info : CameraInfo.t) (detection : Detection.t)
    (ints : Z * Z * Z * Z) (cx cy : Z) :
  box_ints detection = Ok ints ->
  anchor_ints detection ints = Ok (cx, cy) ->
  convert_bb_to_3d np_sum self depth_image depth_info detection
  = Ok (if rejected np_sum self depth_image (crop self depth_image ints) cx cy
        then None
        else Some (expected_box np_sum self depth_info
                     (crop self depth_image ints) ints cx cy)).
Proof.
  intros Hb Ha. unfold convert_bb_to_3d, rejected, expected_box.
  rewrite Hb. cbn [bind]. destruct ints as [[[bx by_] sx] sy].
  rewrite fp_np_any_no_nonzero.
  set (roi := crop self depth_image (bx, by_, sx, sy)).
  destruct (no_nonzero roi); [reflexivity |].
  rewrite Ha. cbn [bind orb].
  fold (anchor_outside depth_image cx cy).
  destruct (anchor_outside depth_image cx cy) eqn:Ho; [reflexivity |].
  destruct (anchor_inside _ _ _ Ho) as [Hy Hx].
  rewrite (fp_getitem_inside _ _ _ Hy Hx). cbn [bind orb].
  fold (anchor_depth self depth_image cx cy).
  fold (unusable (anchor_depth self depth_image cx cy)).
  destruct (unusable (anchor_depth self depth_image cx cy)); [reflexivity |].
  cbn [orb].
  rewrite ma_any_isfinite, ma_any_ne0.
  destruct (existsb isfinite (concat roi)
            && existsb (fun s => isfinite s && negb (s =? 0)%float) (concat roi)) eqn:Hf.
  - unfold ma_mean. rewrite compressed_gt0, filled0_gt0.
    destruct (positive_finite (concat roi)) as [| p ps] eqn:Hp.
    + rewrite mask_z_masked. reflexivity.
    + cbn [nilb orb]. rewrite mask_z_any, fp_existsb_filter.
      fold (consensus (maximum_detection_threshold self)
              (np_sum (summands (concat roi)) * 1
               / of_Z (Z.of_nat (length (p :: ps))))%float (concat roi)).
      unfold ma_min, ma_max. rewrite mask_z_compressed.
      unfold robust_mean. rewrite Hp. rewrite negb_involutive.
      destruct (nilb _); reflexivity.
  - rewrite (fp_positive_finite_nonzero _ Hf). reflexivity.
Qed.

(** ** The order of the doubles *)

Lemma SFleb_key (x y : spec_float) :
  x <> S754_nan -> y <> S754_nan ->
  (SFleb x y = true <-> lex_le (order_key x) (order_key y)).
Proof.
  intros Hx Hy. unfold SFleb.
  destruct x as [[|] | [|] | | [|] m1 e1]; try congruence;
  destruct y as [[|] | [|] | | [|] m2 e2]; try congruence;
  cbn [SFcompare order_key lex_le];
  try (split; [intros _; lia | reflexivity]);
  try (split; [discriminate | intros H; exfalso; lia]).
  - change (Pos.compare_cont Eq m1 m2) with (Pos.compare m1 m2).
    destruct (Z.compare_spec e1 e2) as [E | E | E].
    + destruct (Pos.compare_spec m1 m2) as [M | M | M]; cbn;
        (split; [intros H; try discriminate; lia | intros H; try reflexivity; exfalso; lia]).
    + split; [discriminate | intros H; exfalso; lia].
    + split; [intros _; lia | reflexivity].
  - change (Pos.compare_cont Eq m1 m2) with (Pos.compare m1 m2).
    destruct (Z.compare_spec e1 e2) as [E | E | E].
    + destruct (Pos.compare_spec m1 m2) as [M | M | M]; cbn;
        (split; [intros H; try discriminate; lia | intros H; try reflexivity; exfalso; lia]).
    + split; [intros _; lia | reflexivity].
    + split; [discriminate | intros H; exfalso; lia].
Qed.

Lemma not_nan_spec (x : float) : is_nan x = false -> Prim2SF x <> S754_nan.
Proof.
  rewrite is_nan_spec. intros H E. rewrite E in H. discriminate.
Qed.

Lemma leb_key (x y : float) :
  is_nan x = false -> is_nan y = false ->
  ((x <=? y)%float = true <-> lex_le (order_key (Prim2SF x)) (order_key (Prim2SF y))).
Proof.
  intros Hx Hy. rewrite leb_spec.
  apply SFleb_key; apply not_nan_spec; assumption.
Qed.

Lemma leb_trans (x y z : float) :
  is_nan x = false -> is_nan y = false -> is_nan z = false ->
  (x <=? y)%float = true -> (y <=? z)%float = true -> (x <=? z)%float = true.
Proof.
  intros Hx Hy Hz. rewrite !leb_key by assumption. unfold lex_le.
  destruct (order_key (Prim2SF x)) as [[a1 a2] a3].
  destruct (order_key (Prim2SF y)) as [[b1 b2] b3].
  destruct (order_key (Prim2SF z)) as [[c1 c2] c3]. lia.
Qed.

Lemma leb_total (x y : float) :
  is_nan x = false -> is_nan y = false ->
  (x <=? y)%float = false -> (y <=? x)%float = true.
Proof.
  intros Hx Hy H. apply leb_key; [assumption | assumption |].
  assert (N : ~ lex_le (order_key (Prim2SF x)) (order_key (Prim2SF y))).
  { intros L. apply (leb_key x y Hx Hy) in L. congruence. }
  revert N. unfold lex_le.
  destruct (order_key (Prim2SF x)) as [[a1 a2] a3].
  destruct (order_key (Prim2SF y)) as [[b1 b2] b3]. lia.
Qed.

(** ** Minimum and maximum *)

Lemma fold_min_spec (l : list float) (acc : float) :
  is_nan acc = false -> Forall (fun s => is_nan s = false) l ->
  let r := fold_left (fun a y => if (a <=? y)%float then a else y) l acc in
  (r = acc \/ In r l) /\ (r <=? acc)%float = true /\
  (forall s, In s l -> (r <=? s)%float = true).
Proof.
  revert acc. induction l as [| y l IH]; intros acc Hacc Hl; cbn.
  - repeat split; [left; reflexivity | apply leb_refl; exact Hacc | intros s []].
  - inversion Hl as [| ? ? Hy Hl']; subst.
    set (acc' := if (acc <=? y)%float then acc else y).
    assert (Hacc' : is_nan acc' = false)
      by (unfold acc'; destruct (acc <=? y)%float; assumption).
    assert (L1 : (acc' <=? acc)%float = true).
    { unfold acc'. destruct (acc <=? y)%float eqn:E.
      - apply leb_refl; assumption.
      - apply leb_total; assumption. }
    assert (L2 : (acc' <=? y)%float = true).
    { unfold acc'. destruct (acc <=? y)%float eqn:E.
      - exact E.
      - apply leb_refl; assumption. }
    destruct (IH acc' Hacc' Hl') as [Hin [Hle Hall]].
    set (r := fold_left _ l acc') in *.
    assert (Hr : is_nan r = false).
    { destruct Hin as [-> | Hin]; [exact Hacc' |].
      rewrite Forall_forall in Hl'. apply Hl'. exact Hin. }
    repeat split.
    + destruct Hin as [Hin | Hin]; [| right; right; exact Hin].
      rewrite Hin. unfold acc'. destruct (acc <=? y)%float; [left | right; left]; reflexivity.
    + apply (leb_trans r acc' acc); assumption.
    + intros s [<- | Hs]; [| apply Hall; exact Hs].
      apply (leb_trans r acc' y); assumption.
Qed.

Lemma fold_max_spec (l : list float) (acc : float) :
  is_nan acc = false -> Forall (fun s => is_nan s = false) l ->
  let r := fold_left (fun a y => if (y <=? a)%float then a else y) l acc in
  (r = acc \/ In r l) /\ (acc <=? r)%float = true /\
  (forall s, In s l -> (s <=? r)%float = true).
Proof.
  revert acc. induction l as [| y l IH]; intros acc Hacc Hl; cbn.
  - repeat split; [left; reflexivity | apply leb_refl; exact Hacc | intros s []].
  - inversion Hl as [| ? ? Hy Hl']; subst.
    set (acc' := if (y <=? acc)%float then acc else y).
    assert (Hacc' : is_nan acc' = false)
      by (unfold acc'; destruct (y <=? acc)%float; assumption).
    assert (L1 : (acc <=? acc')%float = true).
    { unfold acc'. destruct (y <=? acc)%float eqn:E.
      - apply leb_refl; assumption.
      - apply leb_total; assumption. }
    assert (L2 : (y <=? acc')%float = true).
    { unfold acc'. destruct (y <=? acc)%float eqn:E.
      - exact E.
      - apply leb_refl; assumption. }
    destruct (IH acc' Hacc' Hl') as [Hin [Hle Hall]].
    set (r := fold_left _ l acc') in *.
    assert (Hr : is_nan r = false).
    { destruct Hin as [-> | Hin]; [exact Hacc' |].
      rewrite Forall_forall in Hl'. apply Hl'. exact Hin. }
    repeat split.
    + destruct Hin as [Hin | Hin]; [| right; right; exact Hin].
      rewrite Hin. unfold acc'. destruct (y <=? acc)%float; [left | right; left]; reflexivity.
    + apply (leb_trans acc acc' r); assumption.
    + intros s [<- | Hs]; [| apply Hall; exact Hs].
      apply (leb_trans y acc' r); assumption.
Qed.

Lemma np_min_spec (l : list float) :
  l <> [] -> Forall (fun s => is_nan s = false) l ->
  exists lo, np_min l = Some lo /\ In lo l /\
             forall s, In s l -> (lo <=? s)%float = true.
Proof.
  destruct l as [| x l]; [congruence |]. intros _ H.
  inversion H as [| ? ? Hx Hl]; subst.
  destruct (fold_min_spec l x Hx Hl) as [Hin [Hle Hall]].
  eexists. split; [reflexivity |]. split.
  - destruct Hin as [-> | Hin]; [left; reflexivity | right; exact Hin].
  - intros s [<- | Hs]; [exact Hle | apply Hall; exact Hs].
Qed.

Lemma np_max_spec (l : list float) :
  l <> [] -> Forall (fun s => is_nan s = false) l ->
  exists hi, np_max l = Some hi /\ In hi l /\
             forall s, In s l -> (s <=? hi)%float = true.
Proof.
  destruct l as [| x l]; [congruence |]. intros _ H.
  inversion H as [| ? ? Hx Hl]; subst.
  destruct (fold_max_spec l x Hx Hl) as [Hin [Hle Hall]].
  eexists. split; [reflexivity |]. split.
  - destruct Hin as [-> | Hin]; [left; reflexivity | right; exact Hin].
  - intros s [<- | Hs]; [exact Hle | apply Hall; exact Hs].
Qed.

Lemma fp_In_consensus (t m : float) (l : list float) (s : float) :
  In s (consensus t m l)
  <-> In s l /\ isfinite s = true /\ (abs (s - m) <=? t)%float = true.
Proof.
  unfold consensus. rewrite filter_In, andb_true_iff. tauto.
Qed.

Lemma consensus_not_nan (t m : float) (l : list float) :
  Forall (fun s => is_nan s = false) (consensus t m l).
Proof.
  apply Forall_forall. intros s H. apply fp_In_consensus in H.
  apply isfinite_not_nan. tauto.
Qed.




(* ================================================================== *)
(** * Robust centre estimation, in binary64 *)
(* ================================================================== *)



(* ================================================================== *)
(** * Rejection, in binary64 *)
(* ================================================================== *)





(* ================================================================== *)
(** * The sign of a rounded difference *)
(* ================================================================== *)

(** Rounding keeps the sign of the mantissa. *)
Lemma shr_1_nonneg (mrs : shr_record) :
  (0 <= shr_m mrs)%Z -> (0 <= shr_m (shr_1 mrs))%Z.
Proof.
  destruct mrs as [m r s]. cbn [shr_m].
  destruct m as [| [p | p |] | p]; cbn; lia.
Qed.

Lemma iter_pos_invariant {A : Type} (P : A -> Prop) (f : A -> A) (n : positive) :
  (forall y, P y -> P (f y)) -> forall x, P x -> P (iter_pos f n x).
Proof.
  intros Hf. induction n as [n IH | n IH |]; intros x Hx; cbn; auto.
Qed.

Lemma shr_nonneg (mrs : shr_record) (e n : Z) :
  (0 <= shr_m mrs)%Z -> (0 <= shr_m (fst (shr mrs e n)))%Z.
Proof.
  intros H. unfold shr. destruct n as [| p | p]; cbn [fst]; try exact H.
  apply (iter_pos_invariant (fun r => (0 <= shr_m r)%Z)); [apply shr_1_nonneg | exact H].
Qed.

Lemma shr_fexp_nonneg (m e : Z) (l : location) :
  (0 <= m)%Z -> (0 <= shr_m (fst (shr_fexp prec emax m e l)))%Z.
Proof.
  intros H. unfold shr_fexp. apply shr_nonneg.
  destruct l as [| [ | | ]]; exact H.
Qed.

Lemma round_nearest_even_nonneg (m : Z) (l : location) :
  (0 <= m)%Z -> (0 <= round_nearest_even m l)%Z.
Proof.
  intros H. unfold round_nearest_even.
  destruct l as [| [ | | ]]; try destruct (Z.even m); lia.
Qed.

Lemma binary_round_aux_nonneg (mx ex : Z) (lx : location) :
  (0 <= mx)%Z ->
  SFleb (S754_zero false) (binary_round_aux prec emax false mx ex lx) = true.
Proof.
  intros H. unfold binary_round_aux.
  pose proof (shr_fexp_nonneg mx ex lx H) as H1.
  destruct (shr_fexp prec emax mx ex lx) as [mrs' e']. cbn [fst] in H1.
  pose proof (shr_fexp_nonneg _ e' loc_Exact
                (round_nearest_even_nonneg _ (loc_of_shr_record mrs') H1)) as H2.
  destruct (shr_fexp prec emax _ e' loc_Exact) as [mrs'' e'']. cbn [fst] in H2.
  destruct (shr_m mrs'') as [| p | p]; [reflexivity | | lia].
  destruct (e'' <=? emax - prec)%Z; reflexivity.
Qed.

Lemma binary_normalize_nonneg (m e : Z) :
  (0 <= m)%Z ->
  SFleb (S754_zero false) (binary_normalize prec emax m e false) = true.
Proof.
  intros H. unfold binary_normalize.
  destruct m as [| p | p]; [reflexivity | | lia].
  unfold binary_round. destruct (shl_align p e _) as [mz ez].
  apply binary_round_aux_nonneg. lia.
Qed.

(** The mantissa aligned to a smaller exponent. *)
Lemma iter_xO (m d : positive) : Zpos (Pos.iter xO m d) = (Zpos m * 2 ^ Zpos d)%Z.
Proof.
  revert m. induction d as [| d IH] using Pos.peano_ind; intros m.
  - cbn. lia.
  - rewrite Pos.iter_succ, (Pos2Z.inj_xO (Pos.iter xO m d)), IH, Pos2Z.inj_succ, Z.pow_succ_r by lia. lia.
Qed.

Lemma shl_align_value (mx : positive) (ex ez : Z) :
  (ez <= ex)%Z -> Zpos (fst (shl_align mx ex ez)) = (Zpos mx * 2 ^ (ex - ez))%Z.
Proof.
  intros H. unfold shl_align.
  destruct (ez - ex)%Z as [| p | p] eqn:E; cbn [fst].
  - replace (ex - ez)%Z with 0%Z by lia. cbn. lia.
  - lia.
  - rewrite iter_xO. replace (ex - ez)%Z with (Zpos p) by lia. reflexivity.
Qed.

(** The number of digits of a mantissa bounds it. *)
Lemma digits2_pos_bounds (m : positive) :
  (2 ^ Zpos (digits2_pos m) <= 2 * Zpos m < 2 * 2 ^ Zpos (digits2_pos m))%Z.
Proof.
  induction m as [m IH | m IH |]; cbn [digits2_pos].
  - rewrite Pos2Z.inj_succ, Z.pow_succ_r, (Pos2Z.inj_xI m) by lia. lia.
  - rewrite Pos2Z.inj_succ, Z.pow_succ_r, (Pos2Z.inj_xO m) by lia. lia.
  - cbn. lia.
Qed.

(** A valid mantissa has at most 53 digits, and exactly 53 above the
    smallest exponent. *)
Lemma bounded_digits (m : positive) (e : Z) :
  bounded prec emax m e = true ->
  (-1074 <= e)%Z /\ (Zpos m < 2 ^ 53)%Z /\ (-1074 < e -> 2 ^ 52 <= Zpos m)%Z.
Proof.
  unfold bounded, canonical_mantissa, fexp. intros H.
  apply andb_prop in H. destruct H as [H _]. apply Z.eqb_eq in H.
  pose proof (digits2_pos_bounds m) as D.
  change (SpecFloat.emin prec emax) with (-1074)%Z in H.
  change prec with 53%Z in H.
  set (d := Zpos (digits2_pos m)) in *.
  assert (Hd : (0 < d)%Z) by (unfold d; lia).
  split; [lia |]. split.
  - assert (d <= 53)%Z by lia.
    assert (2 ^ d <= 2 ^ 53)%Z by (apply Z.pow_le_mono_r; lia). lia.
  - intros He. assert (E : d = 53%Z) by lia.
    rewrite E in D.
    change (2 ^ 53)%Z with (2 * 2 ^ 52)%Z in D. lia.
Qed.

Lemma aligned_le (mlo mhi : positive) (elo ehi : Z) :
  bounded prec emax mlo elo = true -> bounded prec emax mhi ehi = true ->
  (elo < ehi \/ (elo = ehi /\ Zpos mlo <= Zpos mhi))%Z ->
  (Zpos (fst (shl_align mlo elo (Z.min ehi elo)))
   <= Zpos (fst (shl_align mhi ehi (Z.min ehi elo))))%Z.
Proof.
  intros Blo Bhi H.
  rewrite !shl_align_value by lia.
  destruct (bounded_digits _ _ Blo) as [Elo [Ulo _]].
  destruct (bounded_digits _ _ Bhi) as [_ [_ Lhi]].
  destruct H as [H | [-> H]].
  - replace (Z.min ehi elo) with elo by lia.
    replace (elo - elo)%Z with 0%Z by lia.
    assert (L : (2 ^ 52 <= Zpos mhi)%Z) by (apply Lhi; lia).
    assert (P : (2 ^ 1 <= 2 ^ (ehi - elo))%Z) by (apply Z.pow_le_mono_r; lia).
    change (2 ^ 1)%Z with 2%Z in P. change (2 ^ 0)%Z with 1%Z.
    change (2 ^ 53)%Z with (2 ^ 52 * 2)%Z in Ulo.
    assert (2 ^ 52 * 2 <= Zpos mhi * 2 ^ (ehi - elo))%Z
      by (apply Z.mul_le_mono_nonneg; lia).
    lia.
  - replace (Z.min ehi ehi) with ehi by lia.
    replace (ehi - ehi)%Z with 0%Z by lia. change (2 ^ 0)%Z with 1%Z. lia.
Qed.

Lemma SFsub_nonneg (lo hi : spec_float) :
  valid_binary lo = true -> valid_binary hi = true ->
  match lo with S754_zero _ | S754_finite _ _ _ => True | _ => False end ->
  match hi with S754_zero _ | S754_finite _ _ _ => True | _ => False end ->
  lex_le (order_key lo) (order_key hi) ->
  SFleb (S754_zero false) (SFsub prec emax hi lo) = true.
Proof.
  intros Vlo Vhi Flo Fhi L.
  destruct lo as [[|] | ? | | [|] mlo elo]; try contradiction;
  destruct hi as [[|] | ? | | [|] mhi ehi]; try contradiction;
  cbn [order_key lex_le] in L; try (exfalso; lia); try reflexivity;
  cbn [SFsub valid_binary] in *; apply binary_normalize_nonneg; cbn [cond_Zopp].
  - (* both negative *)
    assert (A : (Zpos (fst (shl_align mhi ehi (Z.min elo ehi)))
                 <= Zpos (fst (shl_align mlo elo (Z.min elo ehi))))%Z)
      by (apply aligned_le; [assumption | assumption | lia]).
    rewrite Z.min_comm in A. lia.
  - (* lo negative, hi positive *) lia.
  - (* both positive *)
    assert (A : (Zpos (fst (shl_align mlo elo (Z.min ehi elo)))
                 <= Zpos (fst (shl_align mhi ehi (Z.min ehi elo))))%Z)
      by (apply aligned_le; [assumption | assumption | lia]).
    lia.
Qed.

(** In binary64 the difference of two finite values in increasing order
    is not negative. *)
Lemma sub_nonneg (lo hi : float) :
  isfinite lo = true -> isfinite hi = true -> (lo <=? hi)%float = true ->
  (0 <=? hi - lo)%float = true.
Proof.
  intros Flo Fhi L.
  rewrite (leb_key lo hi (isfinite_not_nan _ Flo) (isfinite_not_nan _ Fhi)) in L.
  rewrite isfinite_spec in Flo, Fhi.
  rewrite leb_spec, sub_spec, Prim2SF_zero. unfold SF64sub.
  apply SFsub_nonneg; try apply Prim2SF_valid; try assumption.
  - destruct (Prim2SF lo); try discriminate; exact I.
  - destruct (Prim2SF hi); try discriminate; exact I.
Qed.

(* ================================================================== *)
(** * Sizes, in binary64 *)
(* ================================================================== *)

Lemma fp_box_returned (np_sum : list float -> float) (self : Detect3DNode)
    (depth_image : ndarray) (depth_info : CameraInfo.t) (detection : Detection.t)
    (box : BoundingBox3D.t) :
  convert_bb_to_3d np_sum self depth_image depth_info detection = Ok (Some box) ->
  exists ints cx cy,
    box_ints detection = Ok ints /\
    anchor_ints detection ints = Ok (cx, cy) /\
    rejected np_sum self depth_image (crop self depth_image ints) cx cy = false /\
    box = expected_box np_sum self depth_info (crop self depth_image ints) ints cx cy.
Proof.
  intros H.
  destruct (box_ints detection) as [ints | e] eqn:Hb.
  2:{ unfold convert_bb_to_3d in H. rewrite Hb in H. discriminate. }
  destruct (anchor_ints detection ints) as [[cx cy] | e] eqn:Ha.
  - rewrite (fp_convert_bb_to_3d_eq np_sum self depth_image depth_info detection
               ints cx cy Hb Ha) in H.
    exists ints, cx, cy.
    destruct (rejected np_sum self depth_image (crop self depth_image ints) cx cy)
      eqn:R; [discriminate |].
    injection H as <-. repeat split; assumption || reflexivity.
  - unfold convert_bb_to_3d in H. rewrite Hb in H. cbn [bind] in H.
    destruct ints as [[[bx by_] sx] sy]. rewrite fp_np_any_no_nonzero in H.
    destruct (no_nonzero _); [discriminate |].
    rewrite Ha in H. discriminate.
Qed.

Lemma abs_nonneg_or_nan (x : float) : nonneg_or_nan (abs x).
Proof.
  split; [apply abs_not_negative |]. split; [apply abs_nonneg | apply nan_not_nonneg].
Qed.

(** C9.  The [size.z] of a box returned by [convert_bb_to_3d] is
    the difference [hi - lo] of two finite samples of the consensus with
    [lo <= hi], and it is [>= 0].  [transform_3d_box] stores the absolute
    values of the rotated size: for every box, translation and
    quaternion, no component of the transformed size is negative, and
    each is [>= 0] unless it is NaN (as when an intrinsic is zero or a
    value is undefined), in which case it is not [>= 0]. *)
Theorem fp_box_sizes_nonnegative (np_sum : list float -> float)
    (self : Detect3DNode) (depth_image : ndarray) (depth_info : CameraInfo.t)
    (detection : Detection.t) (bbox : BoundingBox3D.t)
    (translation : vec3) (rotation : quat) :
  (forall box,
      convert_bb_to_3d np_sum self depth_image depth_info detection = Ok (Some box) ->
      exists lo hi,
        Vector3.z (BoundingBox3D.size box) = (hi - lo)%float /\
        isfinite lo = true /\ isfinite hi = true /\ (lo <=? hi)%float = true /\
        (0 <=? Vector3.z (BoundingBox3D.size box))%float = true) /\
  nonneg_or_nan (Vector3.x (BoundingBox3D.size
                              (transform_3d_box bbox translation rotation))) /\
  nonneg_or_nan (Vector3.y (BoundingBox3D.size
                              (transform_3d_box bbox translation rotation))) /\
  nonneg_or_nan (Vector3.z (BoundingBox3D.size
                              (transform_3d_box bbox translation rotation))).
Proof.
  split.
  - intros box H.
    destruct (fp_box_returned _ _ _ _ _ _ H) as (ints & cx & cy & Hb & Ha & R & ->).
    unfold rejected in R.
    apply orb_false_elim in R. destruct R as [R Rc].
    unfold expected_box. destruct ints as [[[bx by_] sx] sy].
    cbn [BoundingBox3D.size Vector3.z].
    set (c := consensus _ _ _) in *.
    destruct c as [| q0 c'] eqn:C; [discriminate |].
    destruct (np_min_spec (q0 :: c')) as (lo & Elo & Ilo & Hlo);
      [discriminate | rewrite <- C; apply consensus_not_nan |].
    destruct (np_max_spec (q0 :: c')) as (hi & Ehi & Ihi & Hhi);
      [discriminate | rewrite <- C; apply consensus_not_nan |].
    exists lo, hi. rewrite Elo, Ehi. cbn [ma_float].
    split; [reflexivity |].
    assert (Hle : (lo <=? hi)%float = true) by (apply Hlo; exact Ihi).
    rewrite <- C in Ilo, Ihi. unfold c in Ilo, Ihi.
    apply fp_In_consensus in Ilo, Ihi.
    destruct Ilo as [_ [Flo _]]. destruct Ihi as [_ [Fhi _]].
    repeat split; try assumption.
    apply sub_nonneg; assumption.
  - unfold transform_3d_box.
    destruct (vadd _ translation) as [[p0 p1] p2].
    destruct (qv_mult rotation _) as [[s0 s1] s2].
    cbn [BoundingBox3D.size Vector3.x Vector3.y Vector3.z].
    repeat split; apply abs_nonneg_or_nan.
Qed.

Lemma fp_box_sizes_nonnegative_witness :
  exists lo hi,
    (hi - lo)%float = 0.19999999999999996%float /\
    isfinite lo = true /\ isfinite hi = true /\ (lo <=? hi)%float = true /\
    (0 <=? 0.19999999999999996)%float = true.
Proof.
  destruct (proj1 (fp_box_sizes_nonnegative sequential_sum (sample_node small_image)
                     small_image (sample_info 4 4) small_detection
                     BoundingBox3D.default (0, 0, 0)%float (1, 0, 0, 0)%float)
              {| BoundingBox3D.center :=
                   {| Vector3.x := 0.0044000000000000003;
                      Vector3.y := 0.0044000000000000003;
                      Vector3.z := 1.1000000000000001 |};
                 BoundingBox3D.size :=
                   {| Vector3.x := 0.0066000000000000008;
                      Vector3.y := 0.0066000000000000008;
                      Vector3.z := 0.19999999999999996 |};
                 BoundingBox3D.frame_id := EmptyString |})
    as (lo & hi & E & H).
  - vm_compute. reflexivity.
  - exists lo, hi. cbn [BoundingBox3D.size Vector3.z] in E, H.
    split; [symmetry; exact E | exact H].
Defined.

(** With the intrinsics of a camera that was never calibrated ([fx = 0])
    the box that the pipeline publishes has an undefined size. *)
Lemma uncalibrated_camera_size_undefined :
  exists d,
    process_detections sequential_sum (sample_node small_image) (depth_message 4 4)
      (uncalibrated_info 4 4) [small_detection] = (Ok [d], []) /\
    (0 <=? Vector3.x (BoundingBox3D.size (Detection.bbox3d d)))%float = false.
Proof.
  eexists. split; [vm_compute; reflexivity | vm_compute; reflexivity].
Qed.

(* ================================================================== *)
(** * The rigid transform, in binary64 *)
(* ================================================================== *)


(* ================================================================== *)
(** * Keypoint projection, in binary64 *)
(* ================================================================== *)

Lemma fp_mapM_map {A B C : Type} (f : B -> result C) (h : A -> B) (g : A -> C)
    (l : list A) :
  (forall a, In a l -> f (h a) = Ok (g a)) -> mapM f (map h l) = Ok (map g l).
Proof.
  induction l as [| a l IH]; intros H; cbn; [reflexivity |].
  rewrite (H a) by (left; reflexivity). cbn [bind].
  rewrite IH by (intros b Hb; apply H; right; exact Hb). reflexivity.
Qed.

Lemma mapM_length {A B : Type} (f : A -> result B) (l : list A) (r : list B) :
  mapM f l = Ok r -> length r = length l.
Proof.
  revert r. induction l as [| a l IH]; intros r H; cbn in H.
  - injection H as <-. reflexivity.
  - destruct (f a) as [b |]; [| discriminate]. cbn [bind] in H.
    destruct (mapM f l) as [bs |]; [| discriminate]. cbn [bind] in H.
    injection H as <-. cbn. rewrite (IH bs eq_refl). reflexivity.
Qed.

Lemma mapM_Forall2 {A B : Type} (f : A -> result B) (l : list A) (r : list B) :
  mapM f l = Ok r -> Forall2 (fun a b => f a = Ok b) l r.
Proof.
  revert r. induction l as [| a l IH]; intros r H; cbn in H.
  - injection H as <-. constructor.
  - destruct (f a) as [b |] eqn:E; [| discriminate]. cbn [bind] in H.
    destruct (mapM f l) as [bs |]; [| discriminate]. cbn [bind] in H.
    injection H as <-. constructor; [exact E | apply IH; reflexivity].
Qed.

Lemma int16_row_returns (p : KeyPoint2D.t) (r : Z * Z) :
  int16_row p = Ok r ->
  int16 (Point2D.x (KeyPoint2D.point p)) = Ok (fst r) /\
  int16 (Point2D.y (KeyPoint2D.point p)) = Ok (snd r).
Proof.
  unfold int16_row.
  destruct (int16 (Point2D.x (KeyPoint2D.point p))) as [x |]; [| discriminate].
  destruct (int16 (Point2D.y (KeyPoint2D.point p))) as [y |]; [| discriminate].
  cbn [bind]. intros H. injection H as <-. split; reflexivity.
Qed.

(** The loop that fills [msg_array] keeps, in order, the points without
    a NaN component. *)
Lemma fp_append_keypoints (pos : Z * Z -> vec3) (rows : list (Z * Z))
    (data : list KeyPoint2D.t) (msg_array : list KeyPoint3D.t) :
  fold_left append_keypoint (combine (map pos rows) data) msg_array
  = msg_array ++
    map (fun dr : KeyPoint2D.t * (Z * Z) =>
           {| KeyPoint3D.point :=
                {| Vector3.x := fst (fst (pos (snd dr)));
                   Vector3.y := snd (fst (pos (snd dr)));
                   Vector3.z := snd (pos (snd dr)) |};
              KeyPoint3D.id := KeyPoint2D.id (fst dr);
              KeyPoint3D.score := KeyPoint2D.score (fst dr) |})
        (filter (fun dr : KeyPoint2D.t * (Z * Z) => negb (has_nan (pos (snd dr))))
                (combine data rows)).
Proof.
  revert data msg_array.
  induction rows as [| r rows IH]; intros data acc.
  - destruct data; cbn; rewrite app_nil_r; reflexivity.
  - destruct data as [| d data]; [cbn; rewrite app_nil_r; reflexivity |].
    cbn [map combine fold_left filter snd fst]. rewrite IH.
    unfold append_keypoint at 1.
    destruct (pos r) as [[p0 p1] p2] eqn:P.
    destruct (has_nan (p0, p1, p2)); cbn [negb map fst snd]; [reflexivity |].
    rewrite P. cbn [fst snd]. rewrite <- app_assoc. reflexivity.
Qed.

(** Where the camera information fits the image and the coordinates
    convert to 16 bits, [convert_keypoints_to_3d] is the keypoint-wise
    projection followed by the removal of the undefined points. *)
Lemma fp_convert_keypoints_to_3d_eq (self : Detect3DNode) (depth_image : ndarray)
    (depth_info : CameraInfo.t) (detection : Detection.t) (rows : list (Z * Z)) :
  Detection.keypoints detection <> [] ->
  mapM int16_row (Detection.keypoints detection) = Ok rows ->
  within_image depth_info depth_image ->
  convert_keypoints_to_3d self depth_image depth_info detection =
  Ok {| KeyPoint3DArray.data :=
          map (projected self depth_image depth_info)
              (filter (fun dr : KeyPoint2D.t * (Z * Z) =>
                         negb (has_nan (keypoint_position self depth_image depth_info
                                          (snd dr))))
                      (combine (Detection.keypoints detection) rows));
        KeyPoint3DArray.frame_id := EmptyString |}.
Proof.
  intros Hne Hrows [[Hh1 Hh2] [Hw1 Hw2]]. unfold convert_keypoints_to_3d.
  rewrite Hrows. cbn [bind].
  pose proof (mapM_length _ _ _ Hrows) as Hlen.
  destruct rows as [| r0 rs] eqn:R.
  { destruct (Detection.keypoints detection); [congruence | discriminate]. }
  rewrite <- R. clear Hlen.
  rewrite (combine_map (fun r : Z * Z =>
                          clip (snd r) 0 (Z.of_nat (CameraInfo.height depth_info) - 1))
                       (fun r : Z * Z =>
                          clip (fst r) 0 (Z.of_nat (CameraInfo.width depth_info) - 1))).
  rewrite (fp_mapM_map _ _
             (fun r : Z * Z =>
                item depth_image (sample_row depth_info (snd r))
                     (sample_col depth_info (fst r)))).
  2:{ intros r _. cbn [fst snd]. apply fp_getitem_inside.
      - unfold sample_row, clip. lia.
      - unfold sample_col, clip. lia. }
  cbn [bind]. rewrite !combine_map, !map_map. cbn [fst snd].
  rewrite !combine_map, !map_map.
  f_equal. f_equal.
  exact (fp_append_keypoints (keypoint_position self depth_image depth_info) rows
           (Detection.keypoints detection) []).
Qed.

Lemma div_nan (z d : float) : is_nan z = true -> is_nan (z / d)%float = true.
Proof.
  rewrite !is_nan_spec, div_spec.
  destruct (Prim2SF z); try discriminate. intros _. reflexivity.
Qed.

Lemma fp_nan_depth_nan_position (self : Detect3DNode) (depth_info : CameraInfo.t)
    (z : float) (u v : Z) :
  is_nan z = true -> has_nan (back_projection self depth_info z u v) = true.
Proof.
  intros H. unfold back_projection, has_nan.
  rewrite (div_nan z _ H), !orb_true_r. reflexivity.
Qed.

(** C6.  For a non-empty keypoint sequence whose coordinates
    convert to 16-bit integers [rows], on a frame whose camera information
    announces a non-empty frame that is not larger than the depth image,
    [convert_keypoints_to_3d] returns an array that holds, in input order,
    exactly the keypoints whose position has no NaN component, each as
    the record of its position, the pinhole back-projection in meters of
    the depth sampled at its clamped 16-bit pixel, together with the id
    and the score of the input keypoint.  A keypoint whose sampled depth
    is NaN has a NaN position and is left out. *)
Theorem fp_keypoints_3d_omit_undefined (self : Detect3DNode) (depth_image : ndarray)
    (depth_info : CameraInfo.t) (detection : Detection.t) (rows : list (Z * Z)) :
  Detection.keypoints detection <> [] ->
  mapM int16_row (Detection.keypoints detection) = Ok rows ->
  within_image depth_info depth_image ->
  exists msg_array,
    convert_keypoints_to_3d self depth_image depth_info detection = Ok msg_array /\
    KeyPoint3DArray.data msg_array =
      map (fun dr : KeyPoint2D.t * (Z * Z) =>
             let u := clip (snd (snd dr)) 0 (Z.of_nat (CameraInfo.height depth_info) - 1) in
             let v := clip (fst (snd dr)) 0 (Z.of_nat (CameraInfo.width depth_info) - 1) in
             let z := item depth_image u v in
             let k := CameraInfo.k depth_info in
             let d := of_Z (depth_image_units_divisor self) in
             {| KeyPoint3D.point :=
                  {| Vector3.x := (z * (of_Z v - k 2%nat) / k 0%nat / d)%float;
                     Vector3.y := (z * (of_Z u - k 5%nat) / k 4%nat / d)%float;
                     Vector3.z := (z / d)%float |};
                KeyPoint3D.id := KeyPoint2D.id (fst dr);
                KeyPoint3D.score := KeyPoint2D.score (fst dr) |})
          (filter (fun dr : KeyPoint2D.t * (Z * Z) =>
                     negb (has_nan (keypoint_position self depth_image depth_info
                                      (snd dr))))
                  (combine (Detection.keypoints detection) rows)) /\
    Forall2 (fun (p : KeyPoint2D.t) (r : Z * Z) =>
               int16 (Point2D.x (KeyPoint2D.point p)) = Ok (fst r) /\
               int16 (Point2D.y (KeyPoint2D.point p)) = Ok (snd r))
            (Detection.keypoints detection) rows /\
    (forall r,
        is_nan (item depth_image (sample_row depth_info (snd r))
                     (sample_col depth_info (fst r))) = true ->
        has_nan (keypoint_position self depth_image depth_info r) = true) /\
    (forall r,
        has_nan (keypoint_position self depth_image depth_info r) =
        let u := clip (snd r) 0 (Z.of_nat (CameraInfo.height depth_info) - 1) in
        let v := clip (fst r) 0 (Z.of_nat (CameraInfo.width depth_info) - 1) in
        let z := item depth_image u v in
        let k := CameraInfo.k depth_info in
        let d := of_Z (depth_image_units_divisor self) in
        is_nan (z * (of_Z v - k 2%nat) / k 0%nat / d)%float
        || is_nan (z * (of_Z u - k 5%nat) / k 4%nat / d)%float
        || is_nan (z / d)%float).
Proof.
  intros Hne Hrows Hin. eexists. split.
  - apply fp_convert_keypoints_to_3d_eq; eassumption.
  - cbn [KeyPoint3DArray.data].
    split; [reflexivity |].
    split.
    { apply mapM_Forall2 in Hrows. revert Hrows. apply Forall2_impl.
      intros p r. apply int16_row_returns. }
    split; [| reflexivity].
    intros r. apply fp_nan_depth_nan_position.
Qed.

Lemma fp_keypoints_3d_omit_undefined_witness :
  exists msg_array,
    convert_keypoints_to_3d (sample_node small_image) small_image (sample_info 4 4)
      small_skeleton = Ok msg_array /\
    map KeyPoint3D.id (KeyPoint3DArray.data msg_array) = [1; 3]%Z /\
    map (fun p => Vector3.z (KeyPoint3D.point p)) (KeyPoint3DArray.data msg_array)
    = [1; 1.2]%float.
Proof.
  destruct (fp_keypoints_3d_omit_undefined (sample_node small_image) small_image
              (sample_info 4 4) small_skeleton [(1, 1); (2, 1); (2, 2)]%Z)
    as (msg_array & E & D & _).
  - discriminate.
  - vm_compute. reflexivity.
  - vm_compute. lia.
  - exists msg_array. split; [exact E |]. rewrite D.
    split; vm_compute; reflexivity.
Defined.

(** A camera information that announces a frame larger than the depth
    image lets the clamped pixel fall outside the image. *)
Lemma oversized_camera_info_raises :
  convert_keypoints_to_3d (sample_node small_image) small_image (sample_info 8 8)
    corner_skeleton = Raise IndexError.
Proof. vm_compute. reflexivity. Qed.

(** ** The 16-bit pixel coordinates *)

Lemma fp_mapM_same_pixel (l l' : list KeyPoint2D.t) :
  Forall2 same_pixel l l' -> mapM int16_row l = mapM int16_row l'.
Proof.
  induction 1 as [| p q l l' [Hr _] _ IH]; [reflexivity |].
  cbn. rewrite Hr, IH. reflexivity.
Qed.

Lemma fp_append_same_pixel (pts : list vec3) (l l' : list KeyPoint2D.t) :
  Forall2 same_pixel l l' ->
  forall acc,
    fold_left append_keypoint (combine pts l) acc
    = fold_left append_keypoint (combine pts l') acc.
Proof.
  intros H. revert pts.
  induction H as [| p q l l' [_ [Hi Hs]] _ IH]; intros pts acc.
  - reflexivity.
  - destruct pts as [| [[p0 p1] p2] pts]; [reflexivity |].
    cbn [combine fold_left]. unfold append_keypoint at 2 4.
    rewrite Hi, Hs. apply IH.
Qed.

(** C10.  [convert_keypoints_to_3d] stores the pixel coordinates
    as 16-bit signed integers before it clamps them to the frame.  For a
    coordinate [x] whose integer part [z = int(x)] fits a C [long], the
    stored value is the representative of [z] modulo 2^16 in
    [-32768, 32767], which differs from [z] when [z] lies outside that
    range; beyond the range of a C [long] the conversion raises
    [OverflowError].  The result depends on the coordinates only through
    the stored values: keypoints with the same 16-bit pixel, id and score
    give the same result.  For instance [x = 40000] is stored as [-25536]
    and clamped to column 0, where clamping alone would give the last
    column. *)
Theorem fp_keypoint_coordinates_wrap :
  (forall x z,
      py_int x = Ok z ->
      (- 9223372036854775808 <= z < 9223372036854775808)%Z ->
      int16 x = Ok (wrap16 z) /\
      (-32768 <= wrap16 z <= 32767)%Z /\
      ((wrap16 z - z) mod 65536 = 0)%Z /\
      (~ (-32768 <= z <= 32767)%Z -> wrap16 z <> z)) /\
  (forall x z,
      py_int x = Ok z ->
      ~ (- 9223372036854775808 <= z < 9223372036854775808)%Z ->
      int16 x = Raise OverflowError) /\
  (forall self depth_image depth_info detection detection',
      Forall2 same_pixel (Detection.keypoints detection)
                         (Detection.keypoints detection') ->
      convert_keypoints_to_3d self depth_image depth_info detection
      = convert_keypoints_to_3d self depth_image depth_info detection') /\
  int16 40000 = Ok (-25536)%Z /\
  (forall h w, (1 <= Z.of_nat w <= 40000)%Z ->
      sample_col (sample_info h w) (-25536) = 0%Z /\
      clip 40000 0 (Z.of_nat w - 1) = (Z.of_nat w - 1)%Z) /\
  convert_keypoints_to_3d (sample_node small_image) small_image (sample_info 4 4)
    wide_skeleton
  = convert_keypoints_to_3d (sample_node small_image) small_image (sample_info 4 4)
      (detection_of 2 2 3 3 [keypoint 1 0 1 0.8]).
Proof.
  split; [| split; [| split; [| split; [| split]]]].
  - intros x z Hx Hz. unfold int16. rewrite Hx. cbn [bind].
    replace ((-9223372036854775808 <=? z)%Z && (z <? 9223372036854775808)%Z)
      with true
      by (symmetry; apply andb_true_intro; split;
          [apply Z.leb_le | apply Z.ltb_lt]; lia).
    split; [reflexivity |]. split; [apply wrap16_range |].
    split; [apply wrap16_congruent |].
    intros Hout E. pose proof (wrap16_range z). lia.
  - intros x z Hx Hz. unfold int16. rewrite Hx. cbn [bind].
    destruct ((-9223372036854775808 <=? z)%Z && (z <? 9223372036854775808)%Z) eqn:B;
      [| reflexivity].
    apply andb_prop in B. destruct B as [B1 B2].
    apply Z.leb_le in B1. apply Z.ltb_lt in B2. lia.
  - intros self depth_image depth_info detection detection' H.
    unfold convert_keypoints_to_3d.
    rewrite (fp_mapM_same_pixel _ _ H).
    destruct (mapM int16_row (Detection.keypoints detection')) as [rows | e];
      [| reflexivity].
    cbn [bind]. destruct rows as [| r rows]; [reflexivity |].
    destruct (mapM _ _) as [zs | e]; [| reflexivity].
    cbn [bind]. f_equal. f_equal. apply fp_append_same_pixel. exact H.
  - vm_compute. reflexivity.
  - intros h w Hw. unfold sample_col, clip.
    cbn [sample_info CameraInfo.width]. lia.
  - vm_compute. reflexivity.
Qed.

Lemma fp_keypoint_coordinates_wrap_witness :
  int16 40000.5 = Ok (-25536)%Z.
Proof.
  destruct (proj1 fp_keypoint_coordinates_wrap 40000.5%float 40000%Z) as [E _].
  - vm_compute. reflexivity.
  - lia.
  - rewrite E. reflexivity.
Defined.

(** A column beyond the range of a C [long] is not reduced modulo 2^16:
    the conversion raises. *)
Lemma distant_column_raises :
  (32767 <? 9223372036854777856)%float = true /\
  convert_keypoints_to_3d (sample_node small_image) small_image (sample_info 4 4)
    distant_skeleton = Raise OverflowError.
Proof. split; vm_compute; reflexivity. Qed.

(* ================================================================== *)
(** * The detection pipeline, in binary64 *)
(* ================================================================== *)

(** [convert_keypoints_to_3d] reads the keypoints of the detection only. *)
Lemma fp_convert_keypoints_reads_2d (self : Detect3DNode) (depth_image : ndarray)
    (depth_info : CameraInfo.t) (detection : Detection.t) (b : BoundingBox3D.t) :
  convert_keypoints_to_3d self depth_image depth_info (Detection.set_bbox3d detection b)
  = convert_keypoints_to_3d self depth_image depth_info detection.
Proof. reflexivity. Qed.

Lemma fp_augmented_boxed (np_sum : list float -> float) (self : Detect3DNode)
    (depth_image : ndarray) (depth_info : CameraInfo.t) (transform : vec3 * quat)
    (d : Detection.t) (box : BoundingBox3D.t) :
  convert_bb_to_3d np_sum self depth_image depth_info d = Ok (Some box) ->
  augmented np_sum self depth_image depth_info transform d =
  let d' := Detection.set_bbox3d d
              (set_frame_id_box (transform_3d_box box (fst transform) (snd transform))
                                (target_frame self)) in
  match Detection.keypoints d,
        convert_keypoints_to_3d self depth_image depth_info d with
  | _ :: _, Ok k =>
      Detection.set_keypoints3d d'
        (set_frame_id_keypoints
           (transform_3d_keypoints k (fst transform) (snd transform))
           (target_frame self))
  | _, _ => d'
  end.
Proof.
  intros E. unfold augmented. rewrite E. reflexivity.
Qed.

Lemma fp_process_loop_eq (np_sum : list float -> float) (self : Detect3DNode)
    (depth_image : ndarray) (depth_info : CameraInfo.t) (transform : vec3 * quat)
    (detections new_detections : list Detection.t) :
  calls_return np_sum self depth_image depth_info detections ->
  process_loop np_sum self depth_image depth_info transform detections new_detections
  = Ok (new_detections ++
        map (augmented np_sum self depth_image depth_info transform)
            (filter (yields_box np_sum self depth_image depth_info) detections)).
Proof.
  unfold calls_return. intros H. revert new_detections.
  induction H as [| d l [[r E] K] _ IH]; intros acc; cbn [process_loop filter].
  - cbn [map]. rewrite app_nil_r. reflexivity.
  - assert (Y : yields_box np_sum self depth_image depth_info d
                = match r with Some _ => true | None => false end)
      by (unfold yields_box; rewrite E; reflexivity).
    rewrite Y in *. rewrite E. cbn [bind].
    destruct r as [box |].
    + cbn [Detection.keypoints Detection.set_bbox3d map].
      rewrite (fp_augmented_boxed _ _ _ _ transform _ _ E). cbv zeta.
      destruct (Detection.keypoints d) as [| k0 ks] eqn:D.
      * rewrite IH, <- app_assoc. reflexivity.
      * destruct (K eq_refl) as [k Ek]; [discriminate |].
        rewrite fp_convert_keypoints_reads_2d, Ek. cbn [bind].
        rewrite IH, <- app_assoc. reflexivity.
    + apply IH.
Qed.

Lemma fp_process_loop_raises (np_sum : list float -> float) (self : Detect3DNode)
    (depth_image : ndarray) (depth_info : CameraInfo.t) (transform : vec3 * quat)
    (detections new_detections : list Detection.t) :
  Exists (call_raises np_sum self depth_image depth_info) detections ->
  exists e,
    process_loop np_sum self depth_image depth_info transform detections new_detections
    = Raise e.
Proof.
  revert new_detections.
  induction detections as [| d l IH]; intros acc H; [inversion H |].
  cbn [process_loop].
  destruct (convert_bb_to_3d np_sum self depth_image depth_info d)
    as [[box |] | e] eqn:E; cbn [bind]; [| | eexists; reflexivity].
  - cbn [Detection.keypoints Detection.set_bbox3d].
    destruct (Detection.keypoints d) as [| k0 ks] eqn:D.
    + apply IH. inversion H as [? ? Hd | ? ? Hl]; subst; [| exact Hl].
      destruct Hd as [[e Ee] | [_ [Hk _]]]; congruence.
    + rewrite fp_convert_keypoints_reads_2d.
      destruct (convert_keypoints_to_3d self depth_image depth_info d)
        as [k | e] eqn:Ek; cbn [bind]; [| eexists; reflexivity].
      apply IH. inversion H as [? ? Hd | ? ? Hl]; subst; [| exact Hl].
      destruct Hd as [[e Ee] | [_ [_ [e Ee]]]]; congruence.
  - apply IH. inversion H as [? ? Hd | ? ? Hl]; subst; [| exact Hl].
    destruct Hd as [[e Ee] | [Y _]]; [congruence |].
    unfold yields_box in Y. rewrite E in Y. discriminate.
Qed.

Lemma fp_process_detections_returns (np_sum : list float -> float)
    (self : Detect3DNode) (depth_msg : Image.t) (depth_info : CameraInfo.t)
    (detections : list Detection.t) (tf : TransformStamped.t) (depth_image : ndarray) :
  lookup_transform self (target_frame self) (CameraInfo.frame_id depth_info) = Ok tf ->
  imgmsg_to_cv2 self depth_msg = Ok depth_image ->
  calls_return np_sum self depth_image depth_info detections ->
  process_detections np_sum self depth_msg depth_info detections =
  (Ok (map (augmented np_sum self depth_image depth_info (transform_of tf))
           (filter (yields_box np_sum self depth_image depth_info) detections)),
   []).
Proof.
  intros L I Hc. unfold process_detections, get_transform. rewrite L, I.
  destruct detections as [| d l]; [reflexivity |].
  cbn [bind]. fold (transform_of tf).
  rewrite fp_process_loop_eq by assumption. reflexivity.
Qed.

Lemma fp_process_detections_raises (np_sum : list float -> float)
    (self : Detect3DNode) (depth_msg : Image.t) (depth_info : CameraInfo.t)
    (detections : list Detection.t) (tf : TransformStamped.t) (depth_image : ndarray) :
  lookup_transform self (target_frame self) (CameraInfo.frame_id depth_info) = Ok tf ->
  imgmsg_to_cv2 self depth_msg = Ok depth_image ->
  Exists (call_raises np_sum self depth_image depth_info) detections ->
  exists e,
    process_detections np_sum self depth_msg depth_info detections = (Raise e, []).
Proof.
  intros L I Hx. unfold process_detections, get_transform. rewrite L, I.
  destruct detections as [| d l]; [inversion Hx |].
  cbn [bind].
  destruct (fp_process_loop_raises np_sum self depth_image depth_info
              (transform_of tf) (d :: l) [] Hx) as [e He].
  exists e. fold (transform_of tf). rewrite He. reflexivity.
Qed.

(** For every detection the calls either return or one of them raises. *)
Lemma fp_calls_return_or_raise (np_sum : list float -> float) (self : Detect3DNode)
    (depth_image : ndarray) (depth_info : CameraInfo.t)
    (detections : list Detection.t) :
  calls_return np_sum self depth_image depth_info detections \/
  Exists (call_raises np_sum self depth_image depth_info) detections.
Proof.
  unfold calls_return.
  induction detections as [| d l [IH | IH]]; [left; constructor | | right; right; exact IH].
  destruct (convert_bb_to_3d np_sum self depth_image depth_info d)
    as [[box |] | e] eqn:E.
  - destruct (Detection.keypoints d) as [| k0 ks] eqn:K.
    + left. constructor; [| exact IH]. split; [eexists; exact E |].
      intros _ N. congruence.
    + destruct (convert_keypoints_to_3d self depth_image depth_info d)
        as [k | e] eqn:Ek.
      * left. constructor; [| exact IH]. split; [eexists; exact E |].
        intros _ _. eexists. exact Ek.
      * right. left. right. split; [unfold yields_box; rewrite E; reflexivity |].
        split; [rewrite K; discriminate | eexists; exact Ek].
  - left. constructor; [| exact IH]. split; [eexists; exact E |].
    intros Y. unfold yields_box in Y. rewrite E in Y. discriminate.
  - right. left. left. eexists. exact E.
Qed.

(** C2.  The output of [process_detections] is empty for an
    empty input, and when the transform lookup fails with a
    [TransformException], which is written to the log and not raised.
    With a transform and a decoded depth image, on a frame for which
    every call of [convert_bb_to_3d] and of [convert_keypoints_to_3d]
    returns, the output is the input detections for which
    [convert_bb_to_3d] yields a box, in input order, each carrying its
    box moved to the target frame; a detection without a box does not
    appear.  On a frame for which one of these calls raises, or whose
    depth message the decoder rejects, [process_detections] raises and
    there is no output list. *)
Theorem fp_process_detections_keeps_boxed (np_sum : list float -> float)
    (self : Detect3DNode) (depth_msg : Image.t) (depth_info : CameraInfo.t)
    (detections : list Detection.t) :
  (detections = [] ->
   process_detections np_sum self depth_msg depth_info detections = (Ok [], [])) /\
  (forall msg,
      detections <> [] ->
      lookup_transform self (target_frame self) (CameraInfo.frame_id depth_info)
      = Raise (TransformException msg) ->
      process_detections np_sum self depth_msg depth_info detections
      = (Ok [], [("Could not transform: " ++ msg)%string])) /\
  (forall tf depth_image,
      lookup_transform self (target_frame self) (CameraInfo.frame_id depth_info)
      = Ok tf ->
      imgmsg_to_cv2 self depth_msg = Ok depth_image ->
      calls_return np_sum self depth_image depth_info detections ->
      process_detections np_sum self depth_msg depth_info detections =
      (Ok (map (augmented np_sum self depth_image depth_info (transform_of tf))
               (filter (yields_box np_sum self depth_image depth_info) detections)),
       [])) /\
  (forall tf depth_image,
      lookup_transform self (target_frame self) (CameraInfo.frame_id depth_info)
      = Ok tf ->
      imgmsg_to_cv2 self depth_msg = Ok depth_image ->
      Exists (call_raises np_sum self depth_image depth_info) detections ->
      exists e,
        process_detections np_sum self depth_msg depth_info detections
        = (Raise e, [])) /\
  (forall tf e,
      detections <> [] ->
      lookup_transform self (target_frame self) (CameraInfo.frame_id depth_info)
      = Ok tf ->
      imgmsg_to_cv2 self depth_msg = Raise e ->
      process_detections np_sum self depth_msg depth_info detections
      = (Raise e, [])) /\
  (forall depth_image transform d,
      yields_box np_sum self depth_image depth_info d = true ->
      exists box,
        convert_bb_to_3d np_sum self depth_image depth_info d = Ok (Some box) /\
        Detection.bbox3d (augmented np_sum self depth_image depth_info transform d) =
          set_frame_id_box (transform_3d_box box (fst transform) (snd transform))
                           (target_frame self) /\
        Detection.bbox (augmented np_sum self depth_image depth_info transform d)
          = Detection.bbox d /\
        Detection.keypoints (augmented np_sum self depth_image depth_info transform d)
          = Detection.keypoints d /\
        Detection.class_id (augmented np_sum self depth_image depth_info transform d)
          = Detection.class_id d /\
        Detection.score (augmented np_sum self depth_image depth_info transform d)
          = Detection.score d).
Proof.
  split; [| split; [| split; [| split; [| split]]]].
  - intros ->. reflexivity.
  - intros msg Hne L. unfold process_detections, get_transform. rewrite L.
    destruct detections as [| d l]; [congruence | reflexivity].
  - intros tf depth_image L I Hc. apply fp_process_detections_returns; assumption.
  - intros tf depth_image L I Hx.
    apply (fp_process_detections_raises _ _ _ _ _ tf depth_image); assumption.
  - intros tf e Hne L I. unfold process_detections, get_transform. rewrite L, I.
    destruct detections as [| d l]; [congruence | reflexivity].
  - intros depth_image transform d Y. unfold yields_box in Y. unfold augmented.
    destruct (convert_bb_to_3d np_sum self depth_image depth_info d)
      as [[box |] | e]; try discriminate.
    exists box. split; [reflexivity |].
    destruct (Detection.keypoints d) eqn:K;
      [| destruct (convert_keypoints_to_3d self depth_image depth_info d)];
      cbn; rewrite ?K; repeat split.
Qed.

Lemma fp_process_detections_keeps_boxed_witness :
  process_detections sequential_sum (lost_node small_image) (depth_message 4 4)
    (sample_info 4 4) [small_detection; far_detection]
  = (Ok [], ["Could not transform: no such frame"%string]) /\
  exists a b,
    process_detections sequential_sum (sample_node small_image) (depth_message 4 4)
      (sample_info 4 4) [small_detection; far_detection; small_skeleton]
    = (Ok [a; b], []) /\
    Detection.keypoints a = [] /\
    Detection.keypoints b = Detection.keypoints small_skeleton.
Proof.
  split.
  - apply (proj1 (proj2 (fp_process_detections_keeps_boxed sequential_sum
                           (lost_node small_image) (depth_message 4 4)
                           (sample_info 4 4) [small_detection; far_detection]))).
    + discriminate.
    + reflexivity.
  - eexists. eexists. split.
    + rewrite (proj1 (proj2 (proj2 (fp_process_detections_keeps_boxed sequential_sum
                 (sample_node small_image) (depth_message 4 4) (sample_info 4 4)
                 [small_detection; far_detection; small_skeleton])))
                 identity_transform small_image eq_refl eq_refl).
      * vm_compute. reflexivity.
      * unfold calls_return. repeat constructor.
        -- eexists. vm_compute. reflexivity.
        -- intros _ K. exfalso. apply K. reflexivity.
        -- eexists. vm_compute. reflexivity.
        -- intros Y. vm_compute in Y. discriminate.
        -- eexists. vm_compute. reflexivity.
        -- intros _ _. eexists. vm_compute. reflexivity.
    + split; reflexivity.
Defined.

(** A camera information that announces a frame larger than the depth
    image makes the keypoint sampling raise: the whole frame is lost,
    with the detection that had its box. *)
Lemma oversized_camera_info_loses_frame :
  yields_box sequential_sum (sample_node small_image) small_image (sample_info 8 8)
    small_detection = true /\
  process_detections sequential_sum (sample_node small_image) (depth_message 4 4)
    (sample_info 8 8) [small_detection; corner_skeleton]
  = (Raise IndexError, []).
Proof. split; vm_compute; reflexivity. Qed.

(* ================================================================== *)
(** * Further properties of the pipeline, in binary64 *)
(* ================================================================== *)

(** X18.  With a transform and a decoded depth image, detections are
    processed one by one: when every call returns for the detections of
    [l1] and of [l2], the output for [l1 ++ l2] is the output for [l1]
    followed by the output for [l2].  When a call raises for a detection
    of either list, [process_detections] raises for [l1 ++ l2]: the
    detections that had their box are lost with it. *)
Theorem fp_process_detections_app (np_sum : list float -> float)
    (self : Detect3DNode) (depth_msg : Image.t) (depth_info : CameraInfo.t)
    (l1 l2 : list Detection.t) (tf : TransformStamped.t) (depth_image : ndarray) :
  lookup_transform self (target_frame self) (CameraInfo.frame_id depth_info) = Ok tf ->
  imgmsg_to_cv2 self depth_msg = Ok depth_image ->
  (calls_return np_sum self depth_image depth_info l1 ->
   calls_return np_sum self depth_image depth_info l2 ->
   exists o1 o2,
     process_detections np_sum self depth_msg depth_info l1 = (Ok o1, []) /\
     process_detections np_sum self depth_msg depth_info l2 = (Ok o2, []) /\
     process_detections np_sum self depth_msg depth_info (l1 ++ l2)
     = (Ok (o1 ++ o2), [])) /\
  (Exists (call_raises np_sum self depth_image depth_info) l1 \/
   Exists (call_raises np_sum self depth_image depth_info) l2 ->
   exists e,
     process_detections np_sum self depth_msg depth_info (l1 ++ l2) = (Raise e, [])).
Proof.
  intros L I. split.
  - intros H1 H2.
    rewrite (fp_process_detections_returns _ _ _ _ l1 _ _ L I H1).
    rewrite (fp_process_detections_returns _ _ _ _ l2 _ _ L I H2).
    rewrite (fp_process_detections_returns _ _ _ _ (l1 ++ l2) _ _ L I)
      by (apply Forall_app; split; assumption).
    eexists. eexists. split; [reflexivity |]. split; [reflexivity |].
    rewrite filter_app, map_app. reflexivity.
  - intros H. apply (fp_process_detections_raises _ _ _ _ _ _ _ L I).
    apply Exists_app. exact H.
Qed.

Lemma fp_process_detections_app_witness :
  exists o1 o2,
    process_detections sequential_sum (sample_node small_image) (depth_message 4 4)
      (sample_info 4 4) [small_detection] = (Ok o1, []) /\
    process_detections sequential_sum (sample_node small_image) (depth_message 4 4)
      (sample_info 4 4) [far_detection; small_skeleton] = (Ok o2, []) /\
    process_detections sequential_sum (sample_node small_image) (depth_message 4 4)
      (sample_info 4 4) [small_detection; far_detection; small_skeleton]
    = (Ok (o1 ++ o2), []).
Proof.
  apply (proj1 (fp_process_detections_app sequential_sum (sample_node small_image)
                  (depth_message 4 4) (sample_info 4 4) [small_detection]
                  [far_detection; small_skeleton] identity_transform small_image
                  eq_refl eq_refl)).
  - unfold calls_return. repeat constructor.
    + eexists. vm_compute. reflexivity.
    + intros _ K. exfalso. apply K. reflexivity.
  - unfold calls_return. repeat constructor.
    + eexists. vm_compute. reflexivity.
    + intros Y. vm_compute in Y. discriminate.
    + eexists. vm_compute. reflexivity.
    + intros _ _. eexists. vm_compute. reflexivity.
Defined.

(** X19.  With a transform and a decoded depth image,
    [process_detections] raises exactly when, for one of the detections,
    [convert_bb_to_3d] raises (a box or an anchor that is not finite) or
    the detection gets a box, has keypoints and
    [convert_keypoints_to_3d] raises (a coordinate that does not convert
    to 16 bits, a clamped pixel outside the image); otherwise every call
    returns and so does [process_detections]. *)
Theorem fp_process_detections_raises_exactly (np_sum : list float -> float)
    (self : Detect3DNode) (depth_msg : Image.t) (depth_info : CameraInfo.t)
    (detections : list Detection.t) (tf : TransformStamped.t) (depth_image : ndarray) :
  lookup_transform self (target_frame self) (CameraInfo.frame_id depth_info) = Ok tf ->
  imgmsg_to_cv2 self depth_msg = Ok depth_image ->
  ((exists e,
      process_detections np_sum self depth_msg depth_info detections = (Raise e, []))
   <-> Exists (call_raises np_sum self depth_image depth_info) detections) /\
  ((exists out,
      process_detections np_sum self depth_msg depth_info detections = (Ok out, []))
   <-> calls_return np_sum self depth_image depth_info detections).
Proof.
  intros L I.
  pose proof (fp_process_detections_returns np_sum self depth_msg depth_info
                detections tf depth_image L I) as R.
  pose proof (fp_process_detections_raises np_sum self depth_msg depth_info
                detections tf depth_image L I) as X.
  destruct (fp_calls_return_or_raise np_sum self depth_image depth_info detections)
    as [C | E].
  - specialize (R C). split; split.
    + intros [e He]. rewrite R in He. discriminate.
    + intros E. destruct (X E) as [e He]. rewrite R in He. discriminate.
    + intros _. exact C.
    + intros _. eexists. exact R.
  - destruct (X E) as [e He]. split; split.
    + intros _. exact E.
    + intros _. exists e. exact He.
    + intros [out Ho]. rewrite He in Ho. discriminate.
    + intros C. rewrite (R C) in He. discriminate.
Qed.

Lemma fp_process_detections_raises_exactly_witness :
  (exists e,
      process_detections sequential_sum (sample_node small_image) (depth_message 4 4)
        (sample_info 8 8) [small_detection; corner_skeleton] = (Raise e, []))
  <-> Exists (call_raises sequential_sum (sample_node small_image) small_image
                (sample_info 8 8)) [small_detection; corner_skeleton].
Proof.
  apply (proj1 (fp_process_detections_raises_exactly sequential_sum
                  (sample_node small_image) (depth_message 4 4) (sample_info 8 8)
                  [small_detection; corner_skeleton] identity_transform small_image
                  eq_refl eq_refl)).
Defined.
